(** * LangExtract HTTP gateway: a shallow embedding and its properties

    The development follows the service under [services/langextract-api]:
    [app/settings.py], [app/auth.py], [app/schemas.py] and [app/main.py].
    Python values are embedded as an inductive type, exceptions as an error
    monad, the process-wide semaphore as an explicit counter, and
    concurrent requests as schedules of the segments that the event loop
    runs between the suspension points of the handlers. *)

From Stdlib Require Import ZArith List String Ascii Bool Lia.
From Stdlib Require Import QArith.
From Stdlib Require Import DecimalString.
From Stdlib Require Import Sorting.Sorted.
Import ListNotations.

#[local] Set Warnings "-register-all".

Local Open Scope string_scope.
Local Open Scope Z_scope.

(** ** Python preliminaries

    A [str] is embedded as a [string], one character for each code point;
    the functions on characters are given on the code points below 256,
    which is the range of a header value decoded as Latin-1. *)

Module Py.

(** Exceptions: a computation either returns or raises. *)
Inductive except (E A : Type) : Type :=
| Ok (a : A)
| Raise (e : E).
Arguments Ok {E A} a.
Arguments Raise {E A} e.

Definition bind {E A B} (m : except E A) (k : A -> except E B) : except E B :=
  match m with
  | Ok a => k a
  | Raise e => Raise e
  end.

Fixpoint mapM {E A B} (f : A -> except E B) (l : list A) : except E (list B) :=
  match l with
  | [] => Ok []
  | a :: l' =>
      bind (f a) (fun b => bind (mapM f l') (fun bs => Ok (b :: bs)))
  end.

(** [str(n)] for an [int]. *)
Definition str_of_int (n : Z) : string := NilZero.string_of_int (Z.to_int n).

(** Truth value of a [str]: empty strings are falsy. *)
Definition str_truthy (s : string) : bool :=
  match s with
  | EmptyString => false
  | String _ _ => true
  end.

Definition code (c : ascii) : Z := Z.of_N (N_of_ascii c).

(** [str.isspace] on the code points below 256. *)
Definition is_space (c : ascii) : bool :=
  let n := code c in
  ((9 <=? n) && (n <=? 13)) || ((28 <=? n) && (n <=? 32))
  || (n =? 133) || (n =? 160).

Fixpoint lstrip (s : string) : string :=
  match s with
  | EmptyString => EmptyString
  | String c rest => if is_space c then lstrip rest else s
  end.

(** Right strip: a suffix made of white space only is dropped. *)
Fixpoint rstrip (s : string) : string :=
  match s with
  | EmptyString => EmptyString
  | String c rest =>
      match rstrip rest with
      | EmptyString => if is_space c then EmptyString else String c EmptyString
      | r => String c r
      end
  end.

(** [s.strip()] *)
Definition strip (s : string) : string := rstrip (lstrip s).

(** [s.lower()] on the code points below 256. *)
Definition lower_char (c : ascii) : ascii :=
  let n := code c in
  if ((65 <=? n) && (n <=? 90))
     || ((192 <=? n) && (n <=? 222) && negb (n =? 215))
  then ascii_of_N (Z.to_N (n + 32))
  else c.

Fixpoint lower (s : string) : string :=
  match s with
  | EmptyString => EmptyString
  | String c rest => String (lower_char c) (lower rest)
  end.

(** [s.endswith(suffix)] *)
Definition endswith (s suffix : string) : bool :=
  let n := String.length s in
  let m := String.length suffix in
  (m <=? n)%nat && String.eqb (substring (n - m) m s) suffix.

(** [len(s)] as a Python [int]. *)
Definition len (s : string) : Z := Z.of_nat (String.length s).

(** [s[:n]]: a negative bound counts from the end. *)
Definition slice_to (s : string) (n : Z) : string :=
  if 0 <=? n then substring 0 (Z.to_nat n) s
  else substring 0 (Z.to_nat (len s + n)) s.

(** [sep.join(parts)] *)
Fixpoint join (sep : string) (parts : list string) : string :=
  match parts with
  | [] => ""
  | [p] => p
  | p :: rest => p ++ sep ++ join sep rest
  end.

(** [s.isascii()] *)
Fixpoint isascii (s : string) : bool :=
  match s with
  | EmptyString => true
  | String c rest => (code c <? 128) && isascii rest
  end.

(** The decimal fragment of [int(s)] on ASCII text: surrounding white space,
    an optional sign, digits with single underscores between them.  [None]
    stands for [ValueError]. *)
Definition digit_val (c : ascii) : option Z :=
  let n := code c in
  if (48 <=? n) && (n <=? 57) then Some (n - 48) else None.

Fixpoint digits_acc (acc : Z) (after_digit : bool) (s : string) : option Z :=
  match s with
  | EmptyString => if after_digit then Some acc else None
  | String c rest =>
      match digit_val c with
      | Some d => digits_acc (10 * acc + d) true rest
      | None =>
          if Ascii.eqb c "_" && after_digit then digits_acc acc false rest
          else None
      end
  end.

Definition int_ascii (s : string) : option Z :=
  match strip s with
  | String "-" rest => option_map Z.opp (digits_acc 0 false rest)
  | String "+" rest => digits_acc 0 false rest
  | body => digits_acc 0 false body
  end.

End Py.

Import Py.

Declare Scope except_scope.
Delimit Scope except_scope with except.
Notation "x <- m ;; k" := (bind m (fun x => k))
  (at level 61, m at next level, right associativity) : except_scope.
Notation "m ;;; k" := (bind m (fun _ => k))
  (at level 61, right associativity) : except_scope.

(** ** app/settings.py *)

Module Settings.

Record t : Type := {
  SERVICE_API_KEY : string;
  LANGEXTRACT_API_KEY : string;
  DEFAULT_MODEL_ID : string;
  REQUEST_TIMEOUT_SECONDS : Z;
  MAX_CONCURRENCY : Z;
  MAX_TEXT_CHARS : Z;
  MAX_EXAMPLES : Z;
  MAX_WORKERS : Z
}.

Section Env.

(** [os.getenv]: the process environment. *)
Variable getenv : string -> option string.

(** [int(raw)] on a [str]; [None] stands for [ValueError], the only
    exception it raises on a [str]. *)
Variable int_of_str : string -> option Z.

Definition _int_env (name : string) (default : Z) : Z :=
  match getenv name with
  | None => default
  | Some raw =>
      match int_of_str raw with
      | Some n => n
      | None => default
      end
  end.

(** [os.getenv(name, default)] *)
Definition getenv_default (name default : string) : string :=
  match getenv name with
  | Some v => v
  | None => default
  end.

(** The module body: every setting is read once, at import. *)
Definition load : t := {|
  SERVICE_API_KEY := getenv_default "SERVICE_API_KEY" "";
  LANGEXTRACT_API_KEY := getenv_default "LANGEXTRACT_API_KEY" "";
  DEFAULT_MODEL_ID := getenv_default "DEFAULT_MODEL_ID" "gemini-2.5-flash";
  REQUEST_TIMEOUT_SECONDS := _int_env "REQUEST_TIMEOUT_SECONDS" 120;
  MAX_CONCURRENCY := _int_env "MAX_CONCURRENCY" 4;
  MAX_TEXT_CHARS := _int_env "MAX_TEXT_CHARS" 100000;
  MAX_EXAMPLES := _int_env "MAX_EXAMPLES" 50;
  MAX_WORKERS := _int_env "MAX_WORKERS" 20
|}.

End Env.

(** The built-in defaults, as the module body passes them to [_int_env]. *)
Definition int_settings : list (string * Z * (t -> Z)) :=
  [ ("REQUEST_TIMEOUT_SECONDS", 120, REQUEST_TIMEOUT_SECONDS);
    ("MAX_CONCURRENCY", 4, MAX_CONCURRENCY);
    ("MAX_TEXT_CHARS", 100000, MAX_TEXT_CHARS);
    ("MAX_EXAMPLES", 50, MAX_EXAMPLES);
    ("MAX_WORKERS", 20, MAX_WORKERS) ].

End Settings.

(** ** Python values

    The values that flow through the gateway: JSON-like data of the request
    and the object graphs the engine returns.  A dictionary keeps the
    insertion order of its entries; its keys are strings. *)

Module Value.

Inductive value : Type :=
| VNone
| VBool (b : bool)
| VInt (n : Z)
| VFloat (q : Q)
| VStr (s : string)
| VList (items : list value)
| VDict (entries : list (string * value))
| VDataclass (fields : list (string * value))  (* a dataclass instance *)
| VObject (attrs : list (string * value))      (* an instance with __dict__ *)
| VClass                                       (* a dataclass type itself *)
| VOpaque (type_name : string).                (* any other object, one that
                                                  has no __dict__ and that
                                                  copy.deepcopy cannot copy:
                                                  a lock, a generator *)

Definition dict : Type := list (string * value).

(** [bool(v)] *)
Definition truthy (v : value) : bool :=
  match v with
  | VNone => false
  | VBool b => b
  | VInt n => negb (n =? 0)
  | VFloat q => negb (Qnum q =? 0)
  | VStr s => str_truthy s
  | VList items => match items with [] => false | _ => true end
  | VDict entries => match entries with [] => false | _ => true end
  | VDataclass _ | VObject _ | VClass | VOpaque _ => true
  end.

(** [d.get(k)]: [None] when the key is absent. *)
Fixpoint dict_get (d : dict) (k : string) : value :=
  match d with
  | [] => VNone
  | (k', v) :: rest => if String.eqb k' k then v else dict_get rest k
  end.

(** [k in d] *)
Definition dict_mem (d : dict) (k : string) : bool :=
  existsb (fun kv => String.eqb (fst kv) k) d.

(** [list(d.keys())] *)
Definition keys (d : dict) : list string := map fst d.

(** Exceptions the service meets. *)
Inductive exn : Type :=
| HTTPException (status_code : Z) (detail : string)
| TimeoutError                    (* asyncio.TimeoutError *)
| TypeError (msg : string)
| Error (repr : string).          (* any other subclass of Exception *)

(** The status of the response the framework sends: the handler's own 200,
    the status of an [HTTPException], 500 for an unhandled exception. *)
Definition status_of {A} (r : except exn A) : Z :=
  match r with
  | Ok _ => 200
  | Raise (HTTPException status_code _) => status_code
  | Raise _ => 500
  end.

End Value.

Import Value.

(** ** app/auth.py *)

Module Auth.

(** [secrets.compare_digest] on two [str]: both must be ASCII, otherwise it
    raises [TypeError]. *)
Definition compare_digest (a b : string) : except exn bool :=
  if isascii a && isascii b then Ok (String.eqb a b)
  else Raise (TypeError "comparing strings with non-ASCII characters is not supported").

Definition require_api_key (cfg : Settings.t) (x_api_key : option string)
  : except exn unit :=
  if negb (str_truthy (Settings.SERVICE_API_KEY cfg)) then
    Raise (HTTPException 503 "SERVICE_API_KEY is not configured.")
  else
    match x_api_key with
    | None => Raise (HTTPException 401 "Invalid API key.")
    | Some key =>
        if negb (str_truthy key) then
          Raise (HTTPException 401 "Invalid API key.")
        else
          bind (compare_digest key (Settings.SERVICE_API_KEY cfg))
            (fun same =>
               if negb same then Raise (HTTPException 401 "Invalid API key.")
               else Ok tt)
    end.

End Auth.

(** ** app/schemas.py *)

Module Schemas.

Record ExtractionExample : Type := {
  example_text : string;
  example_extractions : list dict
}.

Record ExtractRequest : Type := {
  text : string;
  prompt_description : string;
  examples : list ExtractionExample;
  model_id : string;
  extraction_passes : option Z;
  max_workers : option Z;
  max_char_buffer : option Z;
  language_model_params : option dict;
  output_format : string
}.

Record ExtractResponse : Type := {
  request_id : string;
  timing_ms : Z;
  result : dict;
  markdown : option string
}.

(** An optional integer field with [ge] and [le] bounds accepts [None]. *)
Definition optional_in_range (lo hi : Z) (field : option Z) : bool :=
  match field with
  | None => true
  | Some n => (lo <=? n) && (n <=? hi)
  end.

Definition example_fields_ok (e : ExtractionExample) : bool :=
  (1 <=? len (example_text e)).

(** The [Field] constraints of [ExtractRequest]: the requests the framework
    hands to the handler satisfy them. *)
Definition request_fields_ok (r : ExtractRequest) : bool :=
  (1 <=? len (text r))
  && (1 <=? len (prompt_description r))
  && (1 <=? Z.of_nat (List.length (examples r)))
  && forallb example_fields_ok (examples r)
  && (1 <=? len (model_id r))
  && optional_in_range 1 5 (extraction_passes r)
  && optional_in_range 1 20 (max_workers r)
  && optional_in_range 100 5000 (max_char_buffer r).

(** The defaults of the optional fields, for a body that gives only the
    three required ones. *)
Definition with_defaults (text prompt_description : string)
    (examples : list ExtractionExample) : ExtractRequest := {|
  text := text;
  prompt_description := prompt_description;
  examples := examples;
  model_id := "gemini-2.5-flash";
  extraction_passes := Some 1;
  max_workers := Some 10;
  max_char_buffer := Some 1000;
  language_model_params := None;
  output_format := "json"
|}.

Definition all_dicts (items : list value) : option (list dict) :=
  fold_right
    (fun item acc =>
       match item, acc with
       | VDict d, Some ds => Some (d :: ds)
       | _, _ => None
       end)
    (Some []) items.

(** [ExtractionExample.model_validate(x)] on parsed JSON: [text] is a
    required non-empty string, [extractions] a list of objects that
    defaults to the empty list, other keys are ignored.  [None] stands for
    the validation error. *)
Definition model_validate (x : value) : option ExtractionExample :=
  match x with
  | VDict fields =>
      match dict_get fields "text" with
      | VStr s =>
          if 1 <=? len s then
            if dict_mem fields "extractions" then
              match dict_get fields "extractions" with
              | VList items =>
                  option_map
                    (fun ds => {| example_text := s; example_extractions := ds |})
                    (all_dicts items)
              | _ => None
              end
            else Some {| example_text := s; example_extractions := [] |}
          else None
      | _ => None
      end
  | _ => None
  end.

End Schemas.

Import Schemas.

(** ** app/main.py: validation, example compilation, normalization *)

Module Main.

(** [sorted] on strings: code-point order, as [String.leb] compares. *)
Fixpoint insert_sorted (x : string) (l : list string) : list string :=
  match l with
  | [] => [x]
  | y :: rest => if String.leb x y then x :: l else y :: insert_sorted x rest
  end.

Definition sorted (l : list string) : list string :=
  fold_right insert_sorted [] l.

(** The order [sorted] puts its result in. *)
Definition le_str (a b : string) : Prop := String.leb a b = true.

(** [set(l)]: one copy of every element. *)
Definition set_of (l : list string) : list string := nodup string_dec l.

Definition allowed_keys : list string :=
  [ "temperature"; "vertexai"; "batch"; "http_options"; "top_p";
    "max_output_tokens"; "candidate_count"; "safety_settings" ].

Definition is_allowed (k : string) : bool := existsb (String.eqb k) allowed_keys.

(** [set(params.keys()) - allowed_keys] *)
Definition unknown_keys (params : dict) : list string :=
  filter (fun k => negb (is_allowed k)) (set_of (keys params)).

Section Formatting.

(** [repr] of a [str], as an f-string prints the elements of a list. *)
Variable repr_str : string -> string.

(** [str(l)] for a list of strings. *)
Definition str_of_list (l : list string) : string :=
  "[" ++ join ", " (map repr_str l) ++ "]".

Definition _validate_language_model_params (params : option dict)
  : except exn (option dict) :=
  match params with
  | None => Ok None
  | Some p =>
      let unknown := unknown_keys p in
      match unknown with
      | _ :: _ =>
          Raise (HTTPException 400
                   ("Unsupported language_model_params keys: "
                    ++ str_of_list (sorted unknown)))
      | [] => Ok (Some p)
      end
  end.

End Formatting.

(** [repr] of a string that has no quote, backslash or control character. *)
Definition repr_plain (s : string) : string := "'" ++ s ++ "'".

(** *** Result normalizer *)

(** [copy.deepcopy]: scalars and classes are returned as they are,
    containers and instances are rebuilt around the copies of what they
    hold, and an object that cannot be copied raises [TypeError]. *)
Fixpoint deepcopy (obj : value) : except exn value :=
  match obj with
  | VList items =>
      bind (mapM deepcopy items) (fun items' => Ok (VList items'))
  | VDict entries =>
      bind (mapM (fun kv => bind (deepcopy (snd kv))
                              (fun x => Ok (fst kv, x))) entries)
           (fun entries' => Ok (VDict entries'))
  | VDataclass fields =>
      bind (mapM (fun kv => bind (deepcopy (snd kv))
                              (fun x => Ok (fst kv, x))) fields)
           (fun fields' => Ok (VDataclass fields'))
  | VObject attrs =>
      bind (mapM (fun kv => bind (deepcopy (snd kv))
                              (fun x => Ok (fst kv, x))) attrs)
           (fun attrs' => Ok (VObject attrs'))
  | VOpaque type_name =>
      Raise (TypeError ("cannot pickle '" ++ type_name ++ "' object"))
  | VNone | VBool _ | VInt _ | VFloat _ | VStr _ | VClass => Ok obj
  end.

(** [dataclasses.asdict]: dataclass instances, lists and dictionaries are
    recursed into; every other object is copied with [copy.deepcopy]. *)
Fixpoint _asdict_inner (obj : value) : except exn value :=
  match obj with
  | VDataclass fields =>
      bind (mapM (fun f => bind (_asdict_inner (snd f))
                             (fun x => Ok (fst f, x))) fields)
           (fun result => Ok (VDict result))
  | VList items =>
      bind (mapM _asdict_inner items) (fun items' => Ok (VList items'))
  | VDict entries =>
      bind (mapM (fun kv => bind (_asdict_inner (snd kv))
                              (fun x => Ok (fst kv, x))) entries)
           (fun entries' => Ok (VDict entries'))
  | other => deepcopy other
  end.

Definition asdict (obj : value) : except exn value :=
  match obj with
  | VDataclass _ => _asdict_inner obj
  | _ => Raise (TypeError "asdict() should be called on dataclass instances")
  end.

(** [dataclasses.is_dataclass]: true of a dataclass and of its instances. *)
Definition is_dataclass (v : value) : bool :=
  match v with
  | VDataclass _ | VClass => true
  | _ => false
  end.

(** [vars(value)]: the [__dict__] of an instance. *)
Definition vars (attrs : list (string * value)) : value := VDict attrs.

Fixpoint _to_json (v : value) : except exn value :=
  match v with
  | VDataclass _ | VClass => asdict v
  | VList items =>
      bind (mapM _to_json items) (fun items' => Ok (VList items'))
  | VDict entries =>
      bind (mapM (fun kv => bind (_to_json (snd kv))
                              (fun x => Ok (fst kv, x))) entries)
           (fun entries' => Ok (VDict entries'))
  | VObject attrs =>
      (* _to_json(vars(value)): the dictionary branch on the attributes *)
      bind (mapM (fun kv => bind (_to_json (snd kv))
                              (fun x => Ok (fst kv, x))) attrs)
           (fun entries' => Ok (VDict entries'))
  | VNone | VBool _ | VInt _ | VFloat _ | VStr _ | VOpaque _ => Ok v
  end.

Definition isinstance_list (v : value) : bool :=
  match v with
  | VList _ => true
  | _ => false
  end.

Definition _normalize_result (result : value) : except exn dict :=
  if isinstance_list result then
    bind (_to_json result) (fun r => Ok [("documents", r)])
  else
    bind (_to_json result) (fun r => Ok [("document", r)]).

(** *** Example compiler *)

(** [lx.data.Extraction] and [lx.data.ExampleData], as the service builds
    them. *)
Record Extraction : Type := {
  extraction_class : value;
  extraction_text : value;
  attributes : value;
  description : value
}.

Record ExampleData : Type := {
  data_text : string;
  data_extractions : list Extraction
}.

Definition build_extraction (extraction : dict) : except exn Extraction :=
  let extraction_class := dict_get extraction "extraction_class" in
  let extraction_text := dict_get extraction "extraction_text" in
  if negb (truthy extraction_class) || negb (truthy extraction_text) then
    Raise (HTTPException 400
      "Each extraction in examples must include 'extraction_class' and 'extraction_text'.")
  else
    Ok {| extraction_class := extraction_class;
          extraction_text := extraction_text;
          attributes := dict_get extraction "attributes";
          description := dict_get extraction "description" |}.

Definition _build_examples (payload_examples : list ExtractionExample)
  : except exn (list ExampleData) :=
  mapM (fun example =>
          bind (mapM build_extraction (example_extractions example))
            (fun raw_extractions =>
               Ok {| data_text := example_text example;
                     data_extractions := raw_extractions |}))
       payload_examples.

(** *** PDF text *)

Section Pdf.

(** [pypdf.PdfReader]: [None] when the import fails; otherwise the text of
    each page ([None] or a string), or the exception the reader raises. *)
Variable PdfReader : option (string -> except exn (list (option string))).

Definition page_text (extracted : option string) : string :=
  match extracted with
  | Some s => if str_truthy s then s else ""
  | None => ""
  end.

Definition newline : string := String (ascii_of_nat 10) EmptyString.

Definition _extract_text_from_pdf_bytes (pdf_bytes : string)
  : except exn string :=
  match PdfReader with
  | None => Raise (HTTPException 500 "PDF support dependency unavailable.")
  | Some reader =>
      bind (reader pdf_bytes)
        (fun pages => Ok (strip (join (newline ++ newline) (map page_text pages))))
  end.

End Pdf.

(** *** Probes *)

Definition healthz : value := VDict [("ok", VBool true)].

(** [readyz]: the status code and the content of the [JSONResponse]. *)
Definition readyz (cfg : Settings.t) : Z * value :=
  let missing :=
    ((if negb (str_truthy (Settings.SERVICE_API_KEY cfg))
      then ["SERVICE_API_KEY"] else [])
     ++ (if negb (str_truthy (Settings.LANGEXTRACT_API_KEY cfg))
         then ["LANGEXTRACT_API_KEY"] else []))%list in
  match missing with
  | _ :: _ =>
      (503, VDict [("ready", VBool false); ("missing", VList (map VStr missing))])
  | [] => (200, VDict [("ready", VBool true)])
  end.

End Main.

Import Main.

(** ** app/main.py: the two extraction endpoints

    A handler runs in three segments, cut at its suspension points: the
    prologue up to the [async with _semaphore] statement; the entry into
    the block, which takes a slot and starts the engine call; the
    resumption with the outcome of [asyncio.wait_for], which runs the
    [except] clauses, leaves the block and builds the response. *)

Module Endpoints.

(** A keyword argument the call may leave out. *)
Inductive kwarg (A : Type) : Type :=
| Omitted
| Given (a : A).
Arguments Omitted {A}.
Arguments Given {A} a.

(** The keyword arguments of [lx.extract]. *)
Record ExtractArgs : Type := {
  arg_text_or_documents : string;
  arg_prompt_description : string;
  arg_examples : list ExampleData;
  arg_model_id : string;
  arg_api_key : string;
  arg_extraction_passes : option Z;
  arg_max_workers : option Z;
  arg_max_char_buffer : option Z;
  arg_language_model_params : kwarg (option dict);
  arg_show_progress : bool
}.

(** The multipart form of [/v1/extract-pdf]. *)
Record PdfForm : Type := {
  file_filename : option string;
  file_body : string;
  form_prompt_description : string;
  form_examples_json : string;
  form_model_id : string;
  form_extraction_passes : Z;
  form_max_workers : Z;
  form_max_char_buffer : Z
}.

(** The process-wide state: the counter of [_semaphore], and the engine
    invocations made so far in the order they were started. *)
Record shared : Type := {
  sem_value : Z;
  engine_calls : list ExtractArgs
}.

(** [asyncio.Semaphore(value)] raises [ValueError] on a negative value. *)
Definition Semaphore (value : Z) : except exn shared :=
  if value <? 0 then Raise (Error "ValueError: Semaphore initial value must be >= 0")
  else Ok {| sem_value := value; engine_calls := [] |}.

(** [acquire]: [None] when no slot is free and the caller stays suspended. *)
Definition acquire (value : Z) : option Z :=
  if 0 <? value then Some (value - 1) else None.

Definition release (value : Z) : Z := value + 1.

Inductive endpoint : Type := Text | Pdf.

Section Service.

Variable cfg : Settings.t.
Variable repr_str : string -> string.

(** [json.loads]: [None] stands for [JSONDecodeError]. *)
Variable json_loads : string -> option value.

(** The text of the validation error of [model_validate]. *)
Variable validation_error : value -> string.

Variable PdfReader : option (string -> except exn (list (option string))).

Definition or_default (model_id : string) : string :=
  if str_truthy model_id then model_id else Settings.DEFAULT_MODEL_ID cfg.

(** [payload.max_workers and payload.max_workers > settings.MAX_WORKERS] *)
Definition workers_exceed (max_workers : option Z) : bool :=
  match max_workers with
  | None => false
  | Some n => negb (n =? 0) && (n >? Settings.MAX_WORKERS cfg)
  end.

(** [extract_endpoint], from the first check to [_build_examples]. *)
Definition extract_prologue (payload : ExtractRequest) : except exn ExtractArgs :=
  if len (text payload) >? Settings.MAX_TEXT_CHARS cfg then
    Raise (HTTPException 400
             ("text exceeds MAX_TEXT_CHARS=" ++ str_of_int (Settings.MAX_TEXT_CHARS cfg)))
  else if Z.of_nat (List.length (examples payload)) >? Settings.MAX_EXAMPLES cfg then
    Raise (HTTPException 400
             ("examples exceed MAX_EXAMPLES=" ++ str_of_int (Settings.MAX_EXAMPLES cfg)))
  else if workers_exceed (max_workers payload) then
    Raise (HTTPException 400
             ("max_workers exceeds MAX_WORKERS=" ++ str_of_int (Settings.MAX_WORKERS cfg)))
  else
    bind (_validate_language_model_params repr_str (language_model_params payload))
      (fun lm_params =>
    bind (_build_examples (examples payload))
      (fun examples_payload =>
    Ok {| arg_text_or_documents := text payload;
          arg_prompt_description := prompt_description payload;
          arg_examples := examples_payload;
          arg_model_id := or_default (model_id payload);
          arg_api_key := Settings.LANGEXTRACT_API_KEY cfg;
          arg_extraction_passes := extraction_passes payload;
          arg_max_workers := max_workers payload;
          arg_max_char_buffer := max_char_buffer payload;
          arg_language_model_params := Given lm_params;
          arg_show_progress := false |})).

Definition is_pdf_name (filename : option string) : bool :=
  match filename with
  | None => false
  | Some name => str_truthy name && endswith (lower name) ".pdf"
  end.

(** [[ExtractionExample.model_validate(x) for x in examples_raw]] under
    its [try]. *)
Fixpoint validate_examples (examples_raw : list value)
  : except exn (list ExtractionExample) :=
  match examples_raw with
  | [] => Ok []
  | x :: rest =>
      match model_validate x with
      | None =>
          Raise (HTTPException 400
                   ("Invalid examples_json format: " ++ validation_error x))
      | Some m => bind (validate_examples rest) (fun ms => Ok (m :: ms))
      end
  end.

(** [extract_pdf_endpoint], from the first check to [_build_examples]. *)
Definition extract_pdf_prologue (form : PdfForm) : except exn ExtractArgs :=
  if negb (is_pdf_name (file_filename form)) then
    Raise (HTTPException 400 "Only PDF files are supported.")
  else if form_max_workers form >? Settings.MAX_WORKERS cfg then
    Raise (HTTPException 400
             ("max_workers exceeds MAX_WORKERS=" ++ str_of_int (Settings.MAX_WORKERS cfg)))
  else
    match json_loads (form_examples_json form) with
    | None => Raise (HTTPException 400 "examples_json must be valid JSON.")
    | Some examples_raw =>
        match examples_raw with
        | VList ((_ :: _) as items) =>
            bind (validate_examples items) (fun examples_models =>
            if negb (str_truthy (file_body form)) then
              Raise (HTTPException 400 "Uploaded file is empty.")
            else
              bind (_extract_text_from_pdf_bytes PdfReader (file_body form))
                (fun text =>
              if negb (str_truthy text) then
                Raise (HTTPException 400 "Could not extract text from PDF.")
              else
                let text :=
                  if len text >? Settings.MAX_TEXT_CHARS cfg
                  then slice_to text (Settings.MAX_TEXT_CHARS cfg)
                  else text in
                bind (_build_examples examples_models)
                  (fun examples_payload =>
                Ok {| arg_text_or_documents := text;
                      arg_prompt_description := form_prompt_description form;
                      arg_examples := examples_payload;
                      arg_model_id := or_default (form_model_id form);
                      arg_api_key := Settings.LANGEXTRACT_API_KEY cfg;
                      arg_extraction_passes := Some (form_extraction_passes form);
                      arg_max_workers := Some (form_max_workers form);
                      arg_max_char_buffer := Some (form_max_char_buffer form);
                      arg_language_model_params := Omitted;
                      arg_show_progress := false |})))
        | _ =>
            Raise (HTTPException 400 "examples_json must be a non-empty JSON array.")
        end
    end.

(** The [except] clauses around the engine call of [extract_endpoint]. *)
Definition extract_handlers (request_id : string) (outcome : except exn value)
  : except exn value :=
  match outcome with
  | Ok result => Ok result
  | Raise TimeoutError =>
      Raise (HTTPException 500 ("Request timed out. request_id=" ++ request_id))
  | Raise (HTTPException status_code detail) =>
      Raise (HTTPException status_code detail)
  | Raise _ =>
      Raise (HTTPException 500 ("Extraction failed. request_id=" ++ request_id))
  end.

(** The single [except Exception] of [extract_pdf_endpoint]. *)
Definition extract_pdf_handlers (request_id : string) (outcome : except exn value)
  : except exn value :=
  match outcome with
  | Ok result => Ok result
  | Raise _ =>
      Raise (HTTPException 500 ("Extraction failed. request_id=" ++ request_id))
  end.

Definition handlers (e : endpoint) : string -> except exn value -> except exn value :=
  match e with
  | Text => extract_handlers
  | Pdf => extract_pdf_handlers
  end.

(** After the block: normalization and the response model. *)
Definition epilogue (request_id : string) (timing_ms : Z) (handled : except exn value)
  : except exn ExtractResponse :=
  bind handled (fun result =>
  bind (_normalize_result result) (fun normalized =>
  Ok {| request_id := request_id;
        timing_ms := timing_ms;
        result := normalized;
        markdown := None |})).

(** Entering [async with _semaphore]: a slot is taken, then the engine
    call starts. *)
Definition enter_block (args : ExtractArgs) (s : shared) : option shared :=
  match acquire (sem_value s) with
  | None => None
  | Some v => Some {| sem_value := v; engine_calls := (engine_calls s ++ [args])%list |}
  end.

(** Leaving the block, normally or by an exception: the slot is given
    back. *)
Definition leave_block (s : shared) : shared :=
  {| sem_value := release (sem_value s); engine_calls := engine_calls s |}.

(** *** One request, run to completion

    [engine] is the outcome of [await asyncio.wait_for(asyncio.to_thread(
    lx.extract, ...), timeout)]: the value returned, [TimeoutError] when
    the deadline passed, or the exception the engine raised.  [None] is
    a handler that stays suspended at the gate. *)

Variable engine : ExtractArgs -> except exn value.

Definition guarded (e : endpoint) (prologue : except exn ExtractArgs)
    (x_api_key : option string) (request_id : string) (timing_ms : Z)
    (s : shared) : option (except exn ExtractResponse * shared) :=
  match Auth.require_api_key cfg x_api_key with
  | Raise err => Some (Raise err, s)
  | Ok _ =>
      match prologue with
      | Raise err => Some (Raise err, s)
      | Ok args =>
          match enter_block args s with
          | None => None
          | Some s1 =>
              let handled := handlers e request_id (engine args) in
              let s2 := leave_block s1 in
              Some (epilogue request_id timing_ms handled, s2)
          end
      end
  end.

Definition extract_endpoint (payload : ExtractRequest) :=
  guarded Text (extract_prologue payload).

Definition extract_pdf_endpoint (form : PdfForm) :=
  guarded Pdf (extract_pdf_prologue form).

End Service.

End Endpoints.

Import Endpoints.

(** ** Concurrent requests

    The event loop runs one segment of one handler at a time.  A schedule
    is the list of segments it ran, in order; the outcome of an engine call
    arrives with the segment that resumes its handler. *)

Module Loop.

Inductive request : Type :=
| ExtractCall (x_api_key : option string) (request_id : string)
    (payload : ExtractRequest)
| ExtractPdfCall (x_api_key : option string) (request_id : string)
    (form : PdfForm).

Inductive task : Type :=
| Arrived (r : request)
| Waiting (e : endpoint) (request_id : string) (args : ExtractArgs)
| Dispatched (e : endpoint) (request_id : string) (args : ExtractArgs)
| Rejected (err : exn)
| Completed (response : except exn ExtractResponse).

Record world : Type := {
  gate : shared;
  tasks : list task
}.

Inductive action : Type :=
| Start (i : nat)
| Enter (i : nat)
| Resume (i : nat) (outcome : except exn value) (timing_ms : Z).

Fixpoint set_nth {A} (i : nat) (x : A) (l : list A) : list A :=
  match l, i with
  | [], _ => []
  | _ :: rest, O => x :: rest
  | y :: rest, S j => y :: set_nth j x rest
  end.

Definition is_dispatched (t : task) : bool :=
  match t with
  | Dispatched _ _ _ => true
  | _ => false
  end.

Definition is_completed (t : task) : bool :=
  match t with
  | Completed _ => true
  | _ => false
  end.

Definition is_finished (t : task) : bool :=
  match t with
  | Rejected _ | Completed _ => true
  | _ => false
  end.

Fixpoint count (p : task -> bool) (l : list task) : Z :=
  match l with
  | [] => 0
  | t :: rest => (if p t then 1 else 0) + count p rest
  end.

(** Engine invocations running at this instant. *)
Definition in_flight (w : world) : Z := count is_dispatched (tasks w).

Definition completed (w : world) : Z := count is_completed (tasks w).

Definition quiescent (w : world) : bool := forallb is_finished (tasks w).

Section Service.

Variable cfg : Settings.t.
Variable repr_str : string -> string.
Variable json_loads : string -> option value.
Variable validation_error : value -> string.
Variable PdfReader : option (string -> except exn (list (option string))).

(** The first segment: the credential gate, then the prologue. *)
Definition start (r : request) : task :=
  match r with
  | ExtractCall x_api_key request_id payload =>
      match Auth.require_api_key cfg x_api_key with
      | Raise err => Rejected err
      | Ok _ =>
          match extract_prologue cfg repr_str payload with
          | Raise err => Rejected err
          | Ok args => Waiting Text request_id args
          end
      end
  | ExtractPdfCall x_api_key request_id form =>
      match Auth.require_api_key cfg x_api_key with
      | Raise err => Rejected err
      | Ok _ =>
          match extract_pdf_prologue cfg json_loads validation_error PdfReader form with
          | Raise err => Rejected err
          | Ok args => Waiting Pdf request_id args
          end
      end
  end.

(** One segment; [None] when the task is not at that point, or when it
    is at the gate and no slot is free. *)
Definition fire (a : action) (w : world) : option world :=
  match a with
  | Start i =>
      match nth_error (tasks w) i with
      | Some (Arrived r) =>
          Some {| gate := gate w; tasks := set_nth i (start r) (tasks w) |}
      | _ => None
      end
  | Enter i =>
      match nth_error (tasks w) i with
      | Some (Waiting e request_id args) =>
          match enter_block args (gate w) with
          | Some g =>
              Some {| gate := g;
                      tasks := set_nth i (Dispatched e request_id args) (tasks w) |}
          | None => None
          end
      | _ => None
      end
  | Resume i outcome timing_ms =>
      match nth_error (tasks w) i with
      | Some (Dispatched e request_id args) =>
          let response := epilogue request_id timing_ms (handlers e request_id outcome) in
          Some {| gate := leave_block (gate w);
                  tasks := set_nth i (Completed response) (tasks w) |}
      | _ => None
      end
  end.

Fixpoint run (schedule : list action) (w : world) : option world :=
  match schedule with
  | [] => Some w
  | a :: rest =>
      match fire a w with
      | Some w' => run rest w'
      | None => None
      end
  end.

(** Import of [app.main], then the arrival of the requests. *)
Definition boot (requests : list request) : except exn world :=
  bind (Semaphore (Settings.MAX_CONCURRENCY cfg))
    (fun g => Ok {| gate := g; tasks := map Arrived requests |}).

End Service.

(** Segments a task still has to run. *)
Definition weight (t : task) : nat :=
  match t with
  | Arrived _ => 3
  | Waiting _ _ _ => 2
  | Dispatched _ _ _ => 1
  | Rejected _ | Completed _ => 0
  end.

Fixpoint remaining (l : list task) : nat :=
  match l with
  | [] => 0
  | t :: rest => weight t + remaining rest
  end.

(** What holds of the gate in every world the loop can reach. *)
Definition gate_invariant (capacity : Z) (w : world) : Prop :=
  0 <= sem_value (gate w)
  /\ sem_value (gate w) + in_flight w = capacity
  /\ Z.of_nat (List.length (engine_calls (gate w))) = in_flight w + completed w.

End Loop.

Import Loop.

(** ** Requests served one after another *)

Module Serving.

Section Service.

Variable cfg : Settings.t.
Variable repr_str : string -> string.
Variable json_loads : string -> option value.
Variable validation_error : value -> string.
Variable PdfReader : option (string -> except exn (list (option string))).
Variable engine : ExtractArgs -> except exn value.

(** The route of a request, with the time its handler measures. *)
Definition handle (r : request) (timing_ms : Z) (s : shared)
  : option (except exn ExtractResponse * shared) :=
  match r with
  | ExtractCall x_api_key request_id payload =>
      extract_endpoint cfg repr_str engine payload x_api_key request_id timing_ms s
  | ExtractPdfCall x_api_key request_id form =>
      extract_pdf_endpoint cfg json_loads validation_error PdfReader engine form
        x_api_key request_id timing_ms s
  end.

(** Each handler runs to its response before the next request arrives. *)
Fixpoint serve (requests : list (request * Z)) (s : shared)
  : option (list (except exn ExtractResponse) * shared) :=
  match requests with
  | [] => Some ([], s)
  | (r, timing_ms) :: rest =>
      match handle r timing_ms s with
      | None => None
      | Some (response, s1) =>
          match serve rest s1 with
          | None => None
          | Some (responses, s2) => Some (response :: responses, s2)
          end
      end
  end.

End Service.

End Serving.

Import Serving.

(** ** The normalizer as the specification words it

    Records, whether dataclass instances or plain instances, become
    mappings of their fields; sequences and mappings are converted
    element by element; every other value is a leaf. *)

Module Spec.

Fixpoint plain_data (v : value) : value :=
  match v with
  | VDataclass fields =>
      VDict (map (fun f => (fst f, plain_data (snd f))) fields)
  | VObject attrs =>
      VDict (map (fun f => (fst f, plain_data (snd f))) attrs)
  | VList items => VList (map plain_data items)
  | VDict entries =>
      VDict (map (fun kv => (fst kv, plain_data (snd kv))) entries)
  | leaf => leaf
  end.

Definition normalized (raw : value) : dict :=
  match raw with
  | VList _ => [("documents", plain_data raw)]
  | _ => [("document", plain_data raw)]
  end.

(** A nesting of records, sequences, mappings and the scalars of JSON:
    no dataclass type and no object of any other kind. *)
Fixpoint engine_result (v : value) : bool :=
  match v with
  | VClass | VOpaque _ => false
  | VDataclass fields => forallb (fun f => engine_result (snd f)) fields
  | VObject attrs => forallb (fun f => engine_result (snd f)) attrs
  | VList items => forallb engine_result items
  | VDict entries => forallb (fun kv => engine_result (snd kv)) entries
  | VNone | VBool _ | VInt _ | VFloat _ | VStr _ => true
  end.

(** What [asdict] converts in full: no plain instance, and no object
    that cannot be copied. *)
Fixpoint no_object (v : value) : bool :=
  match v with
  | VObject _ | VOpaque _ => false
  | VDataclass fields => forallb (fun f => no_object (snd f)) fields
  | VList items => forallb no_object items
  | VDict entries => forallb (fun kv => no_object (snd kv)) entries
  | _ => true
  end.

Fixpoint asdict_complete (v : value) : bool :=
  match v with
  | VDataclass fields => forallb (fun f => no_object (snd f)) fields
  | VObject attrs => forallb (fun f => asdict_complete (snd f)) attrs
  | VList items => forallb asdict_complete items
  | VDict entries => forallb (fun kv => asdict_complete (snd kv)) entries
  | _ => true
  end.

(** Plain nested data: scalars, lists and dictionaries only. *)
Fixpoint is_plain (v : value) : bool :=
  match v with
  | VList items => forallb is_plain items
  | VDict entries => forallb (fun kv => is_plain (snd kv)) entries
  | VDataclass _ | VObject _ | VClass | VOpaque _ => false
  | VNone | VBool _ | VInt _ | VFloat _ | VStr _ => true
  end.

(** A dataclass type that the conversion meets: below lists, dictionaries
    and plain instances, not below a dataclass instance. *)
Fixpoint meets_class (v : value) : bool :=
  match v with
  | VClass => true
  | VList items => existsb meets_class items
  | VDict entries => existsb (fun kv => meets_class (snd kv)) entries
  | VObject attrs => existsb (fun kv => meets_class (snd kv)) attrs
  | VDataclass _ => false
  | VNone | VBool _ | VInt _ | VFloat _ | VStr _ | VOpaque _ => false
  end.

(** Nothing in the value that [copy.deepcopy] cannot copy. *)
Fixpoint copyable (v : value) : bool :=
  match v with
  | VOpaque _ => false
  | VList items => forallb copyable items
  | VDict entries => forallb (fun kv => copyable (snd kv)) entries
  | VDataclass fields => forallb (fun kv => copyable (snd kv)) fields
  | VObject attrs => forallb (fun kv => copyable (snd kv)) attrs
  | VNone | VBool _ | VInt _ | VFloat _ | VStr _ | VClass => true
  end.

(** Every dataclass instance that the conversion meets holds only what
    can be copied. *)
Fixpoint asdict_safe (v : value) : bool :=
  match v with
  | VDataclass fields => forallb (fun kv => copyable (snd kv)) fields
  | VList items => forallb asdict_safe items
  | VDict entries => forallb (fun kv => asdict_safe (snd kv)) entries
  | VObject attrs => forallb (fun kv => asdict_safe (snd kv)) attrs
  | VNone | VBool _ | VInt _ | VFloat _ | VStr _ | VClass | VOpaque _ => true
  end.

(** An exception that is a [TypeError]. *)
Definition is_type_error (e : exn) : Prop := exists msg, e = TypeError msg.

(** What [asdict] returns for a value it can copy. *)
Fixpoint asdict_value (v : value) : value :=
  match v with
  | VDataclass fields =>
      VDict (map (fun f => (fst f, asdict_value (snd f))) fields)
  | VList items => VList (map asdict_value items)
  | VDict entries =>
      VDict (map (fun kv => (fst kv, asdict_value (snd kv))) entries)
  | other => other
  end.

(** An extraction dictionary the example compiler accepts. *)
Definition extraction_ok (extraction : dict) : bool :=
  truthy (dict_get extraction "extraction_class")
  && truthy (dict_get extraction "extraction_text").

(** A string of white space only, the empty string included. *)
Fixpoint blank (s : string) : bool :=
  match s with
  | EmptyString => true
  | String c rest => is_space c && blank rest
  end.

(** A page on which the reader finds no text to speak of. *)
Definition blank_page (extracted : option string) : bool :=
  match extracted with
  | None => true
  | Some t => blank t
  end.

(** The text the PDF path hands to the engine: the text read, cut to
    the configured limit. *)
Definition cut (cfg : Settings.t) (full : string) : string :=
  if len full >? Settings.MAX_TEXT_CHARS cfg
  then slice_to full (Settings.MAX_TEXT_CHARS cfg)
  else full.

Definition examples_ok (l : list ExtractionExample) : bool :=
  forallb (fun e => forallb extraction_ok (example_extractions e)) l.

(** The engine-side record of an accepted extraction dictionary. *)
Definition compiled_extraction (extraction : dict) : Extraction := {|
  extraction_class := dict_get extraction "extraction_class";
  extraction_text := dict_get extraction "extraction_text";
  attributes := dict_get extraction "attributes";
  description := dict_get extraction "description"
|}.

Definition compiled_example (e : ExtractionExample) : ExampleData := {|
  data_text := example_text e;
  data_extractions := map compiled_extraction (example_extractions e)
|}.

Definition bad_extraction : exn :=
  HTTPException 400
    "Each extraction in examples must include 'extraction_class' and 'extraction_text'.".

(** The values on which the conversion returns: it meets no dataclass
    type, and every dataclass instance it meets holds only what can be
    copied. *)
Fixpoint converts (v : value) : bool :=
  match v with
  | VClass => false
  | VDataclass fields => forallb (fun kv => copyable (snd kv)) fields
  | VList items => forallb converts items
  | VDict entries => forallb (fun kv => converts (snd kv)) entries
  | VObject attrs => forallb (fun kv => converts (snd kv)) attrs
  | VNone | VBool _ | VInt _ | VFloat _ | VStr _ | VOpaque _ => true
  end.

(** What the conversion returns when it returns. *)
Fixpoint to_json_value (v : value) : value :=
  match v with
  | VDataclass _ => asdict_value v
  | VList items => VList (map to_json_value items)
  | VDict entries =>
      VDict (map (fun kv => (fst kv, to_json_value (snd kv))) entries)
  | VObject attrs =>
      VDict (map (fun kv => (fst kv, to_json_value (snd kv))) attrs)
  | leaf => leaf
  end.

End Spec.

(** ** Sample data

    Concrete configurations, requests and engine results on which the
    definitions above are run. *)

Module Samples.

Definition sample_environ (name : string) : option string :=
  if String.eqb name "MAX_WORKERS" then Some "twenty"
  else if String.eqb name "MAX_EXAMPLES" then Some "5"
  else None.

(** The environment of tests/conftest.py. *)
Definition conftest_environ (name : string) : option string :=
  if String.eqb name "SERVICE_API_KEY" then Some "test-service-key"
  else if String.eqb name "LANGEXTRACT_API_KEY" then Some "test-langextract-key"
  else None.

Definition test_settings : Settings.t := Settings.load conftest_environ int_ascii.

(** A header value with one byte above 127 (o with diaeresis in Latin-1). *)
Definition latin1_key : string := "wr" ++ String (ascii_of_nat 246) "ng".

Definition mixed_params : dict :=
  [ ("zeta", VInt 1); ("temperature", VFloat (1 # 2)); ("alpha", VBool true) ].

Definition tuning_params : dict :=
  [ ("temperature", VFloat (1 # 2)); ("top_p", VFloat (9 # 10)) ].

(** The stub of tests/api_test.py: a plain instance with three attributes. *)
Definition dummy_result : value :=
  VObject [ ("document_id", VStr "doc_123");
            ("text", VStr "ROMEO meets JULIET.");
            ("extractions", VList []) ].

(** A dataclass instance with a field that holds a plain instance, as an
    extraction record holds the member of an enumeration. *)
Definition aligned_extraction : value :=
  VDataclass [ ("extraction_text", VStr "ROMEO");
               ("alignment_status", VObject [ ("_value_", VStr "match_exact");
                                              ("_name_", VStr "MATCH_EXACT") ]) ].

Definition two_documents : value :=
  VList [ VDataclass [ ("text", VStr "first"); ("extractions", VList []) ];
          VObject [ ("text", VStr "second") ] ].

(** A configuration with small limits. *)
Definition tight_environ (name : string) : option string :=
  if String.eqb name "SERVICE_API_KEY" then Some "test-service-key"
  else if String.eqb name "LANGEXTRACT_API_KEY" then Some "test-langextract-key"
  else if String.eqb name "MAX_TEXT_CHARS" then Some "24"
  else if String.eqb name "MAX_EXAMPLES" then Some "1"
  else if String.eqb name "MAX_WORKERS" then Some "5"
  else if String.eqb name "MAX_CONCURRENCY" then Some "2"
  else None.

Definition tight_settings : Settings.t := Settings.load tight_environ int_ascii.

(** The payload of the tests. *)
Definition romeo_example : ExtractionExample := {|
  example_text := "ROMEO says hi.";
  example_extractions :=
    [ [ ("extraction_class", VStr "character"); ("extraction_text", VStr "ROMEO") ] ]
|}.

Definition romeo_payload : ExtractRequest :=
  with_defaults "ROMEO meets JULIET." "Extract characters." [romeo_example].

Definition set_text (s : string) (r : ExtractRequest) : ExtractRequest := {|
  text := s;
  prompt_description := prompt_description r;
  examples := examples r;
  model_id := model_id r;
  extraction_passes := extraction_passes r;
  max_workers := max_workers r;
  max_char_buffer := max_char_buffer r;
  language_model_params := language_model_params r;
  output_format := output_format r
|}.

Definition set_examples (l : list ExtractionExample) (r : ExtractRequest)
  : ExtractRequest := {|
  text := text r;
  prompt_description := prompt_description r;
  examples := l;
  model_id := model_id r;
  extraction_passes := extraction_passes r;
  max_workers := max_workers r;
  max_char_buffer := max_char_buffer r;
  language_model_params := language_model_params r;
  output_format := output_format r
|}.

Definition set_max_workers (n : option Z) (r : ExtractRequest) : ExtractRequest := {|
  text := text r;
  prompt_description := prompt_description r;
  examples := examples r;
  model_id := model_id r;
  extraction_passes := extraction_passes r;
  max_workers := n;
  max_char_buffer := max_char_buffer r;
  language_model_params := language_model_params r;
  output_format := output_format r
|}.

Definition set_params (p : option dict) (r : ExtractRequest) : ExtractRequest := {|
  text := text r;
  prompt_description := prompt_description r;
  examples := examples r;
  model_id := model_id r;
  extraction_passes := extraction_passes r;
  max_workers := max_workers r;
  max_char_buffer := max_char_buffer r;
  language_model_params := p;
  output_format := output_format r
|}.

(** Engines of the tests: one that returns the stub, one that never
    answers within the deadline, one that always raises. *)
Definition stub_engine (_ : ExtractArgs) : except exn value := Ok dummy_result.

Definition slow_engine (_ : ExtractArgs) : except exn value := Raise TimeoutError.

Definition failing_engine (_ : ExtractArgs) : except exn value :=
  Raise (Error "RuntimeError('provider quota exceeded')").

(** The gate as the import of the module leaves it. *)
Definition fresh (cfg : Settings.t) : shared :=
  {| sem_value := Settings.MAX_CONCURRENCY cfg; engine_calls := [] |}.

Definition long_text_payload : ExtractRequest :=
  set_text "ROMEO meets JULIET. Then they part." romeo_payload.

Definition two_examples_payload : ExtractRequest :=
  set_examples [romeo_example; romeo_example] romeo_payload.

Definition bad_params_payload : ExtractRequest :=
  set_max_workers (Some 4) (set_params (Some mixed_params) romeo_payload).

Definition null_workers_payload : ExtractRequest :=
  set_max_workers None romeo_payload.

(** A JSON text is written with its double quotes spelled out. *)
Definition dq : string := String (ascii_of_nat 34) EmptyString.

Definition quoted (s : string) : string := dq ++ s ++ dq.

Definition romeo_example_json : string :=
  "{" ++ quoted "text" ++ ": " ++ quoted "ROMEO says hi." ++ ", "
  ++ quoted "extractions" ++ ": [{"
  ++ quoted "extraction_class" ++ ": " ++ quoted "character" ++ ", "
  ++ quoted "extraction_text" ++ ": " ++ quoted "ROMEO" ++ "}]}".

Definition romeo_example_value : value :=
  VDict [ ("text", VStr "ROMEO says hi.");
          ("extractions",
           VList [ VDict [ ("extraction_class", VStr "character");
                           ("extraction_text", VStr "ROMEO") ] ]) ].

Definition one_example_json : string := "[" ++ romeo_example_json ++ "]".

Definition two_examples_json : string :=
  "[" ++ romeo_example_json ++ ", " ++ romeo_example_json ++ "]".

(** [json.loads] on the two texts above. *)
Definition sample_json_loads (s : string) : option value :=
  if String.eqb s one_example_json then Some (VList [romeo_example_value])
  else if String.eqb s two_examples_json then
    Some (VList [romeo_example_value; romeo_example_value])
  else None.

Definition sample_validation_error (_ : value) : string :=
  "1 validation error for ExtractionExample".

(** A reader that finds one page of text and one page without any. *)
Definition sample_reader : option (string -> except exn (list (option string))) :=
  Some (fun _ => Ok [Some "ROMEO meets JULIET. "; None]).

Definition romeo_form (examples_json : string) : PdfForm := {|
  file_filename := Some "Romeo.PDF";
  file_body := "%PDF-1.4";
  form_prompt_description := "Extract characters.";
  form_examples_json := examples_json;
  form_model_id := "gemini-2.5-flash";
  form_extraction_passes := 1;
  form_max_workers := 4;
  form_max_char_buffer := 1000
|}.

(** Three requests on a gate of capacity two: a text request and a PDF
    request that reach the engine, and a text request that is refused. *)
Definition busy_requests : list request :=
  [ ExtractCall (Some "test-service-key") "req-a"
      (set_max_workers (Some 4) romeo_payload);
    ExtractPdfCall (Some "test-service-key") "req-b" (romeo_form one_example_json);
    ExtractCall (Some "test-service-key") "req-c" long_text_payload ].

(** Both engine calls overlap; the first runs past the deadline and the
    second raises. *)
Definition busy_schedule : list action :=
  [ Start 0; Start 1; Enter 0; Start 2; Enter 1;
    Resume 0 (Raise TimeoutError) 120000;
    Resume 1 (Raise (Error "RuntimeError('provider quota exceeded')")) 15 ].

Definition busy_boot : world :=
  {| gate := fresh tight_settings; tasks := map Arrived busy_requests |}.

(** An example one of whose extractions has no text. *)
Definition broken_example : ExtractionExample := {|
  example_text := "JULIET answers.";
  example_extractions :=
    [ [ ("extraction_class", VStr "character"); ("extraction_text", VStr "JULIET") ];
      [ ("extraction_class", VStr "character"); ("extraction_text", VStr "") ] ]
|}.

Definition broken_payload : ExtractRequest :=
  set_examples [romeo_example; broken_example] romeo_payload.

(** A reader that finds no text on either page of a scanned file. *)
Definition scanned_reader : option (string -> except exn (list (option string))) :=
  Some (fun _ => Ok [Some "  "; None]).

(** A reader that finds more text than the small limit allows. *)
Definition long_reader : option (string -> except exn (list (option string))) :=
  Some (fun _ => Ok [Some "ROMEO meets JULIET."; Some "Then they part."]).

Definition text_file_form : PdfForm := {|
  file_filename := Some "notes.txt";
  file_body := "plain text";
  form_prompt_description := "Extract characters.";
  form_examples_json := one_example_json;
  form_model_id := "";
  form_extraction_passes := 1;
  form_max_workers := 4;
  form_max_char_buffer := 1000
|}.

(** A form that leaves the model id empty and asks for no worker. *)
Definition bare_form : PdfForm := {|
  file_filename := Some "romeo.pdf";
  file_body := "%PDF-1.4";
  form_prompt_description := "Extract characters.";
  form_examples_json := one_example_json;
  form_model_id := "";
  form_extraction_passes := 0;
  form_max_workers := 0;
  form_max_char_buffer := 1000
|}.

(** An engine that refuses the request with an [HTTPException] of its own. *)
Definition refusing_engine (_ : ExtractArgs) : except exn value :=
  Raise (HTTPException 429 "provider: quota exceeded for key sk-live").

Definition class_engine (_ : ExtractArgs) : except exn value :=
  Ok (VList [VClass]).

(** What the text path hands to the engine for the payload of the tests. *)
Definition romeo_args : ExtractArgs := {|
  arg_text_or_documents := "ROMEO meets JULIET.";
  arg_prompt_description := "Extract characters.";
  arg_examples := [Spec.compiled_example romeo_example];
  arg_model_id := "gemini-2.5-flash";
  arg_api_key := "test-langextract-key";
  arg_extraction_passes := Some 1;
  arg_max_workers := Some 10;
  arg_max_char_buffer := Some 1000;
  arg_language_model_params := Given None;
  arg_show_progress := false
|}.

(** Four requests in a row: one refused for its key, one answered, one
    refused for its file name, one answered. *)
Definition mixed_traffic : list (request * Z) :=
  [ (ExtractCall (Some "wrong") "req-1" romeo_payload, 1);
    (ExtractCall (Some "test-service-key") "req-2" romeo_payload, 40);
    (ExtractPdfCall (Some "test-service-key") "req-3" text_file_form, 2);
    (ExtractPdfCall (Some "test-service-key") "req-4" (romeo_form one_example_json), 55) ].

Definition negative_environ (name : string) : option string :=
  if String.eqb name "MAX_CONCURRENCY" then Some "-1" else conftest_environ name.

(** A dataclass instance with a list field that holds a lock. *)
Definition locked_document : value :=
  VDataclass [ ("text", VStr "t");
               ("handles", VList [VOpaque "_thread.lock"]) ].

End Samples.

Import Samples.

(** * Properties *)

(** ** Settings *)

Example int_ascii_examples :
  int_ascii "120" = Some 120 /\ int_ascii " -7 " = Some (-7)
  /\ int_ascii "+1_0" = Some 10 /\ int_ascii "1__0" = None
  /\ int_ascii "" = None /\ int_ascii "4.5" = None /\ int_ascii "ten" = None.
Proof. repeat split; reflexivity. Qed.

Lemma _int_env_unset getenv int_of_str name default :
  getenv name = None ->
  Settings._int_env getenv int_of_str name default = default.
Proof. unfold Settings._int_env. now intros ->. Qed.

Lemma _int_env_malformed getenv int_of_str name default raw :
  getenv name = Some raw -> int_of_str raw = None ->
  Settings._int_env getenv int_of_str name default = default.
Proof. unfold Settings._int_env. now intros -> ->. Qed.

Lemma _int_env_parsed getenv int_of_str name default raw n :
  getenv name = Some raw -> int_of_str raw = Some n ->
  Settings._int_env getenv int_of_str name default = n.
Proof. unfold Settings._int_env. now intros -> ->. Qed.

(** C10. Every integer setting whose environment variable is unset, or set
    to text that [int] rejects, takes its built-in default: [_int_env]
    returns the default, and so does each of the five integer fields of
    the loaded configuration. *)
Theorem int_settings_fall_back_to_default :
  forall (getenv : string -> option string) (int_of_str : string -> option Z)
         (name : string) (default : Z) (field : Settings.t -> Z),
    In (name, default, field) Settings.int_settings ->
    (getenv name = None
     \/ exists raw, getenv name = Some raw /\ int_of_str raw = None) ->
    Settings._int_env getenv int_of_str name default = default
    /\ field (Settings.load getenv int_of_str) = default.
Proof.
  intros getenv int_of_str name default field Hin Hraw.
  assert (Hdef : Settings._int_env getenv int_of_str name default = default).
  { destruct Hraw as [Hnone | (raw & Hsome & Hbad)].
    - now apply _int_env_unset.
    - now apply _int_env_malformed with raw. }
  split; [exact Hdef|].
  unfold Settings.int_settings in Hin. simpl in Hin.
  repeat (destruct Hin as [Heq | Hin];
          [injection Heq as <- <- <-; exact Hdef|]).
  contradiction.
Qed.

Lemma int_settings_fall_back_to_default_witness :
  Settings.MAX_WORKERS (Settings.load sample_environ int_ascii) = 20
  /\ Settings.MAX_CONCURRENCY (Settings.load sample_environ int_ascii) = 4.
Proof.
  split.
  - apply (int_settings_fall_back_to_default sample_environ int_ascii
             "MAX_WORKERS" 20 Settings.MAX_WORKERS).
    + simpl. do 4 right. left. reflexivity.
    + right. exists "twenty". split; reflexivity.
  - apply (int_settings_fall_back_to_default sample_environ int_ascii
             "MAX_CONCURRENCY" 4 Settings.MAX_CONCURRENCY).
    + simpl. right. left. reflexivity.
    + left. reflexivity.
Defined.

Example load_sample_environ :
  Settings.MAX_EXAMPLES (Settings.load sample_environ int_ascii) = 5.
Proof. reflexivity. Qed.

(** ** Credential gate *)

Lemma require_api_key_unconfigured cfg x_api_key :
  Settings.SERVICE_API_KEY cfg = "" ->
  Auth.require_api_key cfg x_api_key
  = Raise (HTTPException 503 "SERVICE_API_KEY is not configured.").
Proof. unfold Auth.require_api_key. now intros ->. Qed.

Lemma require_api_key_absent cfg :
  Settings.SERVICE_API_KEY cfg <> "" ->
  Auth.require_api_key cfg None = Raise (HTTPException 401 "Invalid API key.")
  /\ Auth.require_api_key cfg (Some "") = Raise (HTTPException 401 "Invalid API key.").
Proof.
  unfold Auth.require_api_key. intros Hcfg.
  destruct (Settings.SERVICE_API_KEY cfg); [congruence|]. now split.
Qed.

(** On ASCII secrets the gate answers 503, 401 or authorizes. *)
Lemma require_api_key_ascii cfg key :
  Settings.SERVICE_API_KEY cfg <> "" ->
  isascii (Settings.SERVICE_API_KEY cfg) = true ->
  isascii key = true ->
  Auth.require_api_key cfg (Some key)
  = if String.eqb key (Settings.SERVICE_API_KEY cfg) then Ok tt
    else Raise (HTTPException 401 "Invalid API key.").
Proof.
  unfold Auth.require_api_key, Auth.compare_digest. intros Hcfg Hsecret Hkey.
  destruct (Settings.SERVICE_API_KEY cfg) as [|c secret] eqn:Hs; [congruence|].
  cbn [str_truthy negb].
  destruct key as [|k key'].
  - reflexivity.
  - cbn [str_truthy negb]. rewrite Hkey, Hsecret. cbn [andb bind].
    now destruct (String.eqb _ _).
Qed.

(** Outside ASCII the comparison itself raises, whatever the secret. *)
Lemma require_api_key_non_ascii cfg key :
  Settings.SERVICE_API_KEY cfg <> "" ->
  key <> "" ->
  isascii key = false ->
  exists msg, Auth.require_api_key cfg (Some key) = Raise (TypeError msg).
Proof.
  unfold Auth.require_api_key, Auth.compare_digest. intros Hcfg Hne Hkey.
  destruct (Settings.SERVICE_API_KEY cfg) as [|c secret]; [congruence|].
  destruct key as [|k key']; [congruence|].
  cbn [str_truthy negb]. rewrite Hkey. cbn [andb bind]. eauto.
Qed.

(** C7. With the secret of the test configuration in place, a request whose
    [x-api-key] header carries a byte above 127 is neither authorized nor
    refused with 401: [secrets.compare_digest] raises [TypeError] and the
    framework answers 500. *)
Theorem require_api_key_raises_on_non_ascii_header :
  Settings.SERVICE_API_KEY test_settings = "test-service-key"
  /\ Auth.require_api_key test_settings (Some latin1_key)
     = Raise (TypeError "comparing strings with non-ASCII characters is not supported")
  /\ status_of (Auth.require_api_key test_settings (Some latin1_key)) = 500
  /\ Auth.require_api_key test_settings (Some "wrong")
     = Raise (HTTPException 401 "Invalid API key.")
  /\ Auth.require_api_key test_settings (Some "test-service-key") = Ok tt.
Proof. repeat split; reflexivity. Qed.

(** ** Request validator: engine parameters *)

Lemma is_allowed_In k : is_allowed k = true <-> In k allowed_keys.
Proof.
  unfold is_allowed. rewrite existsb_exists. split.
  - intros (x & Hx & Heq). apply String.eqb_eq in Heq. now subst.
  - intros Hin. exists k. split; [assumption | apply String.eqb_refl].
Qed.

Lemma is_allowed_false k : is_allowed k = false <-> ~ In k allowed_keys.
Proof.
  rewrite <- is_allowed_In. destruct (is_allowed k); split; congruence.
Qed.

Lemma unknown_keys_In params k :
  In k (unknown_keys params) <-> In k (keys params) /\ ~ In k allowed_keys.
Proof.
  unfold unknown_keys, set_of. rewrite filter_In, nodup_In, negb_true_iff.
  now rewrite is_allowed_false.
Qed.

Lemma unknown_keys_NoDup params : NoDup (unknown_keys params).
Proof. apply NoDup_filter, NoDup_nodup. Qed.

Lemma unknown_keys_nonempty params :
  (exists k, In k (keys params) /\ ~ In k allowed_keys) ->
  exists u us, unknown_keys params = u :: us.
Proof.
  intros (k & Hk & Hbad).
  assert (Hin : In k (unknown_keys params)) by now apply unknown_keys_In.
  destruct (unknown_keys params) as [|u us]; [contradiction|]. eauto.
Qed.

Lemma insert_sorted_In x l k : In k (insert_sorted x l) <-> k = x \/ In k l.
Proof.
  induction l as [|y l IH]; simpl.
  - intuition.
  - destruct (String.leb x y); simpl; [intuition | rewrite IH; intuition].
Qed.

Lemma sorted_In l k : In k (sorted l) <-> In k l.
Proof.
  induction l as [|x l IH]; simpl; [reflexivity|].
  unfold sorted in *. simpl. rewrite insert_sorted_In, IH. intuition.
Qed.

Lemma insert_sorted_NoDup x l :
  ~ In x l -> NoDup l -> NoDup (insert_sorted x l).
Proof.
  induction l as [|y l IH]; simpl; intros Hx Hl.
  - constructor; [intros []|constructor].
  - destruct (String.leb x y).
    + constructor; [exact Hx | exact Hl].
    + inversion Hl as [|? ? Hy Hl']; subst. constructor.
      * rewrite insert_sorted_In. intuition.
      * apply IH; intuition.
Qed.

Lemma sorted_NoDup l : NoDup l -> NoDup (sorted l).
Proof.
  induction 1 as [|x l Hx Hl IH]; [constructor|].
  unfold sorted in *. simpl. apply insert_sorted_NoDup; [|exact IH].
  now rewrite (sorted_In l x).
Qed.

Lemma insert_sorted_HdRel a x l :
  le_str a x -> HdRel le_str a l -> HdRel le_str a (insert_sorted x l).
Proof.
  intros Hax Hl. destruct l as [|y l]; simpl.
  - now constructor.
  - destruct (String.leb x y); constructor; [assumption|].
    now inversion Hl.
Qed.

Lemma insert_sorted_Sorted x l :
  Sorted le_str l -> Sorted le_str (insert_sorted x l).
Proof.
  induction 1 as [|y l Hl IH Hhd]; simpl.
  - repeat constructor.
  - destruct (String.leb x y) eqn:Hxy.
    + constructor; [now constructor | now constructor].
    + constructor; [exact IH|].
      apply insert_sorted_HdRel; [|exact Hhd].
      destruct (String.leb_total x y) as [H|H]; [congruence | exact H].
Qed.

Lemma sorted_Sorted l : Sorted le_str (sorted l).
Proof.
  induction l as [|x l IH]; [constructor|].
  unfold sorted in *. simpl. now apply insert_sorted_Sorted.
Qed.

Example validate_mixed_params :
  _validate_language_model_params repr_plain (Some mixed_params)
  = Raise (HTTPException 400
             "Unsupported language_model_params keys: ['alpha', 'zeta']").
Proof. reflexivity. Qed.

(** ** Result normalizer *)

(** Induction over a value and the values nested in it. *)
Lemma value_nested_ind (P : value -> Prop) :
  P VNone ->
  (forall b, P (VBool b)) ->
  (forall n, P (VInt n)) ->
  (forall q, P (VFloat q)) ->
  (forall s, P (VStr s)) ->
  (forall items, Forall P items -> P (VList items)) ->
  (forall entries, Forall (fun kv => P (snd kv)) entries -> P (VDict entries)) ->
  (forall fields, Forall (fun kv => P (snd kv)) fields -> P (VDataclass fields)) ->
  (forall attrs, Forall (fun kv => P (snd kv)) attrs -> P (VObject attrs)) ->
  P VClass ->
  (forall t, P (VOpaque t)) ->
  forall v, P v.
Proof.
  intros HNone HBool HInt HFloat HStr HList HDict HData HObj HClass HOpaque.
  fix IH 1. intros [ | b | n | q | s | items | entries | fields | attrs | | t ].
  - exact HNone.
  - apply HBool.
  - apply HInt.
  - apply HFloat.
  - apply HStr.
  - apply HList. induction items as [|x items IHitems]; constructor.
    + apply IH.
    + exact IHitems.
  - apply HDict. induction entries as [|[k x] entries IHentries]; constructor.
    + apply IH.
    + exact IHentries.
  - apply HData. induction fields as [|[k x] fields IHfields]; constructor.
    + apply IH.
    + exact IHfields.
  - apply HObj. induction attrs as [|[k x] attrs IHattrs]; constructor.
    + apply IH.
    + exact IHattrs.
  - exact HClass.
  - apply HOpaque.
Qed.

Lemma mapM_Ok {E A B} (f : A -> except E B) (g : A -> B) (l : list A) :
  Forall (fun a => f a = Ok (g a)) l -> mapM f l = Ok (map g l).
Proof.
  induction 1 as [|a l Ha Hl IH]; simpl; [reflexivity|].
  now rewrite Ha, IH.
Qed.

Lemma mapM_total {E A B} (f : A -> except E B) (l : list A) :
  Forall (fun a => exists b, f a = Ok b) l -> exists bs, mapM f l = Ok bs.
Proof.
  induction 1 as [|a l [b Hb] Hl [bs Hbs]]; simpl.
  - now exists [].
  - rewrite Hb, Hbs. simpl. now exists (b :: bs).
Qed.

Lemma mapM_length {E A B} (f : A -> except E B) (l : list A) (bs : list B) :
  mapM f l = Ok bs -> List.length bs = List.length l.
Proof.
  revert bs. induction l as [|a l IH]; simpl; intros bs H.
  - now injection H as <-.
  - destruct (f a); [|discriminate].
    destruct (mapM f l) as [bs'|]; [|discriminate].
    simpl in H. injection H as <-. simpl. now rewrite (IH bs').
Qed.

(** The branch for instances with [__dict__] is the dictionary branch on
    [vars(value)]. *)
Lemma _to_json_object attrs : _to_json (VObject attrs) = _to_json (vars attrs).
Proof. reflexivity. Qed.

(** The conversion raises on a dataclass type met outside an instance. *)
Example _to_json_dataclass_type :
  _to_json (VList [VInt 1; VClass])
  = Raise (TypeError "asdict() should be called on dataclass instances").
Proof. reflexivity. Qed.

Lemma Forall_forallb {A} (p : A -> bool) (P : A -> Prop) (l : list A) :
  Forall (fun a => p a = true -> P a) l -> forallb p l = true -> Forall P l.
Proof.
  induction 1 as [|a l Ha Hl IH]; simpl; intros Hp; constructor.
  - apply Ha. now apply andb_true_iff in Hp.
  - apply IH. now apply andb_true_iff in Hp.
Qed.

(** A loop over a list whose body either returns, on the elements that
    [ok] accepts, or raises an exception of the kind [Q]. *)
Lemma mapM_cases {E A B} (f : A -> except E B) (ok : A -> bool) (g : A -> B)
    (Q : E -> Prop) (l : list A) :
  Forall (fun a => (ok a = true -> f a = Ok (g a))
                   /\ (ok a = false -> exists e, f a = Raise e /\ Q e)) l ->
  (forallb ok l = true -> mapM f l = Ok (map g l))
  /\ (forallb ok l = false -> exists e, mapM f l = Raise e /\ Q e).
Proof.
  induction 1 as [|a l [Hgood Hbad] Hl [IHgood IHbad]]; simpl.
  - split; [reflexivity | discriminate].
  - destruct (ok a) eqn:Ha; simpl.
    + rewrite (Hgood eq_refl). simpl. split; intros H.
      * now rewrite (IHgood H).
      * destruct (IHbad H) as (e & -> & He). simpl. eauto.
    + split; [discriminate|]. intros _.
      destruct (Hbad eq_refl) as (e & -> & He). simpl. eauto.
Qed.

(** The same for the entries of a dictionary, whose keys are kept. *)
Lemma mapM_entries_cases {E} (f : value -> except E value) (ok : value -> bool)
    (g : value -> value) (Q : E -> Prop) (l : list (string * value)) :
  Forall (fun kv => (ok (snd kv) = true -> f (snd kv) = Ok (g (snd kv)))
                    /\ (ok (snd kv) = false ->
                        exists e, f (snd kv) = Raise e /\ Q e)) l ->
  (forallb (fun kv => ok (snd kv)) l = true ->
   mapM (fun kv => bind (f (snd kv)) (fun x => Ok (fst kv, x))) l
   = Ok (map (fun kv => (fst kv, g (snd kv))) l))
  /\ (forallb (fun kv => ok (snd kv)) l = false ->
      exists e,
        mapM (fun kv => bind (f (snd kv)) (fun x => Ok (fst kv, x))) l = Raise e
        /\ Q e).
Proof.
  intros H. apply mapM_cases. eapply Forall_impl; [|exact H].
  intros kv [Hgood Hbad]. split; intros Hk.
  - now rewrite (Hgood Hk).
  - destruct (Hbad Hk) as (e & -> & He). simpl. eauto.
Qed.

Lemma map_entries_id (l : list (string * value)) :
  map (fun kv => (fst kv, snd kv)) l = l.
Proof.
  induction l as [|[k x] l IH]; simpl; [reflexivity | now rewrite IH].
Qed.

(** [copy.deepcopy] returns what it is given when all of it can be
    copied, and raises [TypeError] otherwise. *)
Lemma deepcopy_cases v :
  (Spec.copyable v = true -> deepcopy v = Ok v)
  /\ (Spec.copyable v = false ->
      exists e, deepcopy v = Raise e /\ Spec.is_type_error e).
Proof.
  induction v as [ | b | n | q | s | items IH | entries IH | fields IH | attrs IH | | t ]
    using value_nested_ind;
    try (split; [reflexivity | discriminate]).
  - cbn [Spec.copyable deepcopy].
    destruct (mapM_cases deepcopy Spec.copyable (fun x => x) Spec.is_type_error items IH)
      as [Hgood Hbad].
    split; intros H.
    + rewrite (Hgood H), map_id. reflexivity.
    + destruct (Hbad H) as (e & -> & He). simpl. eauto.
  - cbn [Spec.copyable deepcopy].
    destruct (mapM_entries_cases deepcopy Spec.copyable (fun x => x)
                Spec.is_type_error entries IH) as [Hgood Hbad].
    split; intros H.
    + rewrite (Hgood H), map_entries_id. reflexivity.
    + destruct (Hbad H) as (e & -> & He). simpl. eauto.
  - cbn [Spec.copyable deepcopy].
    destruct (mapM_entries_cases deepcopy Spec.copyable (fun x => x)
                Spec.is_type_error fields IH) as [Hgood Hbad].
    split; intros H.
    + rewrite (Hgood H), map_entries_id. reflexivity.
    + destruct (Hbad H) as (e & -> & He). simpl. eauto.
  - cbn [Spec.copyable deepcopy].
    destruct (mapM_entries_cases deepcopy Spec.copyable (fun x => x)
                Spec.is_type_error attrs IH) as [Hgood Hbad].
    split; intros H.
    + rewrite (Hgood H), map_entries_id. reflexivity.
    + destruct (Hbad H) as (e & -> & He). simpl. eauto.
  - split; [discriminate|]. intros _. eexists. split; [reflexivity|].
    eexists. reflexivity.
Qed.

(** [asdict] fails exactly on what [copy.deepcopy] fails on. *)
Lemma _asdict_inner_cases v :
  (Spec.copyable v = true -> _asdict_inner v = Ok (Spec.asdict_value v))
  /\ (Spec.copyable v = false ->
      exists e, _asdict_inner v = Raise e /\ Spec.is_type_error e).
Proof.
  induction v as [ | b | n | q | s | items IH | entries IH | fields IH | attrs IH | | t ]
    using value_nested_ind;
    try (split; [reflexivity | discriminate]).
  - cbn [Spec.copyable _asdict_inner Spec.asdict_value].
    destruct (mapM_cases _asdict_inner Spec.copyable Spec.asdict_value
                Spec.is_type_error items IH) as [Hgood Hbad].
    split; intros H.
    + now rewrite (Hgood H).
    + destruct (Hbad H) as (e & -> & He). simpl. eauto.
  - cbn [Spec.copyable _asdict_inner Spec.asdict_value].
    destruct (mapM_entries_cases _asdict_inner Spec.copyable Spec.asdict_value
                Spec.is_type_error entries IH) as [Hgood Hbad].
    split; intros H.
    + now rewrite (Hgood H).
    + destruct (Hbad H) as (e & -> & He). simpl. eauto.
  - cbn [Spec.copyable _asdict_inner Spec.asdict_value].
    destruct (mapM_entries_cases _asdict_inner Spec.copyable Spec.asdict_value
                Spec.is_type_error fields IH) as [Hgood Hbad].
    split; intros H.
    + now rewrite (Hgood H).
    + destruct (Hbad H) as (e & -> & He). simpl. eauto.
  - exact (deepcopy_cases (VObject attrs)).
  - exact (deepcopy_cases (VOpaque t)).
Qed.

Lemma no_object_copyable v : Spec.no_object v = true -> Spec.copyable v = true.
Proof.
  induction v as [ | b | n | q | s | items IH | entries IH | fields IH | attrs IH | | t ]
    using value_nested_ind; intros H; try reflexivity; try discriminate H;
    cbn [Spec.no_object] in H; cbn [Spec.copyable];
    rewrite forallb_forall in *; rewrite Forall_forall in IH; auto.
Qed.

Lemma engine_result_copyable v : Spec.engine_result v = true -> Spec.copyable v = true.
Proof.
  induction v as [ | b | n | q | s | items IH | entries IH | fields IH | attrs IH | | t ]
    using value_nested_ind; intros H; try reflexivity; try discriminate H;
    cbn [Spec.engine_result] in H; cbn [Spec.copyable];
    rewrite forallb_forall in *; rewrite Forall_forall in IH; auto.
Qed.

Lemma asdict_value_plain v :
  Spec.no_object v = true -> Spec.asdict_value v = Spec.plain_data v.
Proof.
  induction v as [ | b | n | q | s | items IH | entries IH | fields IH | attrs IH | | t ]
    using value_nested_ind; intros Hno; try reflexivity.
  - cbn [Spec.no_object] in Hno. cbn [Spec.asdict_value Spec.plain_data]. f_equal.
    apply map_ext_Forall.
    eapply Forall_forallb with (p := Spec.no_object); [exact IH | exact Hno].
  - cbn [Spec.no_object] in Hno. cbn [Spec.asdict_value Spec.plain_data]. f_equal.
    apply map_ext_Forall.
    eapply Forall_forallb with (p := fun kv => Spec.no_object (snd kv)); [|exact Hno].
    eapply Forall_impl; [|exact IH]. intros kv Hkv Hok. now rewrite (Hkv Hok).
  - cbn [Spec.no_object] in Hno. cbn [Spec.asdict_value Spec.plain_data]. f_equal.
    apply map_ext_Forall.
    eapply Forall_forallb with (p := fun kv => Spec.no_object (snd kv)); [|exact Hno].
    eapply Forall_impl; [|exact IH]. intros kv Hkv Hok. now rewrite (Hkv Hok).
  - discriminate Hno.
Qed.

Lemma _asdict_inner_plain v :
  Spec.no_object v = true -> _asdict_inner v = Ok (Spec.plain_data v).
Proof.
  intros Hno.
  rewrite (proj1 (_asdict_inner_cases v) (no_object_copyable v Hno)).
  now rewrite asdict_value_plain.
Qed.

(** Where the value holds neither a dataclass type nor an object that is
    not a record, a sequence, a mapping or a scalar of JSON, the
    conversion returns, and so does the wrapping under [document] or
    [documents]. *)
Lemma _to_json_returns_on_engine_results v :
  Spec.engine_result v = true ->
  (exists r, _to_json v = Ok r)
  /\ (exists d, _normalize_result v = Ok d).
Proof.
  assert (Hjson : forall v, Spec.engine_result v = true -> exists r, _to_json v = Ok r).
  { clear v.
    induction v as [ | b | n | q | s | items IH | entries IH | fields IH | attrs IH | | t ]
      using value_nested_ind; intros Hwf; try (eexists; reflexivity).
    - cbn [Spec.engine_result] in Hwf. cbn [_to_json].
      destruct (mapM_total _to_json items) as [rs Hrs].
      { eapply Forall_forallb with (p := Spec.engine_result); [|exact Hwf].
        exact IH. }
      rewrite Hrs. eexists; reflexivity.
    - cbn [Spec.engine_result] in Hwf. cbn [_to_json].
      destruct (mapM_total (fun kv => bind (_to_json (snd kv)) (fun x => Ok (fst kv, x)))
                  entries) as [rs Hrs].
      { eapply Forall_forallb with (p := fun kv => Spec.engine_result (snd kv));
          [|exact Hwf].
        eapply Forall_impl; [|exact IH]. intros kv Hkv Hok.
        destruct (Hkv Hok) as [r Hr]. rewrite Hr. eexists; reflexivity. }
      rewrite Hrs. eexists; reflexivity.
    - cbn [_to_json asdict].
      rewrite (proj1 (_asdict_inner_cases (VDataclass fields))
                 (engine_result_copyable _ Hwf)).
      eexists; reflexivity.
    - cbn [Spec.engine_result] in Hwf. cbn [_to_json].
      destruct (mapM_total (fun kv => bind (_to_json (snd kv)) (fun x => Ok (fst kv, x)))
                  attrs) as [rs Hrs].
      { eapply Forall_forallb with (p := fun kv => Spec.engine_result (snd kv));
          [|exact Hwf].
        eapply Forall_impl; [|exact IH]. intros kv Hkv Hok.
        destruct (Hkv Hok) as [r Hr]. rewrite Hr. eexists; reflexivity. }
      rewrite Hrs. eexists; reflexivity.
    - discriminate Hwf. }
  intros Hwf. destruct (Hjson v Hwf) as [r Hr]. split.
  - now exists r.
  - unfold _normalize_result. rewrite Hr.
    destruct (isinstance_list v); eexists; reflexivity.
Qed.

(** C8. The conversion is not total.  On a dataclass instance one of
    whose fields holds, in a list, an object that [copy.deepcopy] cannot
    copy, [dataclasses.asdict] raises [TypeError], and the conversion and
    the wrapper raise with it.  The same object passes through unchanged
    where the conversion itself walks the value: in a list, and in the
    attributes of a plain instance. *)
Theorem normalization_raises_on_uncopyable_leaf :
  _to_json locked_document
  = Raise (TypeError "cannot pickle '_thread.lock' object")
  /\ _normalize_result locked_document
     = Raise (TypeError "cannot pickle '_thread.lock' object")
  /\ _to_json (VList [VOpaque "_thread.lock"])
     = Ok (VList [VOpaque "_thread.lock"])
  /\ _to_json (VObject [ ("text", VStr "t");
                         ("handles", VList [VOpaque "_thread.lock"]) ])
     = Ok (VDict [ ("text", VStr "t");
                   ("handles", VList [VOpaque "_thread.lock"]) ]).
Proof. repeat split; reflexivity. Qed.

(** Where no plain instance sits below a dataclass instance, the code
    computes the conversion of the specification. *)
Lemma _to_json_plain v :
  Spec.engine_result v = true -> Spec.asdict_complete v = true ->
  _to_json v = Ok (Spec.plain_data v).
Proof.
  induction v as [ | b | n | q | s | items IH | entries IH | fields IH | attrs IH | | t ]
    using value_nested_ind; intros Hwf Hc; try reflexivity.
  - cbn [Spec.engine_result] in Hwf. cbn [Spec.asdict_complete] in Hc.
    cbn [_to_json Spec.plain_data].
    rewrite (mapM_Ok _to_json Spec.plain_data); [reflexivity|].
    rewrite Forall_forall in IH. apply Forall_forall. intros x Hx.
    rewrite forallb_forall in Hwf, Hc. now apply IH; [|apply Hwf|apply Hc].
  - cbn [Spec.engine_result] in Hwf. cbn [Spec.asdict_complete] in Hc.
    cbn [_to_json Spec.plain_data].
    rewrite (mapM_Ok _ (fun kv => (fst kv, Spec.plain_data (snd kv)))); [reflexivity|].
    rewrite Forall_forall in IH. apply Forall_forall. intros x Hx.
    rewrite forallb_forall in Hwf, Hc.
    now rewrite (IH x Hx (Hwf x Hx) (Hc x Hx)).
  - cbn [Spec.asdict_complete] in Hc. cbn [_to_json asdict]. f_equal.
    apply _asdict_inner_plain. exact Hc.
  - cbn [Spec.engine_result] in Hwf. cbn [Spec.asdict_complete] in Hc.
    cbn [_to_json Spec.plain_data].
    rewrite (mapM_Ok _ (fun kv => (fst kv, Spec.plain_data (snd kv)))); [reflexivity|].
    rewrite Forall_forall in IH. apply Forall_forall. intros x Hx.
    rewrite forallb_forall in Hwf, Hc.
    now rewrite (IH x Hx (Hwf x Hx) (Hc x Hx)).
  - discriminate Hwf.
Qed.

Lemma _normalize_result_plain v :
  Spec.engine_result v = true -> Spec.asdict_complete v = true ->
  _normalize_result v = Ok (Spec.normalized v).
Proof.
  intros Hwf Hc. unfold _normalize_result. rewrite (_to_json_plain v Hwf Hc).
  now destruct v.
Qed.

Example normalize_dummy_result :
  _normalize_result dummy_result
  = Ok [ ("document",
          VDict [ ("document_id", VStr "doc_123");
                  ("text", VStr "ROMEO meets JULIET.");
                  ("extractions", VList []) ]) ].
Proof. reflexivity. Qed.

Example normalize_two_documents :
  _normalize_result two_documents
  = Ok [ ("documents",
          VList [ VDict [ ("text", VStr "first"); ("extractions", VList []) ];
                  VDict [ ("text", VStr "second") ] ]) ].
Proof. reflexivity. Qed.

(** C4. On a dataclass instance one of whose fields holds a plain
    instance, the code wraps under [document] a mapping in which that
    field is still the instance: [dataclasses.asdict] copies it instead
    of converting it.  The conversion of the specification turns it into
    a mapping of its attributes, as the code itself does for a plain
    instance that is not below a dataclass instance. *)
Theorem normalize_leaves_instance_below_dataclass :
  _normalize_result aligned_extraction
  = Ok [ ("document",
          VDict [ ("extraction_text", VStr "ROMEO");
                  ("alignment_status",
                   VObject [ ("_value_", VStr "match_exact");
                             ("_name_", VStr "MATCH_EXACT") ]) ]) ]
  /\ Spec.normalized aligned_extraction
     = [ ("document",
          VDict [ ("extraction_text", VStr "ROMEO");
                  ("alignment_status",
                   VDict [ ("_value_", VStr "match_exact");
                           ("_name_", VStr "MATCH_EXACT") ]) ]) ]
  /\ _normalize_result aligned_extraction <> Ok (Spec.normalized aligned_extraction)
  /\ _to_json (VObject [ ("_value_", VStr "match_exact"); ("_name_", VStr "MATCH_EXACT") ])
     = Ok (VDict [ ("_value_", VStr "match_exact"); ("_name_", VStr "MATCH_EXACT") ]).
Proof.
  split; [reflexivity|]. split; [reflexivity|]. split; [|reflexivity].
  cbv. intros H. discriminate H.
Qed.

(** ** The extraction endpoints, one request at a time *)

(** Splits on the first [a >? b] of the goal and turns the equation into
    an inequality. *)
Ltac case_gtb :=
  match goal with
  | |- context [?a >? ?b] =>
      let E := fresh "E" in
      destruct (a >? b) eqn:E; rewrite Z.gtb_ltb in E;
      [apply Z.ltb_lt in E | apply Z.ltb_ge in E]; try lia
  end.

Section EndpointFacts.

Variable cfg : Settings.t.
Variable repr_str : string -> string.
Variable json_loads : string -> option value.
Variable validation_error : value -> string.
Variable PdfReader : option (string -> except exn (list (option string))).
Variable engine : ExtractArgs -> except exn value.

(** A request refused before the block leaves the shared state as it
    was: no slot taken, no engine call. *)
Lemma guarded_rejected e prologue err x_api_key request_id timing_ms s :
  Auth.require_api_key cfg x_api_key = Ok tt ->
  prologue = Raise err ->
  guarded cfg engine e prologue x_api_key request_id timing_ms s
  = Some (Raise err, s).
Proof. unfold guarded. now intros -> ->. Qed.

Lemma guarded_unauthorized e prologue err x_api_key request_id timing_ms s :
  Auth.require_api_key cfg x_api_key = Raise err ->
  guarded cfg engine e prologue x_api_key request_id timing_ms s
  = Some (Raise err, s).
Proof. unfold guarded. now intros ->. Qed.

(** A request that reaches the block with a free slot calls the engine
    once and gives the slot back. *)
Lemma guarded_dispatched e prologue args x_api_key request_id timing_ms s :
  Auth.require_api_key cfg x_api_key = Ok tt ->
  prologue = Ok args ->
  0 < sem_value s ->
  guarded cfg engine e prologue x_api_key request_id timing_ms s
  = Some (epilogue request_id timing_ms (handlers e request_id (engine args)),
          {| sem_value := sem_value s;
             engine_calls := (engine_calls s ++ [args])%list |}).
Proof.
  unfold guarded, enter_block, acquire, leave_block, release.
  intros -> -> Hfree.
  destruct (0 <? sem_value s) eqn:Hlt; [|apply Z.ltb_ge in Hlt; lia].
  cbn [sem_value engine_calls]. do 3 f_equal. lia.
Qed.

Lemma guarded_suspended e prologue args x_api_key request_id timing_ms s :
  Auth.require_api_key cfg x_api_key = Ok tt ->
  prologue = Ok args ->
  sem_value s <= 0 ->
  guarded cfg engine e prologue x_api_key request_id timing_ms s = None.
Proof.
  unfold guarded, enter_block, acquire. intros -> -> Hfull.
  destruct (0 <? sem_value s) eqn:Hlt; [apply Z.ltb_lt in Hlt; lia|reflexivity].
Qed.

(** The four rules of the text path, in the order the prologue checks
    them. *)
Lemma prologue_text_too_long payload :
  Settings.MAX_TEXT_CHARS cfg < len (text payload) ->
  extract_prologue cfg repr_str payload
  = Raise (HTTPException 400
             ("text exceeds MAX_TEXT_CHARS=" ++ str_of_int (Settings.MAX_TEXT_CHARS cfg))).
Proof.
  intros H. unfold extract_prologue. case_gtb. reflexivity.
Qed.

Lemma prologue_too_many_examples payload :
  len (text payload) <= Settings.MAX_TEXT_CHARS cfg ->
  Settings.MAX_EXAMPLES cfg < Z.of_nat (List.length (examples payload)) ->
  extract_prologue cfg repr_str payload
  = Raise (HTTPException 400
             ("examples exceed MAX_EXAMPLES=" ++ str_of_int (Settings.MAX_EXAMPLES cfg))).
Proof.
  intros H1 H2. unfold extract_prologue. case_gtb. case_gtb. reflexivity.
Qed.

Lemma prologue_too_many_workers payload w :
  len (text payload) <= Settings.MAX_TEXT_CHARS cfg ->
  Z.of_nat (List.length (examples payload)) <= Settings.MAX_EXAMPLES cfg ->
  max_workers payload = Some w -> w <> 0 ->
  Settings.MAX_WORKERS cfg < w ->
  extract_prologue cfg repr_str payload
  = Raise (HTTPException 400
             ("max_workers exceeds MAX_WORKERS=" ++ str_of_int (Settings.MAX_WORKERS cfg))).
Proof.
  intros H1 H2 Hw Hnz H3. unfold extract_prologue, workers_exceed.
  case_gtb. case_gtb. rewrite Hw.
  destruct (w =? 0) eqn:Hz; [apply Z.eqb_eq in Hz; lia|].
  case_gtb. reflexivity.
Qed.

(** Past the three size rules the prologue is the parameter check
    followed by the example compiler. *)
Lemma prologue_past_size_rules payload :
  len (text payload) <= Settings.MAX_TEXT_CHARS cfg ->
  Z.of_nat (List.length (examples payload)) <= Settings.MAX_EXAMPLES cfg ->
  (forall w, max_workers payload = Some w -> w <= Settings.MAX_WORKERS cfg) ->
  extract_prologue cfg repr_str payload
  = bind (_validate_language_model_params repr_str (language_model_params payload))
      (fun lm_params =>
       bind (_build_examples (examples payload))
         (fun examples_payload =>
          Ok {| arg_text_or_documents := text payload;
                arg_prompt_description := prompt_description payload;
                arg_examples := examples_payload;
                arg_model_id := or_default cfg (model_id payload);
                arg_api_key := Settings.LANGEXTRACT_API_KEY cfg;
                arg_extraction_passes := extraction_passes payload;
                arg_max_workers := max_workers payload;
                arg_max_char_buffer := max_char_buffer payload;
                arg_language_model_params := Given lm_params;
                arg_show_progress := false |})).
Proof.
  intros H1 H2 H3. unfold extract_prologue, workers_exceed.
  case_gtb. case_gtb.
  destruct (max_workers payload) as [w|]; [|reflexivity].
  specialize (H3 w eq_refl). case_gtb. now rewrite andb_false_r.
Qed.

End EndpointFacts.

Example romeo_payload_fields_ok :
  request_fields_ok romeo_payload = true
  /\ request_fields_ok null_workers_payload = true.
Proof. split; reflexivity. Qed.

Example model_validate_romeo :
  model_validate romeo_example_value = Some romeo_example.
Proof. reflexivity. Qed.

Example extract_success :
  option_map (fun r => status_of (fst r))
    (extract_endpoint test_settings repr_plain stub_engine romeo_payload
       (Some "test-service-key") "c0ffee" 12 (fresh test_settings))
  = Some 200.
Proof. reflexivity. Qed.

Lemma fields_ok_workers payload w :
  request_fields_ok payload = true -> max_workers payload = Some w -> 1 <= w <= 20.
Proof.
  unfold request_fields_ok. intros Hok Hw. rewrite Hw in Hok.
  repeat (apply andb_true_iff in Hok; destruct Hok as [Hok ?]).
  unfold optional_in_range in *.
  match goal with H : (1 <=? w) && (w <=? 20) = true |- _ =>
    apply andb_true_iff in H; destruct H as [Hlo Hhi] end.
  apply Z.leb_le in Hlo, Hhi. lia.
Qed.

(** C3. On [/v1/extract] the rules are checked in the order text length,
    example count, worker count, engine-parameter keys.  The first rule
    that fails ends the request with a 400 whose detail names that rule,
    and the shared state is left as it was: no engine call was made. *)
Theorem extract_validation_order :
  forall (cfg : Settings.t) (repr_str : string -> string)
         (engine : ExtractArgs -> except exn value)
         (payload : ExtractRequest) (x_api_key : option string)
         (request_id : string) (timing_ms : Z) (s : shared),
    Auth.require_api_key cfg x_api_key = Ok tt ->
    request_fields_ok payload = true ->
    let response :=
      extract_endpoint cfg repr_str engine payload x_api_key request_id timing_ms s in
    let text_ok := len (text payload) <= Settings.MAX_TEXT_CHARS cfg in
    let examples_ok :=
      Z.of_nat (List.length (examples payload)) <= Settings.MAX_EXAMPLES cfg in
    let workers_ok :=
      forall w, max_workers payload = Some w -> w <= Settings.MAX_WORKERS cfg in
    (~ text_ok ->
     response
     = Some (Raise (HTTPException 400
                      ("text exceeds MAX_TEXT_CHARS="
                       ++ str_of_int (Settings.MAX_TEXT_CHARS cfg))), s))
    /\ (text_ok -> ~ examples_ok ->
        response
        = Some (Raise (HTTPException 400
                         ("examples exceed MAX_EXAMPLES="
                          ++ str_of_int (Settings.MAX_EXAMPLES cfg))), s))
    /\ (text_ok -> examples_ok -> ~ workers_ok ->
        response
        = Some (Raise (HTTPException 400
                         ("max_workers exceeds MAX_WORKERS="
                          ++ str_of_int (Settings.MAX_WORKERS cfg))), s))
    /\ (text_ok -> examples_ok -> workers_ok ->
        forall params,
          language_model_params payload = Some params ->
          (exists k, In k (keys params) /\ ~ In k allowed_keys) ->
          response
          = Some (Raise (HTTPException 400
                           ("Unsupported language_model_params keys: "
                            ++ str_of_list repr_str (sorted (unknown_keys params)))), s)).
Proof.
  intros cfg repr_str engine payload x_api_key request_id timing_ms s Hauth Hfields.
  cbv zeta. unfold extract_endpoint. repeat split.
  - intros H. apply guarded_rejected; [exact Hauth|].
    apply prologue_text_too_long. lia.
  - intros H1 H2. apply guarded_rejected; [exact Hauth|].
    apply prologue_too_many_examples; lia.
  - intros H1 H2 H3. apply guarded_rejected; [exact Hauth|].
    destruct (max_workers payload) as [w|] eqn:Hw.
    + destruct (fields_ok_workers payload w Hfields Hw) as [Hlo _].
      apply prologue_too_many_workers with w; try assumption; try lia.
      destruct (Z.lt_ge_cases (Settings.MAX_WORKERS cfg) w) as [Hlt|Hge]; [exact Hlt|].
      exfalso. apply H3. intros w' Hw'. injection Hw' as <-. lia.
    + exfalso. apply H3. intros w' Hw'. discriminate Hw'.
  - intros H1 H2 H3 params Hp Hbad. apply guarded_rejected; [exact Hauth|].
    rewrite prologue_past_size_rules by assumption.
    rewrite Hp.
    destruct (unknown_keys_nonempty params Hbad) as [u [us Hu]].
    unfold _validate_language_model_params. rewrite Hu. reflexivity.
Qed.

Lemma extract_validation_order_witness :
  extract_endpoint tight_settings repr_plain stub_engine long_text_payload
    (Some "test-service-key") "c0ffee" 0 (fresh tight_settings)
  = Some (Raise (HTTPException 400 "text exceeds MAX_TEXT_CHARS=24"),
          fresh tight_settings)
  /\ extract_endpoint tight_settings repr_plain stub_engine two_examples_payload
       (Some "test-service-key") "c0ffee" 0 (fresh tight_settings)
     = Some (Raise (HTTPException 400 "examples exceed MAX_EXAMPLES=1"),
             fresh tight_settings)
  /\ extract_endpoint tight_settings repr_plain stub_engine romeo_payload
       (Some "test-service-key") "c0ffee" 0 (fresh tight_settings)
     = Some (Raise (HTTPException 400 "max_workers exceeds MAX_WORKERS=5"),
             fresh tight_settings)
  /\ extract_endpoint tight_settings repr_plain stub_engine bad_params_payload
       (Some "test-service-key") "c0ffee" 0 (fresh tight_settings)
     = Some (Raise (HTTPException 400
                      "Unsupported language_model_params keys: ['alpha', 'zeta']"),
             fresh tight_settings).
Proof.
  split; [|split; [|split]].
  - pose proof (extract_validation_order tight_settings repr_plain stub_engine
                  long_text_payload (Some "test-service-key") "c0ffee" 0
                  (fresh tight_settings) eq_refl eq_refl) as H.
    cbv zeta in H. destruct H as (H1 & _). apply H1.
    vm_compute. intros H. apply H. reflexivity.
  - pose proof (extract_validation_order tight_settings repr_plain stub_engine
                  two_examples_payload (Some "test-service-key") "c0ffee" 0
                  (fresh tight_settings) eq_refl eq_refl) as H.
    cbv zeta in H. destruct H as (_ & H2 & _). apply H2.
    + vm_compute. discriminate.
    + vm_compute. intros H. apply H. reflexivity.
  - pose proof (extract_validation_order tight_settings repr_plain stub_engine
                  romeo_payload (Some "test-service-key") "c0ffee" 0
                  (fresh tight_settings) eq_refl eq_refl) as H.
    cbv zeta in H. destruct H as (_ & _ & H3 & _). apply H3.
    + vm_compute. discriminate.
    + vm_compute. discriminate.
    + intros H. specialize (H 10 eq_refl). vm_compute in H. apply H. reflexivity.
  - pose proof (extract_validation_order tight_settings repr_plain stub_engine
                  bad_params_payload (Some "test-service-key") "c0ffee" 0
                  (fresh tight_settings) eq_refl eq_refl) as H.
    cbv zeta in H. destruct H as (_ & _ & _ & H4).
    apply (H4 ltac:(vm_compute; discriminate) ltac:(vm_compute; discriminate)
              ltac:(intros w Hw; injection Hw as <-; vm_compute; discriminate)
              mixed_params eq_refl).
    exists "zeta". split.
    + simpl. now left.
    + intros Hin. apply is_allowed_In in Hin. discriminate Hin.
Defined.

(** C6. A parameter mapping with a key outside the allow-list is refused
    with status 400, and the detail prints the list of its unknown keys:
    exactly the keys of the mapping that are not allowed, each once, in
    sorted order.  On [/v1/extract] such a request is answered 400 without
    any engine call, and with that detail once the three size rules
    pass.  A mapping whose keys are all allowed is returned as it is, and
    so is an absent mapping. *)
Theorem unknown_params_rejected_sorted :
  forall (repr_str : string -> string) (params : dict),
    ((exists k, In k (keys params) /\ ~ In k allowed_keys) ->
     exists listed,
       _validate_language_model_params repr_str (Some params)
       = Raise (HTTPException 400
                  ("Unsupported language_model_params keys: "
                   ++ str_of_list repr_str listed))
       /\ (forall k, In k listed <-> In k (keys params) /\ ~ In k allowed_keys)
       /\ NoDup listed
       /\ Sorted le_str listed
       /\ forall cfg engine payload x_api_key request_id timing_ms s,
            Auth.require_api_key cfg x_api_key = Ok tt ->
            request_fields_ok payload = true ->
            language_model_params payload = Some params ->
            (exists detail,
               extract_endpoint cfg repr_str engine payload x_api_key
                 request_id timing_ms s
               = Some (Raise (HTTPException 400 detail), s))
            /\ (len (text payload) <= Settings.MAX_TEXT_CHARS cfg ->
                Z.of_nat (List.length (examples payload)) <= Settings.MAX_EXAMPLES cfg ->
                (forall w, max_workers payload = Some w ->
                           w <= Settings.MAX_WORKERS cfg) ->
                extract_endpoint cfg repr_str engine payload x_api_key
                  request_id timing_ms s
                = Some (Raise (HTTPException 400
                                 ("Unsupported language_model_params keys: "
                                  ++ str_of_list repr_str listed)), s)))
    /\ ((forall k, In k (keys params) -> In k allowed_keys) ->
        _validate_language_model_params repr_str (Some params) = Ok (Some params))
    /\ _validate_language_model_params repr_str None = Ok None.
Proof.
  intros repr_str params. split; [|split].
  - intros Hbad.
    exists (sorted (unknown_keys params)).
    destruct (unknown_keys_nonempty params Hbad) as (u & us & Hu).
    assert (Hraise : _validate_language_model_params repr_str (Some params)
                     = Raise (HTTPException 400
                                ("Unsupported language_model_params keys: "
                                 ++ str_of_list repr_str (sorted (unknown_keys params))))).
    { unfold _validate_language_model_params. rewrite Hu at 1. reflexivity. }
    split; [exact Hraise|]. split; [|split; [|split]].
    + intros k. rewrite sorted_In. apply unknown_keys_In.
    + apply sorted_NoDup, unknown_keys_NoDup.
    + apply sorted_Sorted.
    + intros cfg engine payload x_api_key request_id timing_ms s Hauth Hfields Hp.
      assert (Hpast :
                len (text payload) <= Settings.MAX_TEXT_CHARS cfg ->
                Z.of_nat (List.length (examples payload)) <= Settings.MAX_EXAMPLES cfg ->
                (forall w, max_workers payload = Some w ->
                           w <= Settings.MAX_WORKERS cfg) ->
                extract_endpoint cfg repr_str engine payload x_api_key
                  request_id timing_ms s
                = Some (Raise (HTTPException 400
                                 ("Unsupported language_model_params keys: "
                                  ++ str_of_list repr_str (sorted (unknown_keys params)))),
                        s)).
      { intros H1 H2 H3. apply guarded_rejected; [exact Hauth|].
        rewrite prologue_past_size_rules by assumption.
        rewrite Hp, Hraise. reflexivity. }
      split; [|exact Hpast].
      destruct (Z.le_gt_cases (len (text payload)) (Settings.MAX_TEXT_CHARS cfg))
        as [H1|H1].
      2:{ eexists. apply guarded_rejected; [exact Hauth|].
          apply prologue_text_too_long. lia. }
      destruct (Z.le_gt_cases (Z.of_nat (List.length (examples payload)))
                  (Settings.MAX_EXAMPLES cfg)) as [H2|H2].
      2:{ eexists. apply guarded_rejected; [exact Hauth|].
          apply prologue_too_many_examples; lia. }
      destruct (max_workers payload) as [w|] eqn:Hw.
      * destruct (fields_ok_workers payload w Hfields Hw) as [Hlo _].
        destruct (Z.le_gt_cases w (Settings.MAX_WORKERS cfg)) as [H3|H3].
        -- eexists. apply Hpast; try assumption.
           intros w' Hw'. injection Hw' as <-. exact H3.
        -- eexists. apply guarded_rejected; [exact Hauth|].
           apply prologue_too_many_workers with w; try assumption; lia.
      * eexists. apply Hpast; try assumption. intros w' Hw'. discriminate Hw'.
  - intros Hall. unfold _validate_language_model_params.
    destruct (unknown_keys params) as [|u us] eqn:Hu; [reflexivity|].
    assert (Hin : In u (unknown_keys params)) by (rewrite Hu; now left).
    apply unknown_keys_In in Hin. destruct Hin as [Hk Hbad].
    now apply Hall in Hk.
  - reflexivity.
Qed.

Lemma unknown_params_rejected_sorted_witness :
  (exists listed,
     _validate_language_model_params repr_plain (Some mixed_params)
     = Raise (HTTPException 400
                ("Unsupported language_model_params keys: "
                 ++ str_of_list repr_plain listed))
     /\ (forall k, In k listed <-> In k (keys mixed_params) /\ ~ In k allowed_keys)
     /\ NoDup listed
     /\ Sorted le_str listed)
  /\ _validate_language_model_params repr_plain (Some tuning_params)
     = Ok (Some tuning_params).
Proof.
  split.
  - destruct (proj1 (unknown_params_rejected_sorted repr_plain mixed_params))
      as (listed & Hraise & Hexact & Hnodup & Hsorted & _).
    + exists "zeta". split.
      * simpl. now left.
      * intros Hin. apply is_allowed_In in Hin. discriminate Hin.
    + exists listed. auto.
  - apply (unknown_params_rejected_sorted repr_plain tuning_params).
    intros k Hk. apply is_allowed_In. simpl in Hk.
    destruct Hk as [<- | [<- | []]]; reflexivity.
Defined.

(** C9. On the text path a request whose [max_workers] is null passes the
    worker rule whatever the configured ceiling is: when the other checks
    pass and a slot is free, the engine is called once, with no worker
    count. *)
Theorem null_max_workers_skips_ceiling :
  forall (cfg : Settings.t) (repr_str : string -> string)
         (engine : ExtractArgs -> except exn value)
         (payload : ExtractRequest) (x_api_key : option string)
         (request_id : string) (timing_ms : Z) (s : shared)
         (lm_params : option dict) (examples_payload : list ExampleData),
    Auth.require_api_key cfg x_api_key = Ok tt ->
    max_workers payload = None ->
    len (text payload) <= Settings.MAX_TEXT_CHARS cfg ->
    Z.of_nat (List.length (examples payload)) <= Settings.MAX_EXAMPLES cfg ->
    _validate_language_model_params repr_str (language_model_params payload)
    = Ok lm_params ->
    _build_examples (examples payload) = Ok examples_payload ->
    0 < sem_value s ->
    exists args,
      extract_prologue cfg repr_str payload = Ok args
      /\ arg_max_workers args = None
      /\ extract_endpoint cfg repr_str engine payload x_api_key request_id timing_ms s
         = Some (epilogue request_id timing_ms (extract_handlers request_id (engine args)),
                 {| sem_value := sem_value s;
                    engine_calls := (engine_calls s ++ [args])%list |}).
Proof.
  intros cfg repr_str engine payload x_api_key request_id timing_ms s
         lm_params examples_payload Hauth Hnull Htext Hex Hlm Hbuild Hfree.
  assert (Hpro : extract_prologue cfg repr_str payload
                 = Ok {| arg_text_or_documents := text payload;
                         arg_prompt_description := prompt_description payload;
                         arg_examples := examples_payload;
                         arg_model_id := or_default cfg (model_id payload);
                         arg_api_key := Settings.LANGEXTRACT_API_KEY cfg;
                         arg_extraction_passes := extraction_passes payload;
                         arg_max_workers := None;
                         arg_max_char_buffer := max_char_buffer payload;
                         arg_language_model_params := Given lm_params;
                         arg_show_progress := false |}).
  { rewrite prologue_past_size_rules; try assumption.
    - rewrite Hlm, Hbuild, Hnull. reflexivity.
    - intros w Hw. congruence. }
  eexists. split; [exact Hpro|]. split; [reflexivity|].
  unfold extract_endpoint.
  apply (guarded_dispatched cfg engine Text); assumption.
Qed.

Lemma null_max_workers_skips_ceiling_witness :
  Settings.MAX_WORKERS tight_settings = 5
  /\ exists args,
      extract_prologue tight_settings repr_plain null_workers_payload = Ok args
      /\ arg_max_workers args = None
      /\ extract_endpoint tight_settings repr_plain stub_engine null_workers_payload
           (Some "test-service-key") "c0ffee" 7 (fresh tight_settings)
         = Some (epilogue "c0ffee" 7 (extract_handlers "c0ffee" (stub_engine args)),
                 {| sem_value := sem_value (fresh tight_settings);
                    engine_calls := (engine_calls (fresh tight_settings) ++ [args])%list |}).
Proof.
  split; [reflexivity|].
  eapply (null_max_workers_skips_ceiling tight_settings repr_plain stub_engine
            null_workers_payload (Some "test-service-key") "c0ffee" 7
            (fresh tight_settings)).
  - reflexivity.
  - reflexivity.
  - vm_compute. discriminate.
  - vm_compute. discriminate.
  - reflexivity.
  - reflexivity.
  - reflexivity.
Defined.

Example null_workers_accepted_default_refused :
  option_map (fun r => status_of (fst r))
    (extract_endpoint tight_settings repr_plain stub_engine null_workers_payload
       (Some "test-service-key") "c0ffee" 7 (fresh tight_settings)) = Some 200
  /\ option_map (fun r => status_of (fst r))
       (extract_endpoint tight_settings repr_plain stub_engine romeo_payload
          (Some "test-service-key") "c0ffee" 7 (fresh tight_settings)) = Some 400.
Proof. split; reflexivity. Qed.

(** C2. A request that reached the engine and whose call ran past the
    deadline is answered with status 500, on both paths.  The detail is a
    fixed sentence followed by the correlation id of the request:
    [Request timed out.] on the text path, [Extraction failed.] on the
    PDF path, whose single handler also catches the timeout. *)
Theorem timeout_gives_generic_500 :
  forall (cfg : Settings.t) (repr_str : string -> string)
         (json_loads : string -> option value) (validation_error : value -> string)
         (PdfReader : option (string -> except exn (list (option string))))
         (engine : ExtractArgs -> except exn value)
         (x_api_key : option string) (request_id : string) (timing_ms : Z)
         (s : shared),
    Auth.require_api_key cfg x_api_key = Ok tt ->
    0 < sem_value s ->
    (forall payload args,
        extract_prologue cfg repr_str payload = Ok args ->
        engine args = Raise TimeoutError ->
        extract_endpoint cfg repr_str engine payload x_api_key request_id timing_ms s
        = Some (Raise (HTTPException 500
                         ("Request timed out. request_id=" ++ request_id)),
                {| sem_value := sem_value s;
                   engine_calls := (engine_calls s ++ [args])%list |}))
    /\ (forall form args,
           extract_pdf_prologue cfg json_loads validation_error PdfReader form = Ok args ->
           engine args = Raise TimeoutError ->
           extract_pdf_endpoint cfg json_loads validation_error PdfReader engine form
             x_api_key request_id timing_ms s
           = Some (Raise (HTTPException 500
                            ("Extraction failed. request_id=" ++ request_id)),
                   {| sem_value := sem_value s;
                      engine_calls := (engine_calls s ++ [args])%list |})).
Proof.
  intros cfg repr_str json_loads validation_error PdfReader engine x_api_key
         request_id timing_ms s Hauth Hfree.
  split.
  - intros payload args Hpro Hout. unfold extract_endpoint.
    rewrite (guarded_dispatched cfg engine Text _ args) by assumption.
    rewrite Hout. reflexivity.
  - intros form args Hpro Hout. unfold extract_pdf_endpoint.
    rewrite (guarded_dispatched cfg engine Pdf _ args) by assumption.
    rewrite Hout. reflexivity.
Qed.

Lemma timeout_gives_generic_500_witness :
  option_map fst
    (extract_endpoint test_settings repr_plain slow_engine romeo_payload
       (Some "test-service-key") "c0ffee" 1 (fresh test_settings))
  = Some (Raise (HTTPException 500 "Request timed out. request_id=c0ffee"))
  /\ option_map fst
       (extract_pdf_endpoint test_settings sample_json_loads sample_validation_error
          sample_reader slow_engine (romeo_form one_example_json)
          (Some "test-service-key") "c0ffee" 1 (fresh test_settings))
     = Some (Raise (HTTPException 500 "Extraction failed. request_id=c0ffee")).
Proof.
  pose proof (timeout_gives_generic_500 test_settings repr_plain sample_json_loads
                sample_validation_error sample_reader slow_engine
                (Some "test-service-key") "c0ffee" 1 (fresh test_settings)
                eq_refl eq_refl) as [Htext Hpdf].
  split.
  - erewrite Htext; [reflexivity | reflexivity | reflexivity].
  - erewrite Hpdf; [reflexivity | reflexivity | reflexivity].
Defined.

(** An engine failure of any other kind is as opaque to the caller. *)
Example failure_gives_generic_500 :
  option_map fst
    (extract_endpoint test_settings repr_plain failing_engine romeo_payload
       (Some "test-service-key") "c0ffee" 1 (fresh test_settings))
  = Some (Raise (HTTPException 500 "Extraction failed. request_id=c0ffee")).
Proof. reflexivity. Qed.

Example pdf_form_text :
  option_map arg_text_or_documents
    (match extract_pdf_prologue test_settings sample_json_loads sample_validation_error
             sample_reader (romeo_form one_example_json) with
     | Ok args => Some args
     | Raise _ => None
     end)
  = Some "ROMEO meets JULIET.".
Proof. reflexivity. Qed.

(** C5. With at most one example allowed, a PDF request that brings two
    examples is not refused: the engine is called with both and the
    answer has status 200.  The same two examples on the text path are
    refused with 400 before any engine call. *)
Theorem pdf_path_skips_example_limit :
  Settings.MAX_EXAMPLES tight_settings = 1
  /\ (exists args response,
        extract_pdf_endpoint tight_settings sample_json_loads sample_validation_error
          sample_reader stub_engine (romeo_form two_examples_json)
          (Some "test-service-key") "c0ffee" 7 (fresh tight_settings)
        = Some (Ok response,
                {| sem_value := Settings.MAX_CONCURRENCY tight_settings;
                   engine_calls := [args] |})
        /\ List.length (arg_examples args) = 2%nat
        /\ status_of (@Ok exn _ response) = 200)
  /\ extract_endpoint tight_settings repr_plain stub_engine two_examples_payload
       (Some "test-service-key") "c0ffee" 7 (fresh tight_settings)
     = Some (Raise (HTTPException 400 "examples exceed MAX_EXAMPLES=1"),
             fresh tight_settings).
Proof.
  split; [reflexivity|]. split; [|reflexivity].
  eexists. eexists. split; [vm_compute; reflexivity|]. split; reflexivity.
Qed.

(** ** Admission gate under concurrent requests *)

Lemma count_nonneg p l : 0 <= count p l.
Proof. induction l as [|t l IH]; simpl; [lia|]. destruct (p t); lia. Qed.

Lemma count_set_nth p i x old l :
  nth_error l i = Some old ->
  count p (set_nth i x l)
  = count p l - (if p old then 1 else 0) + (if p x then 1 else 0).
Proof.
  revert i. induction l as [|t l IH]; intros [|i] H; simpl in *; try discriminate.
  - injection H as ->. lia.
  - rewrite (IH i H). lia.
Qed.

Lemma count_arrived p requests :
  (forall r, p (Arrived r) = false) -> count p (map Arrived requests) = 0.
Proof.
  intros Hp. induction requests as [|r l IH]; simpl; [reflexivity|].
  now rewrite Hp, IH.
Qed.

Lemma quiescent_in_flight w : quiescent w = true -> in_flight w = 0.
Proof.
  unfold quiescent, in_flight. induction (tasks w) as [|t l IH]; simpl; [reflexivity|].
  intros H. apply andb_true_iff in H. destruct H as [Ht Hl].
  rewrite (IH Hl). now destruct t.
Qed.

Lemma remaining_set_nth i x old l :
  nth_error l i = Some old ->
  (remaining (set_nth i x l) + weight old = remaining l + weight x)%nat.
Proof.
  revert i. induction l as [|t l IH]; intros [|i] H; simpl in *; try discriminate.
  - injection H as ->. lia.
  - specialize (IH i H). lia.
Qed.

Lemma find_unfinished l :
  forallb is_finished l = false ->
  exists i t, nth_error l i = Some t /\ is_finished t = false.
Proof.
  induction l as [|t l IH]; simpl; [discriminate|].
  destruct (is_finished t) eqn:Ht; simpl; intros H.
  - destruct (IH H) as (i & u & Hi & Hu). now exists (S i), u.
  - now exists 0%nat, t.
Qed.

Lemma find_dispatched l :
  0 < count is_dispatched l ->
  exists i e request_id args, nth_error l i = Some (Dispatched e request_id args).
Proof.
  induction l as [|t l IH]; simpl; [lia|].
  destruct t as [r|e rid args|e rid args|err|resp]; cbn [is_dispatched]; intros H;
    try (destruct IH as (i & e' & rid' & args' & Hi); [lia|];
         now exists (S i), e', rid', args').
  now exists 0%nat, e, rid, args.
Qed.

Section GateFacts.

Variable cfg : Settings.t.
Variable repr_str : string -> string.
Variable json_loads : string -> option value.
Variable validation_error : value -> string.
Variable PdfReader : option (string -> except exn (list (option string))).

Local Abbreviation start := (Loop.start cfg repr_str json_loads validation_error PdfReader).
Local Abbreviation fire := (Loop.fire cfg repr_str json_loads validation_error PdfReader).
Local Abbreviation run := (Loop.run cfg repr_str json_loads validation_error PdfReader).

Lemma start_outside_block r :
  is_dispatched (start r) = false /\ is_completed (start r) = false.
Proof.
  unfold Loop.start.
  destruct r as [key rid payload | key rid form];
    destruct (Auth.require_api_key cfg key); try (split; reflexivity).
  - destruct (extract_prologue cfg repr_str payload); split; reflexivity.
  - destruct (extract_pdf_prologue cfg json_loads validation_error PdfReader form);
      split; reflexivity.
Qed.

Lemma fire_invariant capacity a w w' :
  gate_invariant capacity w -> fire a w = Some w' -> gate_invariant capacity w'.
Proof.
  unfold gate_invariant, in_flight, completed, Loop.fire.
  intros (Hpos & Hsum & Hcalls) Hfire.
  destruct a as [i | i | i outcome timing_ms].
  - destruct (nth_error (tasks w) i) as [[r| | | |]|] eqn:Hi; try discriminate.
    injection Hfire as <-. cbn [gate tasks].
    rewrite !(count_set_nth _ i _ (Arrived r)) by exact Hi.
    destruct (start_outside_block r) as [-> ->]. cbn [is_dispatched is_completed].
    repeat split; lia.
  - destruct (nth_error (tasks w) i) as [[|e rid args| | |]|] eqn:Hi; try discriminate.
    unfold enter_block, acquire in Hfire.
    destruct (0 <? sem_value (gate w)) eqn:Hfree; [|discriminate].
    apply Z.ltb_lt in Hfree.
    injection Hfire as <-. cbn [gate tasks sem_value engine_calls].
    rewrite !(count_set_nth _ i _ (Waiting e rid args)) by exact Hi.
    cbn [is_dispatched is_completed].
    rewrite length_app, Nat2Z.inj_add. cbn [List.length].
    repeat split; lia.
  - destruct (nth_error (tasks w) i) as [[| |e rid args| |]|] eqn:Hi; try discriminate.
    injection Hfire as <-. unfold leave_block, release.
    cbn [gate tasks sem_value engine_calls].
    rewrite !(count_set_nth _ i _ (Dispatched e rid args)) by exact Hi.
    cbn [is_dispatched is_completed].
    repeat split; lia.
Qed.

Lemma run_invariant capacity schedule w w' :
  gate_invariant capacity w -> run schedule w = Some w' -> gate_invariant capacity w'.
Proof.
  revert w. induction schedule as [|a rest IH]; intros w Hinv Hrun.
  - cbn in Hrun. now injection Hrun as <-.
  - cbn [Loop.run] in Hrun.
    destruct (Loop.fire cfg repr_str json_loads validation_error PdfReader a w)
      as [w1|] eqn:Hfire; [|discriminate].
    apply (IH w1); [|exact Hrun].
    now apply (fire_invariant capacity a w).
Qed.

Lemma boot_invariant requests w0 :
  boot cfg requests = Ok w0 ->
  0 <= Settings.MAX_CONCURRENCY cfg
  /\ gate_invariant (Settings.MAX_CONCURRENCY cfg) w0.
Proof.
  unfold boot, Semaphore, gate_invariant, in_flight, completed.
  destruct (Settings.MAX_CONCURRENCY cfg <? 0) eqn:Hneg; [discriminate|].
  apply Z.ltb_ge in Hneg. cbn [bind]. intros H. injection H as <-.
  cbn [gate tasks sem_value engine_calls List.length].
  rewrite !count_arrived by reflexivity. lia.
Qed.

(** The resumption of a handler gives its slot back, whatever the outcome
    of the engine call. *)
Lemma resume_releases w i e request_id args outcome timing_ms :
  nth_error (tasks w) i = Some (Dispatched e request_id args) ->
  exists w',
    fire (Resume i outcome timing_ms) w = Some w'
    /\ sem_value (gate w') = sem_value (gate w) + 1
    /\ in_flight w' = in_flight w - 1
    /\ nth_error (tasks w') i
       = Some (Completed (epilogue request_id timing_ms (handlers e request_id outcome))).
Proof.
  intros Hi. unfold Loop.fire. rewrite Hi. eexists. split; [reflexivity|].
  cbn [gate tasks]. unfold in_flight, leave_block, release. cbn [sem_value tasks].
  rewrite (count_set_nth _ i _ (Dispatched e request_id args)) by exact Hi.
  cbn [is_dispatched]. repeat split; try lia.
  clear -Hi. revert i Hi. induction (tasks w) as [|t l IH]; intros [|i] Hi;
    simpl in *; try discriminate; [reflexivity | now apply IH].
Qed.

(** An engine call starts only in the segment that takes a slot. *)
Lemma dispatch_takes_slot a w w' :
  fire a w = Some w' ->
  engine_calls (gate w') <> engine_calls (gate w) ->
  0 < sem_value (gate w) /\ sem_value (gate w') = sem_value (gate w) - 1
  /\ exists args, engine_calls (gate w') = (engine_calls (gate w) ++ [args])%list.
Proof.
  unfold Loop.fire. intros Hfire Hcalls.
  destruct a as [i | i | i outcome timing_ms].
  - destruct (nth_error (tasks w) i) as [[r| | | |]|]; try discriminate.
    injection Hfire as <-. now contradiction Hcalls.
  - destruct (nth_error (tasks w) i) as [[|e rid args| | |]|]; try discriminate.
    unfold enter_block, acquire in Hfire.
    destruct (0 <? sem_value (gate w)) eqn:Hfree; [|discriminate].
    apply Z.ltb_lt in Hfree. injection Hfire as <-.
    cbn [gate sem_value engine_calls]. repeat split; eauto.
  - destruct (nth_error (tasks w) i) as [[| |e rid args| |]|]; try discriminate.
    injection Hfire as <-. now contradiction Hcalls.
Qed.

Lemma start_weight r : (weight (start r) <= 2)%nat.
Proof.
  unfold Loop.start.
  destruct r as [key rid payload | key rid form];
    destruct (Auth.require_api_key cfg key); cbn [weight]; try lia.
  - destruct (extract_prologue cfg repr_str payload); cbn [weight]; lia.
  - destruct (extract_pdf_prologue cfg json_loads validation_error PdfReader form);
      cbn [weight]; lia.
Qed.

(** Every segment brings its task closer to its answer. *)
Lemma fire_decreases a w w' :
  fire a w = Some w' -> (remaining (tasks w') < remaining (tasks w))%nat.
Proof.
  unfold Loop.fire. intros Hfire.
  destruct a as [i | i | i outcome timing_ms].
  - destruct (nth_error (tasks w) i) as [[r| | | |]|] eqn:Hi; try discriminate.
    injection Hfire as <-. cbn [tasks].
    pose proof (remaining_set_nth i (start r) _ _ Hi) as H.
    pose proof (start_weight r). cbn [weight] in H. lia.
  - destruct (nth_error (tasks w) i) as [[|e rid args| | |]|] eqn:Hi; try discriminate.
    destruct (enter_block args (gate w)); [|discriminate].
    injection Hfire as <-. cbn [tasks].
    pose proof (remaining_set_nth i (Dispatched e rid args) _ _ Hi) as H.
    cbn [weight] in H. lia.
  - destruct (nth_error (tasks w) i) as [[| |e rid args| |]|] eqn:Hi; try discriminate.
    injection Hfire as <-. cbn [tasks].
    pose proof (remaining_set_nth i
                  (Completed (epilogue rid timing_ms (handlers e rid outcome))) _ _ Hi) as H.
    cbn [weight] in H. lia.
Qed.

(** With at least one slot configured the loop is never stuck while a
    handler has not answered: a handler at the gate finds a slot, or a
    call in flight can resume. *)
Lemma loop_progress capacity w :
  gate_invariant capacity w -> 0 < capacity -> quiescent w = false ->
  exists a w', fire a w = Some w'.
Proof.
  intros (Hpos & Hsum & _) Hcap Hq.
  destruct (find_unfinished _ Hq) as (i & t & Hi & Ht).
  destruct t as [r|e rid args|e rid args|err|resp]; try discriminate.
  - exists (Start i). eexists. unfold Loop.fire. rewrite Hi. reflexivity.
  - destruct (Z.lt_ge_cases 0 (sem_value (gate w))) as [Hfree|Hfull].
    + exists (Enter i). eexists. unfold Loop.fire, enter_block, acquire.
      rewrite Hi. apply Z.ltb_lt in Hfree. rewrite Hfree. reflexivity.
    + destruct (find_dispatched (tasks w)) as (j & e' & rid' & args' & Hj).
      { fold (in_flight w). lia. }
      exists (Resume j (Raise TimeoutError) 0). eexists.
      unfold Loop.fire. rewrite Hj. reflexivity.
  - exists (Resume i (Raise TimeoutError) 0). eexists.
    unfold Loop.fire. rewrite Hi. reflexivity.
Qed.

(** So every reachable world can be run on until all handlers have
    answered. *)
Lemma loop_can_finish capacity w :
  gate_invariant capacity w -> 0 < capacity ->
  exists schedule w', run schedule w = Some w' /\ quiescent w' = true.
Proof.
  intros Hinv Hcap.
  remember (remaining (tasks w)) as n eqn:Hn. revert w Hinv Hn.
  induction n as [n IH] using lt_wf_ind. intros w Hinv Hn.
  destruct (quiescent w) eqn:Hq.
  - exists [], w. now split.
  - destruct (loop_progress capacity w Hinv Hcap Hq) as (a & w1 & Hfire).
    pose proof (fire_decreases a w w1 Hfire) as Hlt.
    destruct (IH (remaining (tasks w1)) ltac:(lia) w1
                (fire_invariant capacity a w w1 Hinv Hfire) eq_refl)
      as (rest & w' & Hrun & Hdone).
    exists (a :: rest), w'. split; [|exact Hdone].
    cbn [Loop.run]. now rewrite Hfire.
Qed.

End GateFacts.

Example gate_full_suspends :
  run tight_settings repr_plain sample_json_loads sample_validation_error sample_reader
    [Start 0; Start 1; Enter 0; Enter 1]
    {| gate := {| sem_value := 1; engine_calls := [] |};
       tasks := map Arrived busy_requests |}
  = None.
Proof. reflexivity. Qed.

(** C1. From the import of the module on, whatever requests arrive and in
    whatever order the loop runs their segments, the number of engine
    calls in flight never exceeds the configured capacity; the counter of
    the gate is the capacity minus the calls in flight, so it is never
    negative and never above the capacity; every engine call made belongs
    to a handler that took a slot; a handler inside the block can always
    resume, on any outcome of its call, and gives exactly one slot back;
    once every handler has answered the counter is the capacity again;
    and with at least one slot configured the loop can always be run on
    to that point. *)
Theorem gate_capacity_invariant :
  forall (cfg : Settings.t) (repr_str : string -> string)
         (json_loads : string -> option value) (validation_error : value -> string)
         (PdfReader : option (string -> except exn (list (option string))))
         (requests : list request) (schedule : list action) (w0 w : world),
    boot cfg requests = Ok w0 ->
    run cfg repr_str json_loads validation_error PdfReader schedule w0 = Some w ->
    0 <= in_flight w <= Settings.MAX_CONCURRENCY cfg
    /\ 0 <= sem_value (gate w) <= Settings.MAX_CONCURRENCY cfg
    /\ sem_value (gate w) = Settings.MAX_CONCURRENCY cfg - in_flight w
    /\ Z.of_nat (List.length (engine_calls (gate w))) = in_flight w + completed w
    /\ (forall i e request_id args outcome timing_ms,
          nth_error (tasks w) i = Some (Dispatched e request_id args) ->
          exists w',
            fire cfg repr_str json_loads validation_error PdfReader
              (Resume i outcome timing_ms) w = Some w'
            /\ sem_value (gate w') = sem_value (gate w) + 1
            /\ in_flight w' = in_flight w - 1)
    /\ (quiescent w = true -> sem_value (gate w) = Settings.MAX_CONCURRENCY cfg)
    /\ (0 < Settings.MAX_CONCURRENCY cfg ->
        exists rest w',
          run cfg repr_str json_loads validation_error PdfReader rest w = Some w'
          /\ quiescent w' = true
          /\ sem_value (gate w') = Settings.MAX_CONCURRENCY cfg).
Proof.
  intros cfg repr_str json_loads validation_error PdfReader requests schedule w0 w
         Hboot Hrun.
  destruct (boot_invariant cfg requests w0 Hboot) as [Hcap Hinv0].
  destruct (run_invariant cfg repr_str json_loads validation_error PdfReader
              _ schedule w0 w Hinv0 Hrun) as (Hpos & Hsum & Hcalls).
  pose proof (count_nonneg is_dispatched (tasks w)) as Hfl.
  fold (in_flight w) in Hfl.
  repeat split; try lia.
  - intros i e request_id args outcome timing_ms Hi.
    destruct (resume_releases cfg repr_str json_loads validation_error PdfReader
                w i e request_id args outcome timing_ms Hi) as (w' & Hf & Hs & Hn & _).
    exists w'. auto.
  - intros Hq. apply quiescent_in_flight in Hq. lia.
  - intros Hcap'.
    destruct (loop_can_finish cfg repr_str json_loads validation_error PdfReader
                _ w (conj Hpos (conj Hsum Hcalls)) Hcap') as (rest & w' & Hrest & Hq).
    exists rest, w'. split; [exact Hrest|]. split; [exact Hq|].
    destruct (run_invariant cfg repr_str json_loads validation_error PdfReader
                _ rest w w' (conj Hpos (conj Hsum Hcalls)) Hrest) as (_ & Hsum' & _).
    apply quiescent_in_flight in Hq. lia.
Qed.

Lemma gate_capacity_invariant_witness :
  exists w,
    run tight_settings repr_plain sample_json_loads sample_validation_error sample_reader
      busy_schedule busy_boot = Some w
    /\ map (fun t => match t with
                     | Completed r => status_of r
                     | Rejected err => status_of (@Raise exn unit err)
                     | _ => 0
                     end) (tasks w) = [500; 500; 400]
    /\ quiescent w = true
    /\ sem_value (gate w) = 2
    /\ 0 <= in_flight w <= 2
    /\ Z.of_nat (List.length (engine_calls (gate w))) = in_flight w + completed w.
Proof.
  eexists. split; [vm_compute; reflexivity|].
  split; [reflexivity|]. split; [reflexivity|].
  match goal with |- _ = 2 /\ _ =>
    change 2 with (Settings.MAX_CONCURRENCY tight_settings)
  end.
  match goal with |- sem_value (gate ?w) = _ /\ _ =>
    destruct (gate_capacity_invariant tight_settings repr_plain sample_json_loads
                sample_validation_error sample_reader busy_requests busy_schedule
                busy_boot w eq_refl eq_refl)
      as (Hfl & _ & _ & Hcalls & _ & Hq & _)
  end.
  split; [apply Hq; reflexivity|]. split; [exact Hfl | exact Hcalls].
Defined.

(** One request run to completion leaves the counter where it found it,
    whether it was refused, answered, timed out or failed. *)
Lemma guarded_restores_gate cfg engine e prologue x_api_key request_id timing_ms s r s' :
  guarded cfg engine e prologue x_api_key request_id timing_ms s = Some (r, s') ->
  sem_value s' = sem_value s.
Proof.
  unfold guarded, enter_block, acquire, leave_block, release. intros H.
  destruct (Auth.require_api_key cfg x_api_key); [|now injection H as _ <-].
  destruct prologue as [args|err]; [|now injection H as _ <-].
  destruct (0 <? sem_value s); [|discriminate].
  injection H as _ <-. cbn [sem_value]. lia.
Qed.

(** The release-on-failure scenario: any number of requests against an
    engine that always raises. *)
Example release_on_failure :
  let call s :=
    extract_endpoint test_settings repr_plain failing_engine romeo_payload
      (Some "test-service-key") "c0ffee" 1 s in
  match call (fresh test_settings) with
  | Some (r1, s1) =>
      match call s1 with
      | Some (r2, s2) =>
          status_of r1 = 500 /\ status_of r2 = 500
          /\ sem_value s2 = Settings.MAX_CONCURRENCY test_settings
          /\ List.length (engine_calls s2) = 2%nat
      | None => False
      end
  | None => False
  end.
Proof. cbv zeta. vm_compute. repeat split; reflexivity. Qed.

(** * Further properties *)

(** ** Credential gate and readiness probe *)

Lemma require_api_key_configured_status cfg x_api_key :
  Settings.SERVICE_API_KEY cfg <> "" ->
  status_of (Auth.require_api_key cfg x_api_key) <> 503.
Proof.
  unfold Auth.require_api_key, Auth.compare_digest. intros Hne.
  destruct (Settings.SERVICE_API_KEY cfg) as [|c secret]; [congruence|].
  cbn [str_truthy negb].
  destruct x_api_key as [[|k key]|]; cbn [str_truthy negb status_of]; try discriminate.
  destruct (isascii (String k key) && isascii (String c secret));
    cbn [bind status_of]; [|discriminate].
  destruct (String.eqb (String k key) (String c secret)); discriminate.
Qed.

(** X1. The gate authorizes exactly when a secret is configured, the
    caller supplied that very secret, and the secret is ASCII text. *)
Theorem require_api_key_authorizes_iff :
  forall (cfg : Settings.t) (x_api_key : option string),
    Auth.require_api_key cfg x_api_key = Ok tt
    <-> (Settings.SERVICE_API_KEY cfg <> ""
         /\ x_api_key = Some (Settings.SERVICE_API_KEY cfg)
         /\ isascii (Settings.SERVICE_API_KEY cfg) = true).
Proof.
  intros cfg x_api_key. unfold Auth.require_api_key, Auth.compare_digest. split.
  - destruct (Settings.SERVICE_API_KEY cfg) as [|c secret] eqn:Hs;
      cbn [str_truthy negb]; [discriminate|].
    destruct x_api_key as [[|k key]|]; cbn [str_truthy negb]; try discriminate.
    destruct (isascii (String k key)) eqn:Hk; cbn [andb bind]; [|discriminate].
    destruct (isascii (String c secret)) eqn:Hc; cbn [bind]; [|discriminate].
    destruct (String.eqb (String k key) (String c secret)) eqn:He;
      cbn [negb]; [|discriminate].
    intros _. apply String.eqb_eq in He. rewrite He. repeat split. discriminate.
  - intros (Hne & -> & Hascii).
    destruct (Settings.SERVICE_API_KEY cfg) as [|c secret]; [congruence|].
    cbn [str_truthy negb]. rewrite Hascii. cbn [andb bind].
    now rewrite String.eqb_refl.
Qed.

(** X2. The gate answers 503 exactly when no secret is configured,
    whatever the caller sent.  Otherwise it authorizes, answers 401, or
    the comparison raises [TypeError], which needs a non-ASCII character
    in the secret or in a non-empty supplied key. *)
Theorem require_api_key_outcomes :
  forall (cfg : Settings.t) (x_api_key : option string),
    (Auth.require_api_key cfg x_api_key
     = Raise (HTTPException 503 "SERVICE_API_KEY is not configured.")
     <-> Settings.SERVICE_API_KEY cfg = "")
    /\ (Settings.SERVICE_API_KEY cfg <> "" ->
        Auth.require_api_key cfg x_api_key = Ok tt
        \/ Auth.require_api_key cfg x_api_key
           = Raise (HTTPException 401 "Invalid API key.")
        \/ (exists msg key,
              Auth.require_api_key cfg x_api_key = Raise (TypeError msg)
              /\ x_api_key = Some key /\ key <> ""
              /\ (isascii key = false
                  \/ isascii (Settings.SERVICE_API_KEY cfg) = false))).
Proof.
  intros cfg x_api_key. unfold Auth.require_api_key, Auth.compare_digest.
  destruct (Settings.SERVICE_API_KEY cfg) as [|c secret] eqn:Hs;
    cbn [str_truthy negb].
  - split; [split; reflexivity | congruence].
  - split.
    + split; [|discriminate].
      destruct x_api_key as [[|k key]|]; cbn [str_truthy negb]; try discriminate.
      destruct (isascii (String k key) && isascii (String c secret));
        cbn [bind]; [|discriminate].
      destruct (String.eqb (String k key) (String c secret)); discriminate.
    + intros _.
      destruct x_api_key as [[|k key]|]; cbn [str_truthy negb]; auto.
      destruct (isascii (String k key)) eqn:Hk;
        destruct (isascii (String c secret)) eqn:Hc; cbn [andb bind].
      * destruct (String.eqb (String k key) (String c secret)); cbn [negb]; auto.
      * right. right. eexists. exists (String k key).
        repeat split; auto. discriminate.
      * right. right. eexists. exists (String k key).
        repeat split; auto. discriminate.
      * right. right. eexists. exists (String k key).
        repeat split; auto. discriminate.
Qed.

Lemma require_api_key_outcomes_witness :
  Auth.require_api_key test_settings (Some "wrong") = Ok tt
  \/ Auth.require_api_key test_settings (Some "wrong")
     = Raise (HTTPException 401 "Invalid API key.")
  \/ (exists msg key,
        Auth.require_api_key test_settings (Some "wrong") = Raise (TypeError msg)
        /\ Some "wrong" = Some key /\ key <> ""
        /\ (isascii key = false
            \/ isascii (Settings.SERVICE_API_KEY test_settings) = false)).
Proof.
  apply (proj2 (require_api_key_outcomes test_settings (Some "wrong"))).
  discriminate.
Defined.

(** X3. The readiness probe answers 200 exactly when both secrets are
    configured, and then the credential gate never answers 503.
    Otherwise it answers 503 and lists the unset names, the service
    secret first. *)
Theorem readyz_reports_missing_secrets :
  forall cfg : Settings.t,
    (fst (readyz cfg) = 200
     <-> Settings.SERVICE_API_KEY cfg <> "" /\ Settings.LANGEXTRACT_API_KEY cfg <> "")
    /\ (fst (readyz cfg) = 200 ->
        snd (readyz cfg) = VDict [("ready", VBool true)]
        /\ forall x_api_key, status_of (Auth.require_api_key cfg x_api_key) <> 503)
    /\ (fst (readyz cfg) <> 200 ->
        fst (readyz cfg) = 503
        /\ exists missing,
            snd (readyz cfg)
            = VDict [("ready", VBool false); ("missing", VList (map VStr missing))]
            /\ missing
               = ((if String.eqb (Settings.SERVICE_API_KEY cfg) ""
                   then ["SERVICE_API_KEY"] else [])
                  ++ (if String.eqb (Settings.LANGEXTRACT_API_KEY cfg) ""
                      then ["LANGEXTRACT_API_KEY"] else []))%list).
Proof.
  intros cfg. unfold readyz.
  destruct (Settings.SERVICE_API_KEY cfg) as [|c secret] eqn:Hs;
    destruct (Settings.LANGEXTRACT_API_KEY cfg) as [|d provider] eqn:Hp;
    cbn [str_truthy negb app fst snd String.eqb].
  - split; [split; [discriminate | intros [H _]; congruence]|].
    split; [discriminate|]. intros _. split; [reflexivity|]. eexists. split; reflexivity.
  - split; [split; [discriminate | intros [H _]; congruence]|].
    split; [discriminate|]. intros _. split; [reflexivity|]. eexists. split; reflexivity.
  - split; [split; [discriminate | intros [_ H]; congruence]|].
    split; [discriminate|]. intros _. split; [reflexivity|]. eexists. split; reflexivity.
  - split; [split; [intros _; split; discriminate | reflexivity]|].
    split; [|congruence]. intros _. split; [reflexivity|].
    intros x_api_key. apply require_api_key_configured_status.
    rewrite Hs. discriminate.
Qed.

Lemma readyz_reports_missing_secrets_witness :
  snd (readyz test_settings) = VDict [("ready", VBool true)]
  /\ forall x_api_key,
      status_of (Auth.require_api_key test_settings x_api_key) <> 503.
Proof.
  apply (readyz_reports_missing_secrets test_settings). reflexivity.
Defined.

(** ** Example compiler *)

Lemma build_extraction_cases extraction :
  (Spec.extraction_ok extraction = true
   /\ build_extraction extraction = Ok (Spec.compiled_extraction extraction))
  \/ (Spec.extraction_ok extraction = false
      /\ build_extraction extraction = Raise Spec.bad_extraction).
Proof.
  unfold build_extraction, Spec.extraction_ok, Spec.compiled_extraction.
  destruct (truthy (dict_get extraction "extraction_class"));
    destruct (truthy (dict_get extraction "extraction_text")); cbn; auto.
Qed.

Lemma build_extractions_cases ds :
  (forallb Spec.extraction_ok ds = true
   /\ mapM build_extraction ds = Ok (map Spec.compiled_extraction ds))
  \/ (forallb Spec.extraction_ok ds = false
      /\ mapM build_extraction ds = Raise Spec.bad_extraction).
Proof.
  induction ds as [|d ds IH]; cbn [forallb mapM map]; [now left|].
  destruct (build_extraction_cases d) as [[-> ->]|[-> ->]]; cbn [andb bind]; [|now right].
  destruct IH as [[-> ->]|[-> ->]]; cbn [bind]; auto.
Qed.

Lemma _build_examples_cases l :
  (Spec.examples_ok l = true
   /\ _build_examples l = Ok (map Spec.compiled_example l))
  \/ (Spec.examples_ok l = false /\ _build_examples l = Raise Spec.bad_extraction).
Proof.
  unfold _build_examples, Spec.examples_ok.
  induction l as [|e l IH]; cbn [forallb mapM map]; [now left|].
  destruct (build_extractions_cases (example_extractions e)) as [[-> ->]|[-> ->]];
    cbn [andb bind]; [|now right].
  destruct IH as [[-> ->]|[-> ->]]; cbn [bind]; auto.
Qed.

(** X4. The example compiler succeeds exactly when every extraction of
    every example has a truthy [extraction_class] and a truthy
    [extraction_text]; when it fails, it fails with the one 400 that
    names the two fields. *)
Theorem build_examples_accepts_iff :
  forall l : list ExtractionExample,
    ((exists built, _build_examples l = Ok built)
     <-> forall e extraction,
           In e l -> In extraction (example_extractions e) ->
           truthy (dict_get extraction "extraction_class") = true
           /\ truthy (dict_get extraction "extraction_text") = true)
    /\ (forall err, _build_examples l = Raise err -> err = Spec.bad_extraction).
Proof.
  intros l.
  assert (Hok : Spec.examples_ok l = true
                <-> forall e extraction,
                      In e l -> In extraction (example_extractions e) ->
                      truthy (dict_get extraction "extraction_class") = true
                      /\ truthy (dict_get extraction "extraction_text") = true).
  { unfold Spec.examples_ok. rewrite forallb_forall. split.
    - intros H e extraction He Hx. specialize (H e He).
      rewrite forallb_forall in H. specialize (H extraction Hx).
      now apply andb_true_iff in H.
    - intros H e He. apply forallb_forall. intros extraction Hx.
      apply andb_true_iff. now apply (H e). }
  destruct (_build_examples_cases l) as [[Hall Hb]|[Hall Hb]]; rewrite Hb; split.
  - split; [intros _; now apply Hok | intros _; eauto].
  - discriminate.
  - split; [intros [built H]; discriminate H|].
    intros H. apply Hok in H. congruence.
  - intros err H. now injection H as <-.
Qed.

(** X5. What the compiler builds keeps the examples and, within each
    example, the extractions in their order: the result is the list of
    examples mapped one by one, with [attributes] and [description] read
    by [get], so [None] when the key is absent. *)
Theorem build_examples_preserves_order :
  forall (l : list ExtractionExample) (built : list ExampleData),
    _build_examples l = Ok built ->
    built = map Spec.compiled_example l
    /\ List.length built = List.length l
    /\ map data_text built = map example_text l
    /\ (forall i e, nth_error l i = Some e ->
          exists b, nth_error built i = Some b
                    /\ map extraction_class (data_extractions b)
                       = map (fun d => dict_get d "extraction_class")
                           (example_extractions e)
                    /\ map extraction_text (data_extractions b)
                       = map (fun d => dict_get d "extraction_text")
                           (example_extractions e)).
Proof.
  intros l built Hb.
  destruct (_build_examples_cases l) as [[_ H]|[_ H]]; rewrite H in Hb; [|discriminate].
  injection Hb as <-. split; [reflexivity|]. split; [apply length_map|].
  split.
  - rewrite map_map. reflexivity.
  - intros i e Hi. exists (Spec.compiled_example e). split.
    + now apply map_nth_error.
    + unfold Spec.compiled_example. cbn [data_extractions].
      rewrite !map_map. split; reflexivity.
Qed.

Lemma build_examples_preserves_order_witness :
  exists built,
    _build_examples [romeo_example; romeo_example] = Ok built
    /\ List.length built = 2%nat
    /\ map data_text built = ["ROMEO says hi."; "ROMEO says hi."].
Proof.
  eexists. split; [reflexivity|].
  destruct (build_examples_preserves_order [romeo_example; romeo_example] _ eq_refl)
    as (_ & Hlen & Htext & _).
  split; [exact Hlen | exact Htext].
Defined.

(** X6. On [/v1/extract], a request that passes the size rules and the
    parameter check but has an extraction without a truthy class or text
    is answered with that 400, and the engine is not called. *)
Theorem extract_rejects_malformed_extraction :
  forall (cfg : Settings.t) (repr_str : string -> string)
         (engine : ExtractArgs -> except exn value)
         (payload : ExtractRequest) (x_api_key : option string)
         (request_id : string) (timing_ms : Z) (s : shared)
         (e : ExtractionExample) (extraction : dict),
    Auth.require_api_key cfg x_api_key = Ok tt ->
    len (text payload) <= Settings.MAX_TEXT_CHARS cfg ->
    Z.of_nat (List.length (examples payload)) <= Settings.MAX_EXAMPLES cfg ->
    (forall w, max_workers payload = Some w -> w <= Settings.MAX_WORKERS cfg) ->
    (forall params, language_model_params payload = Some params ->
                    forall k, In k (keys params) -> In k allowed_keys) ->
    In e (examples payload) -> In extraction (example_extractions e) ->
    truthy (dict_get extraction "extraction_class") = false
    \/ truthy (dict_get extraction "extraction_text") = false ->
    extract_endpoint cfg repr_str engine payload x_api_key request_id timing_ms s
    = Some (Raise Spec.bad_extraction, s).
Proof.
  intros cfg repr_str engine payload x_api_key request_id timing_ms s e extraction
         Hauth H1 H2 H3 Hparams He Hx Hbad.
  unfold extract_endpoint. apply guarded_rejected; [exact Hauth|].
  rewrite prologue_past_size_rules by assumption.
  assert (Hv : exists lm, _validate_language_model_params repr_str
                            (language_model_params payload) = Ok lm).
  { destruct (language_model_params payload) as [params|] eqn:Hp.
    - exists (Some params). unfold _validate_language_model_params.
      destruct (unknown_keys params) as [|u us] eqn:Hu; [reflexivity|].
      assert (Hin : In u (unknown_keys params)) by (rewrite Hu; now left).
      apply unknown_keys_In in Hin. destruct Hin as [Hk Hno].
      exfalso. apply Hno. now apply (Hparams params eq_refl).
    - now exists None. }
  destruct Hv as [lm ->]. cbn [bind].
  destruct (_build_examples_cases (examples payload)) as [[Hall _]|[_ ->]];
    [|reflexivity].
  exfalso. unfold Spec.examples_ok in Hall. rewrite forallb_forall in Hall.
  specialize (Hall e He). rewrite forallb_forall in Hall. specialize (Hall extraction Hx).
  unfold Spec.extraction_ok in Hall. apply andb_true_iff in Hall.
  destruct Hall as [Hc Ht]. destruct Hbad; congruence.
Qed.

Lemma extract_rejects_malformed_extraction_witness :
  extract_endpoint test_settings repr_plain stub_engine broken_payload
    (Some "test-service-key") "c0ffee" 3 (fresh test_settings)
  = Some (Raise Spec.bad_extraction, fresh test_settings).
Proof.
  apply (extract_rejects_malformed_extraction test_settings repr_plain stub_engine
           broken_payload (Some "test-service-key") "c0ffee" 3 (fresh test_settings)
           broken_example
           [ ("extraction_class", VStr "character"); ("extraction_text", VStr "") ]).
  - reflexivity.
  - vm_compute. discriminate.
  - vm_compute. discriminate.
  - intros w Hw. injection Hw as <-. vm_compute. discriminate.
  - intros params Hp. discriminate Hp.
  - simpl. right. left. reflexivity.
  - simpl. right. left. reflexivity.
  - right. reflexivity.
Defined.

(** ** Result normalizer, further *)

Lemma mapM_Forall2 {E A B} (f : A -> except E B) (l : list A) (bs : list B) :
  mapM f l = Ok bs -> Forall2 (fun a b => f a = Ok b) l bs.
Proof.
  revert bs. induction l as [|a l IH]; simpl; intros bs H.
  - injection H as <-. constructor.
  - destruct (f a) as [b|] eqn:Hb; [|discriminate].
    destruct (mapM f l) as [bs'|]; [|discriminate].
    simpl in H. injection H as <-. constructor; [exact Hb | now apply IH].
Qed.

Lemma mapM_existsb {E A B} (f : A -> except E B) (p : A -> bool) (e : E) (l : list A) :
  Forall (fun a => (p a = true -> f a = Raise e)
                   /\ (p a = false -> exists b, f a = Ok b)) l ->
  (existsb p l = true -> mapM f l = Raise e)
  /\ (existsb p l = false -> exists bs, mapM f l = Ok bs).
Proof.
  induction 1 as [|a l [Hbad Hgood] Hl [IHbad IHgood]]; simpl.
  - split; [discriminate | now exists []].
  - destruct (p a) eqn:Hp; simpl.
    + split; [intros _; now rewrite Hbad | discriminate].
    + destruct (Hgood eq_refl) as [b ->]. simpl. split.
      * intros H. now rewrite (IHbad H).
      * intros H. destruct (IHgood H) as [bs ->]. simpl. eauto.
Qed.

Lemma _to_json_on_plain v : Spec.is_plain v = true -> _to_json v = Ok v.
Proof.
  induction v as [ | b | n | q | s | items IH | entries IH | fields IH | attrs IH | | t ]
    using value_nested_ind; intros Hp; try reflexivity; try discriminate Hp.
  - cbn [Spec.is_plain] in Hp. cbn [_to_json].
    rewrite (mapM_Ok _to_json (fun x => x)).
    + now rewrite map_id.
    + eapply Forall_forallb with (p := Spec.is_plain); [exact IH | exact Hp].
  - cbn [Spec.is_plain] in Hp. cbn [_to_json].
    rewrite (mapM_Ok _ (fun kv => kv)).
    + now rewrite map_id.
    + eapply Forall_forallb with (p := fun kv => Spec.is_plain (snd kv)); [|exact Hp].
      eapply Forall_impl; [|exact IH]. intros [k x] Hkv Hok.
      cbn [fst snd] in *. now rewrite (Hkv Hok).
Qed.

Lemma plain_data_is_plain v :
  Spec.engine_result v = true -> Spec.is_plain (Spec.plain_data v) = true.
Proof.
  induction v as [ | b | n | q | s | items IH | entries IH | fields IH | attrs IH | | t ]
    using value_nested_ind; intros Hwf; try reflexivity; try discriminate Hwf;
    cbn [Spec.engine_result] in Hwf; cbn [Spec.plain_data Spec.is_plain];
    rewrite forallb_forall in *; rewrite Forall_forall in IH;
    intros y Hy; apply in_map_iff in Hy; destruct Hy as (x & <- & Hx);
    cbn [snd]; apply IH; auto.
Qed.

(** X7. Plain nested data goes through the conversion unchanged: a value
    made of scalars, lists and dictionaries only is its own conversion,
    and the wrapper puts that very value under its key. *)
Theorem to_json_keeps_plain_data :
  forall v : value,
    Spec.is_plain v = true ->
    _to_json v = Ok v
    /\ _normalize_result v
       = Ok [(if isinstance_list v then "documents" else "document", v)].
Proof.
  intros v Hp. pose proof (_to_json_on_plain v Hp) as H. split; [exact H|].
  unfold _normalize_result. rewrite H. now destruct (isinstance_list v).
Qed.

Lemma to_json_keeps_plain_data_witness :
  _to_json (VList [VDict [("text", VStr "first")]; VInt 2])
  = Ok (VList [VDict [("text", VStr "first")]; VInt 2]).
Proof.
  apply (to_json_keeps_plain_data (VList [VDict [("text", VStr "first")]; VInt 2])).
  reflexivity.
Defined.

(** X8. A normalized result has exactly one key.  It is [documents] when
    the raw result is a list, and then it holds one converted entry for
    each raw entry, in the same order; it is [document] otherwise. *)
Theorem normalize_result_shape :
  forall (v : value) (d : dict),
    _normalize_result v = Ok d ->
    exists r,
      _to_json v = Ok r
      /\ ((exists items converted,
             v = VList items /\ r = VList converted
             /\ d = [("documents", r)]
             /\ List.length converted = List.length items
             /\ Forall2 (fun x y => _to_json x = Ok y) items converted)
          \/ (isinstance_list v = false /\ d = [("document", r)])).
Proof.
  intros v d H. unfold _normalize_result in H.
  destruct (_to_json v) as [r|err] eqn:Hr.
  2:{ destruct (isinstance_list v); discriminate H. }
  exists r. split; [reflexivity|].
  destruct v as [ | b | n | q | s | items | entries | fields | attrs | | t ];
    cbn [isinstance_list bind] in H; injection H as <-;
    try (right; split; reflexivity).
  left. cbn [_to_json] in Hr.
  destruct (mapM _to_json items) as [converted|] eqn:Hm; [|discriminate].
  cbn [bind] in Hr. injection Hr as <-.
  exists items, converted. repeat split.
  - now apply mapM_length in Hm.
  - now apply mapM_Forall2.
Qed.

Lemma normalize_result_shape_witness :
  exists r converted,
    _to_json two_documents = Ok r
    /\ r = VList converted
    /\ List.length converted = 2%nat.
Proof.
  destruct (normalize_result_shape two_documents _ eq_refl) as (r & Hr & Hshape).
  destruct Hshape as [(items & converted & Hv & Hc & _ & Hlen & _)|[Hno _]].
  - exists r, converted. split; [exact Hr|]. split; [exact Hc|].
    unfold two_documents in Hv. injection Hv as <-. exact Hlen.
  - discriminate Hno.
Defined.

Lemma forallb_split {A} (c ok m : A -> bool) (l : list A) :
  Forall (fun a => c a = ok a && negb (m a)) l ->
  forallb c l = forallb ok l && negb (existsb m l).
Proof.
  induction 1 as [|a l Ha Hl IH]; simpl; [reflexivity|].
  rewrite Ha, IH.
  destruct (ok a), (m a), (forallb ok l), (existsb m l); reflexivity.
Qed.

(** The conversion returns unless it meets a dataclass type or a
    dataclass instance that holds what cannot be copied. *)
Lemma converts_split v :
  Spec.converts v = Spec.asdict_safe v && negb (Spec.meets_class v).
Proof.
  induction v as [ | b | n | q | s | items IH | entries IH | fields IH | attrs IH | | t ]
    using value_nested_ind; try reflexivity.
  - cbn [Spec.converts Spec.asdict_safe Spec.meets_class].
    now apply forallb_split.
  - cbn [Spec.converts Spec.asdict_safe Spec.meets_class].
    now apply (forallb_split (fun kv => Spec.converts (snd kv))
                 (fun kv => Spec.asdict_safe (snd kv))
                 (fun kv => Spec.meets_class (snd kv))).
  - cbn [Spec.converts Spec.asdict_safe Spec.meets_class]. now rewrite andb_true_r.
  - cbn [Spec.converts Spec.asdict_safe Spec.meets_class].
    now apply (forallb_split (fun kv => Spec.converts (snd kv))
                 (fun kv => Spec.asdict_safe (snd kv))
                 (fun kv => Spec.meets_class (snd kv))).
Qed.

Lemma _to_json_cases v :
  (Spec.converts v = true -> _to_json v = Ok (Spec.to_json_value v))
  /\ (Spec.converts v = false ->
      exists e, _to_json v = Raise e /\ Spec.is_type_error e).
Proof.
  induction v as [ | b | n | q | s | items IH | entries IH | fields IH | attrs IH | | t ]
    using value_nested_ind;
    try (split; [reflexivity | discriminate]).
  - cbn [Spec.converts _to_json Spec.to_json_value].
    destruct (mapM_cases _to_json Spec.converts Spec.to_json_value
                Spec.is_type_error items IH) as [Hgood Hbad].
    split; intros H.
    + now rewrite (Hgood H).
    + destruct (Hbad H) as (e & -> & He). simpl. eauto.
  - cbn [Spec.converts _to_json Spec.to_json_value].
    destruct (mapM_entries_cases _to_json Spec.converts Spec.to_json_value
                Spec.is_type_error entries IH) as [Hgood Hbad].
    split; intros H.
    + now rewrite (Hgood H).
    + destruct (Hbad H) as (e & -> & He). simpl. eauto.
  - exact (_asdict_inner_cases (VDataclass fields)).
  - cbn [Spec.converts _to_json Spec.to_json_value].
    destruct (mapM_entries_cases _to_json Spec.converts Spec.to_json_value
                Spec.is_type_error attrs IH) as [Hgood Hbad].
    split; intros H.
    + now rewrite (Hgood H).
    + destruct (Hbad H) as (e & -> & He). simpl. eauto.
  - split; [discriminate|]. intros _. eexists. split; [reflexivity|].
    eexists. reflexivity.
Qed.

(** Where every dataclass instance can be copied, the conversion raises
    exactly when it meets a dataclass type, with the [TypeError] of
    [asdict]. *)
Lemma _to_json_meets_class v :
  Spec.asdict_safe v = true ->
  (Spec.meets_class v = true ->
   _to_json v = Raise (TypeError "asdict() should be called on dataclass instances"))
  /\ (Spec.meets_class v = false -> exists r, _to_json v = Ok r).
Proof.
  induction v as [ | b | n | q | s | items IH | entries IH | fields IH | attrs IH | | t ]
    using value_nested_ind; intros Hsafe;
    try (split; [discriminate | intros _; eexists; reflexivity]).
  - cbn [Spec.asdict_safe] in Hsafe. cbn [Spec.meets_class _to_json].
    destruct (mapM_existsb _to_json Spec.meets_class
                (TypeError "asdict() should be called on dataclass instances")
                items) as [Hbad Hgood].
    { eapply Forall_forallb with (p := Spec.asdict_safe); [exact IH | exact Hsafe]. }
    split; intros H.
    + now rewrite (Hbad H).
    + destruct (Hgood H) as [bs ->]. eexists; reflexivity.
  - cbn [Spec.asdict_safe] in Hsafe. cbn [Spec.meets_class _to_json].
    destruct (mapM_existsb
                (fun kv => bind (_to_json (snd kv)) (fun x => Ok (fst kv, x)))
                (fun kv => Spec.meets_class (snd kv))
                (TypeError "asdict() should be called on dataclass instances")
                entries) as [Hbad Hgood].
    { eapply Forall_forallb with (p := fun kv => Spec.asdict_safe (snd kv));
        [|exact Hsafe].
      eapply Forall_impl; [|exact IH]. intros kv Hkv Hok.
      destruct (Hkv Hok) as [Hb Hg]. split; intros H.
      - now rewrite (Hb H).
      - destruct (Hg H) as [r ->]. eexists; reflexivity. }
    split; intros H.
    + now rewrite (Hbad H).
    + destruct (Hgood H) as [bs ->]. eexists; reflexivity.
  - split; [discriminate|]. intros _. cbn [_to_json asdict].
    rewrite (proj1 (_asdict_inner_cases (VDataclass fields)) Hsafe).
    eexists; reflexivity.
  - cbn [Spec.asdict_safe] in Hsafe. cbn [Spec.meets_class _to_json].
    destruct (mapM_existsb
                (fun kv => bind (_to_json (snd kv)) (fun x => Ok (fst kv, x)))
                (fun kv => Spec.meets_class (snd kv))
                (TypeError "asdict() should be called on dataclass instances")
                attrs) as [Hbad Hgood].
    { eapply Forall_forallb with (p := fun kv => Spec.asdict_safe (snd kv));
        [|exact Hsafe].
      eapply Forall_impl; [|exact IH]. intros kv Hkv Hok.
      destruct (Hkv Hok) as [Hb Hg]. split; intros H.
      - now rewrite (Hb H).
      - destruct (Hg H) as [r ->]. eexists; reflexivity. }
    split; intros H.
    + now rewrite (Hbad H).
    + destruct (Hgood H) as [bs ->]. eexists; reflexivity.
  - split; [reflexivity | discriminate].
Qed.

(** X9. The conversion raises exactly in two cases: when it meets a
    dataclass type below lists, dictionaries and plain instances, and
    when a dataclass instance it meets holds, at any depth, an object
    that [copy.deepcopy] cannot copy.  What it raises is a [TypeError],
    the one of [asdict] when every dataclass instance can be copied, and
    the wrapper fails with the same exception.  An object that cannot be
    copied passes through when it is not below a dataclass instance. *)
Theorem to_json_raises_exactly_when :
  forall v : value,
    ((exists err, _to_json v = Raise err)
     <-> Spec.meets_class v = true \/ Spec.asdict_safe v = false)
    /\ ((exists r, _to_json v = Ok r)
        <-> Spec.meets_class v = false /\ Spec.asdict_safe v = true)
    /\ (forall err, _to_json v = Raise err -> Spec.is_type_error err)
    /\ (Spec.asdict_safe v = true -> Spec.meets_class v = true ->
        _to_json v
        = Raise (TypeError "asdict() should be called on dataclass instances"))
    /\ (forall err, _normalize_result v = Raise err -> _to_json v = Raise err)
    /\ (forall type_name, _to_json (VOpaque type_name) = Ok (VOpaque type_name)).
Proof.
  intros v. destruct (_to_json_cases v) as [Hgood Hbad].
  pose proof (converts_split v) as Hsplit.
  split; [|split; [|split; [|split; [|split]]]].
  - split.
    + intros [err Herr]. destruct (Spec.converts v) eqn:Hc.
      * rewrite (Hgood eq_refl) in Herr. discriminate.
      * symmetry in Hsplit. apply andb_false_iff in Hsplit.
        destruct Hsplit as [H|H]; [now right|].
        left. now apply negb_false_iff in H.
    + intros H. destruct (Spec.converts v) eqn:Hc.
      * symmetry in Hsplit. apply andb_true_iff in Hsplit.
        destruct Hsplit as [Hs Hm]. apply negb_true_iff in Hm.
        destruct H; congruence.
      * destruct (Hbad eq_refl) as (e & He & _). eauto.
  - split.
    + intros [r Hr]. destruct (Spec.converts v) eqn:Hc.
      * symmetry in Hsplit. apply andb_true_iff in Hsplit.
        destruct Hsplit as [Hs Hm]. apply negb_true_iff in Hm. auto.
      * destruct (Hbad eq_refl) as (e & He & _). congruence.
    + intros [Hm Hs]. rewrite Hm, Hs in Hsplit. cbn in Hsplit.
      exists (Spec.to_json_value v). now apply Hgood.
  - intros err Herr. destruct (Spec.converts v) eqn:Hc.
    + rewrite (Hgood eq_refl) in Herr. discriminate.
    + destruct (Hbad eq_refl) as (e & He & Hte). congruence.
  - intros Hs Hm. now apply _to_json_meets_class.
  - intros err H. unfold _normalize_result in H.
    destruct (_to_json v) as [r|e]; destruct (isinstance_list v); cbn [bind] in H;
      try discriminate; now injection H as ->.
  - reflexivity.
Qed.

(** X10. When the raw result holds no dataclass type and no plain
    instance below a dataclass instance, what the conversion returns is
    plain nested data, and converting it again changes nothing. *)
Theorem to_json_result_is_plain :
  forall v r : value,
    Spec.engine_result v = true ->
    Spec.asdict_complete v = true ->
    _to_json v = Ok r ->
    Spec.is_plain r = true /\ _to_json r = Ok r.
Proof.
  intros v r Hwf Hc Hr. rewrite (_to_json_plain v Hwf Hc) in Hr.
  injection Hr as <-.
  pose proof (plain_data_is_plain v Hwf) as Hp.
  split; [exact Hp | now apply _to_json_on_plain].
Qed.

Lemma to_json_result_is_plain_witness :
  exists r, _to_json two_documents = Ok r /\ Spec.is_plain r = true /\ _to_json r = Ok r.
Proof.
  eexists. split; [reflexivity|].
  apply (to_json_result_is_plain two_documents); reflexivity.
Defined.

(** ** Text of a PDF *)

Lemma lstrip_head s c rest : lstrip s = String c rest -> is_space c = false.
Proof.
  induction s as [|a s IH]; simpl; [discriminate|].
  destruct (is_space a) eqn:Ha; [exact IH|].
  intros H. injection H as <- _. exact Ha.
Qed.

Lemma rstrip_head s c rest : rstrip s = String c rest -> exists tail, s = String c tail.
Proof.
  destruct s as [|a s]; simpl; [discriminate|].
  destruct (rstrip s); [destruct (is_space a); [discriminate|]|];
    intros H; injection H as <- _; eauto.
Qed.

Lemma rstrip_last s pre c :
  rstrip s = pre ++ String c "" -> is_space c = false.
Proof.
  revert pre. induction s as [|a s IH]; intros pre; simpl.
  - destruct pre; discriminate.
  - destruct (rstrip s) as [|b r] eqn:Hr.
    + destruct (is_space a) eqn:Ha; [destruct pre; discriminate|].
      destruct pre as [|p pre]; simpl; intros H.
      * injection H as <-. exact Ha.
      * injection H as _ H. destruct pre; discriminate.
    + destruct pre as [|p pre]; simpl; intros H.
      * injection H as _ H. discriminate.
      * injection H as _ H. now apply (IH pre).
Qed.

Lemma lstrip_blank s : Spec.blank s = true -> lstrip s = "".
Proof.
  induction s as [|a s IH]; simpl; [reflexivity|].
  intros H. apply andb_true_iff in H. destruct H as [-> Hs]. now apply IH.
Qed.

Lemma blank_app a b : Spec.blank (a ++ b) = Spec.blank a && Spec.blank b.
Proof.
  induction a as [|c a IH]; simpl; [reflexivity|]. now rewrite IH, andb_assoc.
Qed.

Lemma join_blank_pages pages :
  forallb Spec.blank_page pages = true ->
  Spec.blank (join (newline ++ newline) (map page_text pages)) = true.
Proof.
  assert (Hpage : forall p, Spec.blank_page p = true -> Spec.blank (page_text p) = true).
  { intros [t|]; simpl; [|reflexivity]. now destruct t. }
  induction pages as [|p pages IH]; [reflexivity|].
  cbn [forallb map]. intros H. apply andb_true_iff in H. destruct H as [Hp Hrest].
  specialize (IH Hrest). specialize (Hpage p Hp).
  destruct pages as [|p' pages]; [exact Hpage|].
  cbn [map join] in *. rewrite !blank_app, Hpage, IH. reflexivity.
Qed.

(** X11. The text read from a PDF is stripped: when it is not empty, its
    first and its last character are not white space.  When the reader
    finds only white space, or nothing, on every page, the text is
    empty. *)
Theorem pdf_text_is_stripped :
  forall (reader : string -> except exn (list (option string)))
         (pdf_bytes text : string),
    _extract_text_from_pdf_bytes (Some reader) pdf_bytes = Ok text ->
    (forall c rest, text = String c rest -> is_space c = false)
    /\ (forall pre c, text = pre ++ String c "" -> is_space c = false)
    /\ (forall pages, reader pdf_bytes = Ok pages ->
                      forallb Spec.blank_page pages = true -> text = "").
Proof.
  intros reader pdf_bytes text. unfold _extract_text_from_pdf_bytes.
  destruct (reader pdf_bytes) as [pages|err]; cbn [bind]; [|discriminate].
  intros H.
  assert (Ht : text = strip (join (newline ++ newline) (map page_text pages)))
    by congruence.
  subst text. clear H. unfold strip. split; [|split].
  - intros c rest H. destruct (rstrip_head _ _ _ H) as [tail Ht].
    now apply lstrip_head in Ht.
  - intros pre c H. now apply rstrip_last in H.
  - intros pages' Hp Hblank. assert (pages' = pages) by congruence. subst pages'.
    now rewrite (lstrip_blank _ (join_blank_pages _ Hblank)).
Qed.

Lemma pdf_text_is_stripped_witness :
  _extract_text_from_pdf_bytes sample_reader "%PDF-1.4" = Ok "ROMEO meets JULIET."
  /\ is_space "R" = false
  /\ is_space "." = false.
Proof.
  split; [reflexivity|].
  destruct (pdf_text_is_stripped (fun _ => Ok [Some "ROMEO meets JULIET. "; None])
              "%PDF-1.4" "ROMEO meets JULIET." eq_refl) as (Hfirst & Hlast & _).
  split.
  - apply (Hfirst "R"%char "OMEO meets JULIET."). reflexivity.
  - apply (Hlast "ROMEO meets JULIET" "."%char). reflexivity.
Defined.

(** ** The PDF path *)

Lemma append_empty_r s : s ++ "" = s.
Proof. induction s as [|c s IH]; simpl; [reflexivity | now rewrite IH]. Qed.

Lemma substring_prefix_length n s :
  String.length (substring 0 n s) = Nat.min n (String.length s).
Proof.
  revert n. induction s as [|c s IH]; intros [|n]; simpl; try reflexivity.
  now rewrite IH.
Qed.

Lemma substring_prefix n s : exists tail, s = substring 0 n s ++ tail.
Proof.
  revert n. induction s as [|c s IH]; intros [|n]; simpl.
  - now exists "".
  - now exists "".
  - now exists (String c s).
  - destruct (IH n) as [tail Ht]. exists tail. now rewrite <- Ht.
Qed.

Lemma slice_to_prefix s n : exists tail, s = slice_to s n ++ tail.
Proof. unfold slice_to. destruct (0 <=? n); apply substring_prefix. Qed.

Lemma slice_to_len s n : 0 <= n -> len (slice_to s n) = Z.min n (len s).
Proof.
  intros Hn. unfold slice_to, len.
  destruct (0 <=? n) eqn:E; [|apply Z.leb_gt in E; lia].
  rewrite substring_prefix_length. lia.
Qed.

Lemma validate_examples_Forall2 validation_error items models :
  validate_examples validation_error items = Ok models ->
  Forall2 (fun x m => model_validate x = Some m) items models.
Proof.
  revert models. induction items as [|x items IH]; simpl; intros models H.
  - injection H as <-. constructor.
  - destruct (model_validate x) as [m|] eqn:Hm; [|discriminate].
    destruct (validate_examples validation_error items) as [ms|]; [|discriminate].
    cbn [bind] in H. injection H as <-. constructor; [exact Hm | now apply IH].
Qed.

Lemma str_truthy_false s : str_truthy s = false <-> s = "".
Proof. destruct s; simpl; split; congruence. Qed.

Section PdfFacts.

Variable cfg : Settings.t.
Variable json_loads : string -> option value.
Variable validation_error : value -> string.
Variable PdfReader : option (string -> except exn (list (option string))).

Local Abbreviation prologue :=
  (extract_pdf_prologue cfg json_loads validation_error PdfReader).

(** Everything the prologue has checked when it returns. *)
Lemma extract_pdf_prologue_inv form args :
  prologue form = Ok args ->
  exists items models full built,
    is_pdf_name (file_filename form) = true
    /\ form_max_workers form <= Settings.MAX_WORKERS cfg
    /\ json_loads (form_examples_json form) = Some (VList items)
    /\ items <> []
    /\ validate_examples validation_error items = Ok models
    /\ file_body form <> ""
    /\ _extract_text_from_pdf_bytes PdfReader (file_body form) = Ok full
    /\ full <> ""
    /\ _build_examples models = Ok built
    /\ args = {| arg_text_or_documents := Spec.cut cfg full;
                 arg_prompt_description := form_prompt_description form;
                 arg_examples := built;
                 arg_model_id := or_default cfg (form_model_id form);
                 arg_api_key := Settings.LANGEXTRACT_API_KEY cfg;
                 arg_extraction_passes := Some (form_extraction_passes form);
                 arg_max_workers := Some (form_max_workers form);
                 arg_max_char_buffer := Some (form_max_char_buffer form);
                 arg_language_model_params := Omitted;
                 arg_show_progress := false |}.
Proof.
  unfold extract_pdf_prologue, Spec.cut. intros H.
  destruct (is_pdf_name (file_filename form)) eqn:Hname; cbn [negb] in H;
    [|discriminate].
  destruct (form_max_workers form >? Settings.MAX_WORKERS cfg) eqn:Hw; [discriminate|].
  rewrite Z.gtb_ltb in Hw. apply Z.ltb_ge in Hw.
  destruct (json_loads (form_examples_json form)) as [raw|] eqn:Hjson; [|discriminate].
  destruct raw as [ | | | | | [|x items] | | | | | ]; try discriminate.
  destruct (validate_examples validation_error (x :: items)) as [models|] eqn:Hv;
    [|discriminate].
  cbn [bind] in H.
  destruct (str_truthy (file_body form)) eqn:Hbody; cbn [negb] in H; [|discriminate].
  destruct (_extract_text_from_pdf_bytes PdfReader (file_body form)) as [full|] eqn:Hfull;
    [|discriminate].
  cbn [bind] in H.
  destruct (str_truthy full) eqn:Htext; cbn [negb] in H; [|discriminate].
  destruct (_build_examples models) as [built|] eqn:Hb; [|discriminate].
  cbn [bind] in H. injection H as <-.
  exists (x :: items), models, full, built.
  repeat split; try assumption; try reflexivity; try discriminate.
  - intros E. rewrite E in Hbody. discriminate.
  - intros E. rewrite E in Htext. discriminate.
Qed.

(** Past the checks on the form the prologue is the reading of the file
    followed by the example compiler. *)
Lemma pdf_prologue_past_form_rules form items models :
  is_pdf_name (file_filename form) = true ->
  form_max_workers form <= Settings.MAX_WORKERS cfg ->
  json_loads (form_examples_json form) = Some (VList items) ->
  items <> [] ->
  validate_examples validation_error items = Ok models ->
  file_body form <> "" ->
  prologue form
  = bind (_extract_text_from_pdf_bytes PdfReader (file_body form))
      (fun full =>
         if negb (str_truthy full) then
           Raise (HTTPException 400 "Could not extract text from PDF.")
         else
           bind (_build_examples models)
             (fun built =>
                Ok {| arg_text_or_documents := Spec.cut cfg full;
                      arg_prompt_description := form_prompt_description form;
                      arg_examples := built;
                      arg_model_id := or_default cfg (form_model_id form);
                      arg_api_key := Settings.LANGEXTRACT_API_KEY cfg;
                      arg_extraction_passes := Some (form_extraction_passes form);
                      arg_max_workers := Some (form_max_workers form);
                      arg_max_char_buffer := Some (form_max_char_buffer form);
                      arg_language_model_params := Omitted;
                      arg_show_progress := false |})).
Proof.
  intros Hname Hw Hjson Hne Hv Hbody. unfold extract_pdf_prologue, Spec.cut.
  rewrite Hname. cbn [negb]. case_gtb. rewrite Hjson.
  destruct items as [|x items]; [congruence|]. rewrite Hv. cbn [bind].
  destruct (file_body form); [congruence|]. reflexivity.
Qed.

End PdfFacts.

(** X12. A PDF request that passes the checks on the form, but in whose
    file the reader finds only white space or nothing on every page, is
    answered 400 [Could not extract text from PDF.], and the engine is
    not called. *)
Theorem pdf_without_text_is_rejected :
  forall (cfg : Settings.t) (json_loads : string -> option value)
         (validation_error : value -> string)
         (reader : string -> except exn (list (option string)))
         (engine : ExtractArgs -> except exn value)
         (form : PdfForm) (x_api_key : option string) (request_id : string)
         (timing_ms : Z) (s : shared)
         (items : list value) (models : list ExtractionExample)
         (pages : list (option string)),
    Auth.require_api_key cfg x_api_key = Ok tt ->
    is_pdf_name (file_filename form) = true ->
    form_max_workers form <= Settings.MAX_WORKERS cfg ->
    json_loads (form_examples_json form) = Some (VList items) ->
    items <> [] ->
    validate_examples validation_error items = Ok models ->
    file_body form <> "" ->
    reader (file_body form) = Ok pages ->
    forallb Spec.blank_page pages = true ->
    extract_pdf_endpoint cfg json_loads validation_error (Some reader) engine form
      x_api_key request_id timing_ms s
    = Some (Raise (HTTPException 400 "Could not extract text from PDF."), s).
Proof.
  intros cfg json_loads validation_error reader engine form x_api_key request_id
         timing_ms s items models pages Hauth Hname Hw Hjson Hne Hv Hbody Hpages Hblank.
  unfold extract_pdf_endpoint. apply guarded_rejected; [exact Hauth|].
  rewrite (pdf_prologue_past_form_rules cfg json_loads validation_error (Some reader)
             form items models) by assumption.
  unfold _extract_text_from_pdf_bytes. rewrite Hpages. cbn [bind]. unfold strip.
  now rewrite (lstrip_blank _ (join_blank_pages _ Hblank)).
Qed.

Lemma pdf_without_text_is_rejected_witness :
  extract_pdf_endpoint test_settings sample_json_loads sample_validation_error
    scanned_reader stub_engine (romeo_form one_example_json)
    (Some "test-service-key") "c0ffee" 2 (fresh test_settings)
  = Some (Raise (HTTPException 400 "Could not extract text from PDF."),
          fresh test_settings).
Proof.
  apply (pdf_without_text_is_rejected test_settings sample_json_loads
           sample_validation_error (fun _ => Ok [Some "  "; None]) stub_engine
           (romeo_form one_example_json) (Some "test-service-key") "c0ffee" 2
           (fresh test_settings) [romeo_example_value] [romeo_example]
           [Some "  "; None]).
  - reflexivity.
  - reflexivity.
  - vm_compute. discriminate.
  - reflexivity.
  - discriminate.
  - reflexivity.
  - discriminate.
  - reflexivity.
  - reflexivity.
Defined.

(** X13. The text the PDF path hands to the engine is a prefix of the
    text read from the file, the whole of it when that fits the limit;
    with a limit that is not negative it is never longer than the
    limit. *)
Theorem pdf_text_is_cut_to_limit :
  forall (cfg : Settings.t) (json_loads : string -> option value)
         (validation_error : value -> string)
         (PdfReader : option (string -> except exn (list (option string))))
         (form : PdfForm) (args : ExtractArgs),
    extract_pdf_prologue cfg json_loads validation_error PdfReader form = Ok args ->
    exists full,
      _extract_text_from_pdf_bytes PdfReader (file_body form) = Ok full
      /\ (exists tail, full = arg_text_or_documents args ++ tail)
      /\ (len full <= Settings.MAX_TEXT_CHARS cfg -> arg_text_or_documents args = full)
      /\ (0 <= Settings.MAX_TEXT_CHARS cfg ->
          len (arg_text_or_documents args) <= Settings.MAX_TEXT_CHARS cfg).
Proof.
  intros cfg json_loads validation_error PdfReader form args H.
  destruct (extract_pdf_prologue_inv _ _ _ _ _ _ H)
    as (items & models & full & built & _ & _ & _ & _ & _ & _ & Hfull & _ & _ & ->).
  exists full. split; [exact Hfull|]. cbn [arg_text_or_documents]. unfold Spec.cut.
  destruct (len full >? Settings.MAX_TEXT_CHARS cfg) eqn:E; rewrite Z.gtb_ltb in E;
    [apply Z.ltb_lt in E | apply Z.ltb_ge in E].
  - split; [apply slice_to_prefix|]. split; [lia|].
    intros Hpos. rewrite slice_to_len by exact Hpos. lia.
  - split; [exists ""; now rewrite append_empty_r|]. split; [reflexivity | lia].
Qed.

Lemma pdf_text_is_cut_to_limit_witness :
  exists args,
    extract_pdf_prologue tight_settings sample_json_loads sample_validation_error
      long_reader (romeo_form one_example_json) = Ok args
    /\ arg_text_or_documents args = "ROMEO meets JULIET." ++ newline ++ newline ++ "The"
    /\ len (arg_text_or_documents args) <= Settings.MAX_TEXT_CHARS tight_settings.
Proof.
  eexists. split; [vm_compute; reflexivity|]. split; [reflexivity|].
  match goal with |- len (arg_text_or_documents ?a) <= _ =>
    destruct (pdf_text_is_cut_to_limit tight_settings sample_json_loads
                sample_validation_error long_reader (romeo_form one_example_json) a
                eq_refl) as (full & _ & _ & _ & Hbound)
  end.
  apply Hbound. vm_compute. discriminate.
Defined.

Lemma validate_examples_first_invalid validation_error valid x rest :
  Forall (fun y => model_validate y <> None) valid ->
  model_validate x = None ->
  validate_examples validation_error (valid ++ x :: rest)
  = Raise (HTTPException 400 ("Invalid examples_json format: " ++ validation_error x)).
Proof.
  intros Hvalid Hx. induction Hvalid as [|y valid Hy _ IH]; simpl.
  - now rewrite Hx.
  - destruct (model_validate y); [|congruence]. now rewrite IH.
Qed.

(** X14. On [/v1/extract-pdf] the checks on the form run in the order
    file name, worker count, JSON syntax, non-empty array, shape of each
    example, non-empty file.  The first that fails ends the request with
    its own 400, the shape check with the error of the first invalid
    example, and the engine is not called. *)
Theorem pdf_validation_order :
  forall (cfg : Settings.t) (json_loads : string -> option value)
         (validation_error : value -> string)
         (PdfReader : option (string -> except exn (list (option string))))
         (engine : ExtractArgs -> except exn value)
         (form : PdfForm) (x_api_key : option string) (request_id : string)
         (timing_ms : Z) (s : shared),
    Auth.require_api_key cfg x_api_key = Ok tt ->
    let response :=
      extract_pdf_endpoint cfg json_loads validation_error PdfReader engine form
        x_api_key request_id timing_ms s in
    let name_ok := is_pdf_name (file_filename form) = true in
    let workers_ok := form_max_workers form <= Settings.MAX_WORKERS cfg in
    (~ name_ok ->
     response = Some (Raise (HTTPException 400 "Only PDF files are supported."), s))
    /\ (name_ok -> ~ workers_ok ->
        response
        = Some (Raise (HTTPException 400
                         ("max_workers exceeds MAX_WORKERS="
                          ++ str_of_int (Settings.MAX_WORKERS cfg))), s))
    /\ (name_ok -> workers_ok ->
        json_loads (form_examples_json form) = None ->
        response
        = Some (Raise (HTTPException 400 "examples_json must be valid JSON."), s))
    /\ (name_ok -> workers_ok ->
        forall raw,
          json_loads (form_examples_json form) = Some raw ->
          (forall x items, raw <> VList (x :: items)) ->
          response
          = Some (Raise (HTTPException 400
                           "examples_json must be a non-empty JSON array."), s))
    /\ (name_ok -> workers_ok ->
        forall valid x rest,
          json_loads (form_examples_json form) = Some (VList (valid ++ x :: rest)) ->
          Forall (fun y => model_validate y <> None) valid ->
          model_validate x = None ->
          response
          = Some (Raise (HTTPException 400
                           ("Invalid examples_json format: " ++ validation_error x)), s))
    /\ (name_ok -> workers_ok ->
        forall items models,
          json_loads (form_examples_json form) = Some (VList items) ->
          items <> [] ->
          validate_examples validation_error items = Ok models ->
          file_body form = "" ->
          response
          = Some (Raise (HTTPException 400 "Uploaded file is empty."), s)).
Proof.
  intros cfg json_loads validation_error PdfReader engine form x_api_key request_id
         timing_ms s Hauth. cbv zeta. unfold extract_pdf_endpoint.
  split; [|split; [|split; [|split; [|split]]]].
  - intros Hname. apply guarded_rejected; [exact Hauth|].
    unfold extract_pdf_prologue.
    destruct (is_pdf_name (file_filename form)); [congruence | reflexivity].
  - intros Hname Hw. apply guarded_rejected; [exact Hauth|].
    unfold extract_pdf_prologue. rewrite Hname. cbn [negb]. case_gtb. reflexivity.
  - intros Hname Hw Hjson. apply guarded_rejected; [exact Hauth|].
    unfold extract_pdf_prologue. rewrite Hname. cbn [negb]. case_gtb.
    now rewrite Hjson.
  - intros Hname Hw raw Hjson Hraw. apply guarded_rejected; [exact Hauth|].
    unfold extract_pdf_prologue. rewrite Hname. cbn [negb]. case_gtb.
    rewrite Hjson.
    destruct raw as [ | | | | | [|x items] | | | | | ]; try reflexivity.
    now contradiction (Hraw x items).
  - intros Hname Hw valid x rest Hjson Hvalid Hx.
    apply guarded_rejected; [exact Hauth|].
    unfold extract_pdf_prologue. rewrite Hname. cbn [negb]. case_gtb.
    rewrite Hjson.
    pose proof (validate_examples_first_invalid validation_error valid x rest Hvalid Hx)
      as Hv.
    destruct (valid ++ x :: rest)%list as [|y l] eqn:Hl.
    { destruct valid; discriminate Hl. }
    now rewrite Hv.
  - intros Hname Hw items models Hjson Hne Hv Hbody.
    apply guarded_rejected; [exact Hauth|].
    unfold extract_pdf_prologue. rewrite Hname. cbn [negb]. case_gtb.
    rewrite Hjson. destruct items as [|x items]; [congruence|].
    rewrite Hv. cbn [bind]. now rewrite Hbody.
Qed.

Lemma pdf_validation_order_witness :
  extract_pdf_endpoint test_settings sample_json_loads sample_validation_error
    sample_reader stub_engine text_file_form (Some "test-service-key") "c0ffee" 2
    (fresh test_settings)
  = Some (Raise (HTTPException 400 "Only PDF files are supported."),
          fresh test_settings)
  /\ extract_pdf_endpoint test_settings sample_json_loads sample_validation_error
       sample_reader stub_engine (romeo_form "[") (Some "test-service-key") "c0ffee" 2
       (fresh test_settings)
     = Some (Raise (HTTPException 400 "examples_json must be valid JSON."),
             fresh test_settings).
Proof.
  split.
  - pose proof (pdf_validation_order test_settings sample_json_loads
                  sample_validation_error sample_reader stub_engine text_file_form
                  (Some "test-service-key") "c0ffee" 2 (fresh test_settings) eq_refl) as H.
    cbv zeta in H. destruct H as (H1 & _). apply H1. vm_compute. discriminate.
  - pose proof (pdf_validation_order test_settings sample_json_loads
                  sample_validation_error sample_reader stub_engine (romeo_form "[")
                  (Some "test-service-key") "c0ffee" 2 (fresh test_settings) eq_refl) as H.
    cbv zeta in H. destruct H as (_ & _ & H3 & _). apply H3.
    + reflexivity.
    + vm_compute. discriminate.
    + reflexivity.
Defined.

(** ** What reaches the engine *)

Lemma validate_params_inv repr_str params lm :
  _validate_language_model_params repr_str params = Ok lm ->
  lm = params
  /\ forall p, params = Some p -> forall k, In k (keys p) -> In k allowed_keys.
Proof.
  unfold _validate_language_model_params.
  destruct params as [p|]; [|intros H; injection H as <-; split; [reflexivity|discriminate]].
  destruct (unknown_keys p) as [|u us] eqn:Hu; [|discriminate].
  intros H. injection H as <-. split; [reflexivity|].
  intros p' Hp k Hk. injection Hp as <-.
  destruct (is_allowed k) eqn:Ha; [now apply is_allowed_In|].
  assert (Hin : In k (unknown_keys p)).
  { apply unknown_keys_In. split; [exact Hk | now apply is_allowed_false]. }
  rewrite Hu in Hin. contradiction.
Qed.

(** X15. Whatever the text path hands to the engine has passed every
    rule: the text and the number of examples are within their limits,
    a worker count that is given and not zero is within the ceiling, the
    engine parameters are those of the request and all their keys are
    allowed, every extraction has its class and its text, and the
    provider secret is the configured one. *)
Theorem extract_dispatches_only_valid_requests :
  forall (cfg : Settings.t) (repr_str : string -> string)
         (payload : ExtractRequest) (args : ExtractArgs),
    extract_prologue cfg repr_str payload = Ok args ->
    arg_text_or_documents args = text payload
    /\ len (text payload) <= Settings.MAX_TEXT_CHARS cfg
    /\ arg_examples args = map Spec.compiled_example (examples payload)
    /\ Spec.examples_ok (examples payload) = true
    /\ Z.of_nat (List.length (arg_examples args)) <= Settings.MAX_EXAMPLES cfg
    /\ arg_max_workers args = max_workers payload
    /\ (forall w, arg_max_workers args = Some w ->
                  w = 0 \/ w <= Settings.MAX_WORKERS cfg)
    /\ arg_language_model_params args = Given (language_model_params payload)
    /\ (forall p, language_model_params payload = Some p ->
                  forall k, In k (keys p) -> In k allowed_keys)
    /\ arg_api_key args = Settings.LANGEXTRACT_API_KEY cfg
    /\ arg_show_progress args = false.
Proof.
  intros cfg repr_str payload args. unfold extract_prologue, workers_exceed.
  case_gtb; [discriminate|]. case_gtb; [discriminate|].
  destruct (match max_workers payload with
            | Some n => negb (n =? 0) && (n >? Settings.MAX_WORKERS cfg)
            | None => false
            end) eqn:Hw; [discriminate|].
  destruct (_validate_language_model_params repr_str (language_model_params payload))
    as [lm|] eqn:Hlm; [|discriminate].
  destruct (validate_params_inv _ _ _ Hlm) as [-> Hkeys].
  cbn [bind].
  destruct (_build_examples_cases (examples payload)) as [[Hok ->]|[_ ->]];
    [|discriminate].
  cbn [bind]. intros H. injection H as <-.
  cbn [arg_text_or_documents arg_examples arg_max_workers arg_language_model_params
       arg_api_key arg_show_progress].
  repeat split; try assumption; try reflexivity.
  - rewrite length_map. lia.
  - intros w Hsome. rewrite Hsome in Hw.
    destruct (w =? 0) eqn:Hz; [left; now apply Z.eqb_eq in Hz|].
    right. cbn [negb andb] in Hw. rewrite Z.gtb_ltb in Hw. apply Z.ltb_ge in Hw. lia.
Qed.

Lemma extract_dispatches_only_valid_requests_witness :
  exists args,
    extract_prologue test_settings repr_plain romeo_payload = Ok args
    /\ arg_text_or_documents args = "ROMEO meets JULIET."
    /\ arg_api_key args = "test-langextract-key".
Proof.
  eexists. split; [reflexivity|].
  match goal with |- arg_text_or_documents ?a = _ /\ _ =>
    destruct (extract_dispatches_only_valid_requests test_settings repr_plain
                romeo_payload a eq_refl)
      as (Htext & _ & _ & _ & _ & _ & _ & _ & _ & Hkey & _)
  end.
  split; [exact Htext | exact Hkey].
Defined.

(** X16. Whatever the PDF path hands to the engine has a worker count
    within the ceiling, no engine parameters, the passes and the buffer
    size of the form as they came, a text that is not empty when the
    limit is positive, and at least one example: one for each entry of
    the JSON array, in that order. *)
Theorem extract_pdf_dispatches_checked_form :
  forall (cfg : Settings.t) (json_loads : string -> option value)
         (validation_error : value -> string)
         (PdfReader : option (string -> except exn (list (option string))))
         (form : PdfForm) (args : ExtractArgs),
    extract_pdf_prologue cfg json_loads validation_error PdfReader form = Ok args ->
    arg_max_workers args = Some (form_max_workers form)
    /\ form_max_workers form <= Settings.MAX_WORKERS cfg
    /\ arg_language_model_params args = Omitted
    /\ arg_extraction_passes args = Some (form_extraction_passes form)
    /\ arg_max_char_buffer args = Some (form_max_char_buffer form)
    /\ (0 < Settings.MAX_TEXT_CHARS cfg -> arg_text_or_documents args <> "")
    /\ exists items,
         json_loads (form_examples_json form) = Some (VList items)
         /\ (1 <= List.length items)%nat
         /\ Forall2 (fun x b => exists m, model_validate x = Some m
                                          /\ b = Spec.compiled_example m)
              items (arg_examples args).
Proof.
  intros cfg json_loads validation_error PdfReader form args H.
  destruct (extract_pdf_prologue_inv _ _ _ _ _ _ H)
    as (items & models & full & built & _ & Hw & Hjson & Hne & Hv & _ & _ & Hfull
        & Hb & ->).
  cbn [arg_max_workers arg_language_model_params arg_extraction_passes
       arg_max_char_buffer arg_text_or_documents arg_examples].
  repeat split; try assumption.
  - intros Hpos Hcut. unfold Spec.cut in Hcut.
    destruct (len full >? Settings.MAX_TEXT_CHARS cfg) eqn:E; [|congruence].
    rewrite Z.gtb_ltb in E. apply Z.ltb_lt in E.
    pose proof (slice_to_len full (Settings.MAX_TEXT_CHARS cfg) ltac:(lia)) as Hlen.
    rewrite Hcut in Hlen. cbn in Hlen. lia.
  - exists items. split; [exact Hjson|]. split.
    + destruct items; [congruence | simpl; lia].
    + destruct (_build_examples_cases models) as [[_ Hmap]|[_ Hbad]];
        rewrite Hb in *; [|discriminate].
      injection Hmap as ->.
      pose proof (validate_examples_Forall2 _ _ _ Hv) as Hall.
      clear -Hall. induction Hall as [|x m items models Hx _ IH]; cbn [map];
        constructor; eauto.
Qed.

Lemma extract_pdf_dispatches_checked_form_witness :
  exists args,
    extract_pdf_prologue test_settings sample_json_loads sample_validation_error
      sample_reader bare_form = Ok args
    /\ arg_max_workers args = Some 0
    /\ arg_extraction_passes args = Some 0
    /\ arg_language_model_params args = Omitted.
Proof.
  eexists. split; [vm_compute; reflexivity|].
  match goal with |- arg_max_workers ?a = _ /\ _ =>
    destruct (extract_pdf_dispatches_checked_form test_settings sample_json_loads
                sample_validation_error sample_reader bare_form a eq_refl)
      as (Hw & _ & Hlm & Hp & _)
  end.
  split; [exact Hw|]. split; [exact Hp | exact Hlm].
Defined.

(** X17. The engine never receives an empty model id as long as the
    configured default is not empty: it receives the id of the request
    when that is not empty, and the default otherwise, on both paths. *)
Theorem engine_model_id_defaults :
  forall (cfg : Settings.t) (repr_str : string -> string)
         (json_loads : string -> option value) (validation_error : value -> string)
         (PdfReader : option (string -> except exn (list (option string)))),
    Settings.DEFAULT_MODEL_ID cfg <> "" ->
    (forall payload args,
        extract_prologue cfg repr_str payload = Ok args ->
        arg_model_id args <> ""
        /\ (model_id payload <> "" -> arg_model_id args = model_id payload)
        /\ (model_id payload = "" -> arg_model_id args = Settings.DEFAULT_MODEL_ID cfg))
    /\ (forall form args,
          extract_pdf_prologue cfg json_loads validation_error PdfReader form = Ok args ->
          arg_model_id args <> ""
          /\ (form_model_id form <> "" -> arg_model_id args = form_model_id form)
          /\ (form_model_id form = "" ->
              arg_model_id args = Settings.DEFAULT_MODEL_ID cfg)).
Proof.
  intros cfg repr_str json_loads validation_error PdfReader Hdefault.
  assert (Hor : forall id,
             or_default cfg id <> ""
             /\ (id <> "" -> or_default cfg id = id)
             /\ (id = "" -> or_default cfg id = Settings.DEFAULT_MODEL_ID cfg)).
  { intros [|c id]; unfold or_default; cbn [str_truthy]; repeat split;
      congruence. }
  split.
  - intros payload args H.
    assert (Hid : arg_model_id args = or_default cfg (model_id payload)).
    { revert H. unfold extract_prologue.
      repeat match goal with
             | |- context [if ?b then _ else _] => destruct b; [discriminate|]
             end.
      destruct (_validate_language_model_params repr_str (language_model_params payload));
        [|discriminate].
      cbn [bind]. destruct (_build_examples (examples payload)); [|discriminate].
      cbn [bind]. intros H. now injection H as <-. }
    rewrite Hid. apply Hor.
  - intros form args H.
    destruct (extract_pdf_prologue_inv _ _ _ _ _ _ H)
      as (items & models & full & built & _ & _ & _ & _ & _ & _ & _ & _ & _ & ->).
    cbn [arg_model_id]. apply Hor.
Qed.

Lemma engine_model_id_defaults_witness :
  exists args,
    extract_pdf_prologue test_settings sample_json_loads sample_validation_error
      sample_reader bare_form = Ok args
    /\ arg_model_id args = "gemini-2.5-flash".
Proof.
  eexists. split; [vm_compute; reflexivity|].
  match goal with |- arg_model_id ?a = _ =>
    destruct (engine_model_id_defaults test_settings repr_plain sample_json_loads
                sample_validation_error sample_reader ltac:(discriminate))
      as [_ Hpdf];
    destruct (Hpdf bare_form a eq_refl) as (_ & _ & Hdef)
  end.
  apply Hdef. reflexivity.
Defined.

(** ** Outcomes of a dispatch *)

(** X18. When the engine call raises, the PDF path answers 500
    [Extraction failed.] with the correlation id whatever was raised.
    The text path does the same, except that a timeout gives
    [Request timed out.] and an [HTTPException] raised by the engine is
    passed on to the caller with its own status and detail.  In each
    case the call is recorded and the slot is given back. *)
Theorem engine_exceptions_by_path :
  forall (cfg : Settings.t) (repr_str : string -> string)
         (json_loads : string -> option value) (validation_error : value -> string)
         (PdfReader : option (string -> except exn (list (option string))))
         (engine : ExtractArgs -> except exn value)
         (x_api_key : option string) (request_id : string) (timing_ms : Z)
         (s : shared),
    Auth.require_api_key cfg x_api_key = Ok tt ->
    0 < sem_value s ->
    (forall payload args exc,
        extract_prologue cfg repr_str payload = Ok args ->
        engine args = Raise exc ->
        extract_endpoint cfg repr_str engine payload x_api_key request_id timing_ms s
        = Some (Raise (match exc with
                       | HTTPException status_code detail =>
                           HTTPException status_code detail
                       | TimeoutError =>
                           HTTPException 500
                             ("Request timed out. request_id=" ++ request_id)
                       | TypeError _ | Error _ =>
                           HTTPException 500
                             ("Extraction failed. request_id=" ++ request_id)
                       end),
                {| sem_value := sem_value s;
                   engine_calls := (engine_calls s ++ [args])%list |}))
    /\ (forall form args exc,
           extract_pdf_prologue cfg json_loads validation_error PdfReader form = Ok args ->
           engine args = Raise exc ->
           extract_pdf_endpoint cfg json_loads validation_error PdfReader engine form
             x_api_key request_id timing_ms s
           = Some (Raise (HTTPException 500
                            ("Extraction failed. request_id=" ++ request_id)),
                   {| sem_value := sem_value s;
                      engine_calls := (engine_calls s ++ [args])%list |})).
Proof.
  intros cfg repr_str json_loads validation_error PdfReader engine x_api_key
         request_id timing_ms s Hauth Hfree.
  split.
  - intros payload args exc Hpro Hout. unfold extract_endpoint.
    rewrite (guarded_dispatched cfg engine Text _ args) by assumption.
    rewrite Hout. now destruct exc.
  - intros form args exc Hpro Hout. unfold extract_pdf_endpoint.
    rewrite (guarded_dispatched cfg engine Pdf _ args) by assumption.
    rewrite Hout. reflexivity.
Qed.

Lemma engine_exceptions_by_path_witness :
  option_map fst
    (extract_endpoint test_settings repr_plain refusing_engine romeo_payload
       (Some "test-service-key") "c0ffee" 1 (fresh test_settings))
  = Some (Raise (HTTPException 429 "provider: quota exceeded for key sk-live"))
  /\ option_map fst
       (extract_pdf_endpoint test_settings sample_json_loads sample_validation_error
          sample_reader refusing_engine (romeo_form one_example_json)
          (Some "test-service-key") "c0ffee" 1 (fresh test_settings))
     = Some (Raise (HTTPException 500 "Extraction failed. request_id=c0ffee")).
Proof.
  pose proof (engine_exceptions_by_path test_settings repr_plain sample_json_loads
                sample_validation_error sample_reader refusing_engine
                (Some "test-service-key") "c0ffee" 1 (fresh test_settings)
                eq_refl eq_refl) as [Htext Hpdf].
  split.
  - rewrite (Htext romeo_payload _
               (HTTPException 429 "provider: quota exceeded for key sk-live")
               eq_refl eq_refl).
    reflexivity.
  - rewrite (Hpdf (romeo_form one_example_json) _
               (HTTPException 429 "provider: quota exceeded for key sk-live")
               eq_refl eq_refl).
    reflexivity.
Defined.

(** X19. When the engine call returns, the answer is built after the
    slot is given back.  If the conversion of the result succeeds, the
    response carries the correlation id and the measured time of the
    request, one key, [documents] for a list and [document] otherwise,
    and no markdown.  If the conversion raises, its exception leaves the
    handler unhandled, with the slot given back all the same.  Where
    every dataclass instance of the result can be copied, the conversion
    succeeds unless the result holds a dataclass type, and then the
    exception is the [TypeError] of [asdict]. *)
Theorem engine_result_response :
  forall (cfg : Settings.t) (engine : ExtractArgs -> except exn value)
         (e : endpoint) (args : ExtractArgs) (v : value)
         (x_api_key : option string) (request_id : string) (timing_ms : Z)
         (s : shared),
    Auth.require_api_key cfg x_api_key = Ok tt ->
    0 < sem_value s ->
    engine args = Ok v ->
    exists response,
      guarded cfg engine e (Ok args) x_api_key request_id timing_ms s
      = Some (response,
              {| sem_value := sem_value s;
                 engine_calls := (engine_calls s ++ [args])%list |})
      /\ (forall r,
            _to_json v = Ok r ->
            response
            = Ok {| request_id := request_id;
                    timing_ms := timing_ms;
                    result := [(if isinstance_list v then "documents"
                                else "document", r)];
                    markdown := None |})
      /\ (forall err, _to_json v = Raise err -> response = Raise err)
      /\ (Spec.asdict_safe v = true -> Spec.meets_class v = false ->
          exists r,
            _to_json v = Ok r
            /\ response
               = Ok {| request_id := request_id;
                       timing_ms := timing_ms;
                       result := [(if isinstance_list v then "documents"
                                   else "document", r)];
                       markdown := None |})
      /\ (Spec.asdict_safe v = true -> Spec.meets_class v = true ->
          response
          = Raise (TypeError "asdict() should be called on dataclass instances")).
Proof.
  intros cfg engine e args v x_api_key request_id timing_ms s Hauth Hfree Hout.
  assert (Hh : handlers e request_id (Ok v) = Ok v) by now destruct e.
  assert (Hgood : forall r,
             _to_json v = Ok r ->
             epilogue request_id timing_ms (handlers e request_id (engine args))
             = Ok {| request_id := request_id;
                     timing_ms := timing_ms;
                     result := [(if isinstance_list v then "documents"
                                 else "document", r)];
                     markdown := None |}).
  { intros r Hr. rewrite Hout, Hh. unfold epilogue, _normalize_result. cbn [bind].
    rewrite Hr. now destruct (isinstance_list v). }
  assert (Hbad : forall err,
             _to_json v = Raise err ->
             epilogue request_id timing_ms (handlers e request_id (engine args))
             = Raise err).
  { intros err Herr. rewrite Hout, Hh. unfold epilogue, _normalize_result. cbn [bind].
    rewrite Herr. now destruct (isinstance_list v). }
  eexists. split.
  - apply (guarded_dispatched cfg engine e (Ok args) args); auto.
  - split; [exact Hgood|]. split; [exact Hbad|]. split.
    + intros Hs Hm. destruct (_to_json_meets_class v Hs) as [_ Hok].
      destruct (Hok Hm) as [r Hr]. exists r. split; [exact Hr | now apply Hgood].
    + intros Hs Hm. destruct (_to_json_meets_class v Hs) as [Hraise _].
      apply Hbad. now apply Hraise.
Qed.

Lemma engine_result_response_witness :
  exists response,
    guarded test_settings class_engine Text (Ok romeo_args)
      (Some "test-service-key") "c0ffee" 5 (fresh test_settings)
    = Some (response,
            {| sem_value := sem_value (fresh test_settings);
               engine_calls := (engine_calls (fresh test_settings) ++ [romeo_args])%list |})
    /\ status_of response = 500.
Proof.
  destruct (engine_result_response test_settings class_engine Text romeo_args
              (VList [VClass]) (Some "test-service-key") "c0ffee" 5
              (fresh test_settings) eq_refl eq_refl eq_refl)
    as (response & Hrun & _ & _ & _ & Hbad).
  exists response. split; [exact Hrun|].
  rewrite (Hbad eq_refl eq_refl). reflexivity.
Defined.

(** X20. A request is left suspended at the gate only if it is
    authorized, passes its prologue and finds no free slot.  A request
    that is refused, for its credential or by a validation rule, is
    answered at once even when the gate is full, and leaves the shared
    state as it was. *)
Theorem only_valid_requests_wait :
  forall (cfg : Settings.t) (engine : ExtractArgs -> except exn value)
         (e : endpoint) (prologue : except exn ExtractArgs)
         (x_api_key : option string) (request_id : string) (timing_ms : Z)
         (s : shared),
    (guarded cfg engine e prologue x_api_key request_id timing_ms s = None
     <-> Auth.require_api_key cfg x_api_key = Ok tt
         /\ (exists args, prologue = Ok args)
         /\ sem_value s <= 0)
    /\ (forall err,
          Auth.require_api_key cfg x_api_key = Raise err
          \/ (Auth.require_api_key cfg x_api_key = Ok tt /\ prologue = Raise err) ->
          guarded cfg engine e prologue x_api_key request_id timing_ms s
          = Some (Raise err, s)).
Proof.
  intros cfg engine e prologue x_api_key request_id timing_ms s. split.
  - unfold guarded, enter_block, acquire.
    destruct (Auth.require_api_key cfg x_api_key) as [[]|err].
    + destruct prologue as [args|err].
      * destruct (0 <? sem_value s) eqn:Hfree.
        -- apply Z.ltb_lt in Hfree. split; [discriminate|]. intros (_ & _ & H). lia.
        -- apply Z.ltb_ge in Hfree. split; [|reflexivity].
           intros _. repeat split; eauto.
      * split; [discriminate|]. intros (_ & [args H] & _). discriminate H.
    + split; [discriminate|]. intros (H & _). discriminate H.
  - intros err [H|[H1 H2]].
    + now apply guarded_unauthorized.
    + now apply guarded_rejected.
Qed.

(** ** Requests in a row *)

Example romeo_args_prologue :
  extract_prologue test_settings repr_plain romeo_payload = Ok romeo_args.
Proof. reflexivity. Qed.

(** With a free slot a handler always runs to its response, leaves the
    counter as it was and records at most its own engine call. *)
Lemma guarded_total cfg engine e prologue x_api_key request_id timing_ms s :
  0 < sem_value s ->
  exists response s',
    guarded cfg engine e prologue x_api_key request_id timing_ms s = Some (response, s')
    /\ sem_value s' = sem_value s
    /\ (engine_calls s' = engine_calls s
        \/ exists args, prologue = Ok args
                        /\ engine_calls s' = (engine_calls s ++ [args])%list).
Proof.
  intros Hfree. unfold guarded, enter_block, acquire, leave_block, release.
  destruct (Auth.require_api_key cfg x_api_key); [|eauto 6].
  destruct prologue as [args|err]; [|eauto 6].
  apply Z.ltb_lt in Hfree. rewrite Hfree. cbn [sem_value engine_calls].
  eexists. eexists. split; [reflexivity|]. cbn [sem_value engine_calls].
  split; [lia|]. right. eauto.
Qed.

(** X21. Served one after another from a gate with a free slot, any list
    of requests is answered in full: no handler is left suspended, there
    is one response for each request, the counter ends where it started,
    the engine calls made before are still recorded in their order, and
    at most one call is added for each request. *)
Theorem serve_answers_all_and_restores_gate :
  forall (cfg : Settings.t) (repr_str : string -> string)
         (json_loads : string -> option value) (validation_error : value -> string)
         (PdfReader : option (string -> except exn (list (option string))))
         (engine : ExtractArgs -> except exn value)
         (requests : list (request * Z)) (s : shared),
    0 < sem_value s ->
    exists responses s' added,
      serve cfg repr_str json_loads validation_error PdfReader engine requests s
      = Some (responses, s')
      /\ List.length responses = List.length requests
      /\ sem_value s' = sem_value s
      /\ engine_calls s' = (engine_calls s ++ added)%list
      /\ (List.length added <= List.length requests)%nat.
Proof.
  intros cfg repr_str json_loads validation_error PdfReader engine requests.
  induction requests as [|[r timing_ms] rest IH]; intros s Hfree.
  - exists [], s, []. cbn [serve List.length]. rewrite app_nil_r. auto.
  - cbn [serve].
    assert (Hstep : exists response s1 added1,
               handle cfg repr_str json_loads validation_error PdfReader engine
                 r timing_ms s = Some (response, s1)
               /\ sem_value s1 = sem_value s
               /\ engine_calls s1 = (engine_calls s ++ added1)%list
               /\ (List.length added1 <= 1)%nat).
    { unfold handle, extract_endpoint, extract_pdf_endpoint.
      destruct r as [key rid payload | key rid form];
        match goal with |- context [guarded ?c ?en ?e ?p ?k ?i ?t ?st] =>
          destruct (guarded_total c en e p k i t st Hfree)
            as (response & s1 & -> & Hsem & Hcalls)
        end;
        exists response, s1;
        (destruct Hcalls as [Hc|(args & _ & Hc)];
         [exists []; rewrite app_nil_r | exists [args]]); cbn [List.length]; auto. }
    destruct Hstep as (response & s1 & added1 & -> & Hsem1 & Hcalls1 & Hlen1).
    destruct (IH s1 ltac:(lia)) as (responses & s' & added & -> & Hlen & Hsem & Hcalls & Hadd).
    exists (response :: responses), s', (added1 ++ added)%list.
    split; [reflexivity|]. cbn [List.length]. rewrite length_app.
    repeat split; try lia.
    rewrite Hcalls, Hcalls1. now rewrite app_assoc.
Qed.

Lemma serve_answers_all_and_restores_gate_witness :
  exists responses s',
    serve test_settings repr_plain sample_json_loads sample_validation_error
      sample_reader failing_engine mixed_traffic (fresh test_settings)
    = Some (responses, s')
    /\ map (fun r => status_of r) responses = [401; 500; 400; 500]
    /\ sem_value s' = sem_value (fresh test_settings)
    /\ List.length (engine_calls s') = 2%nat.
Proof.
  destruct (serve_answers_all_and_restores_gate test_settings repr_plain
              sample_json_loads sample_validation_error sample_reader failing_engine
              mixed_traffic (fresh test_settings) eq_refl)
    as (responses & s' & added & Hserve & _ & Hsem & _ & _).
  exists responses, s'. split; [exact Hserve|].
  assert (Hrun : serve test_settings repr_plain sample_json_loads
                   sample_validation_error sample_reader failing_engine mixed_traffic
                   (fresh test_settings)
                 = Some (responses, s')) by exact Hserve.
  vm_compute in Hrun. injection Hrun as <- <-.
  split; [reflexivity|]. split; reflexivity.
Defined.

(** ** The loop and its handlers *)

Lemma nth_error_set_nth_same {A} (l : list A) i x old :
  nth_error l i = Some old -> nth_error (set_nth i x l) i = Some x.
Proof.
  revert i. induction l as [|y l IH]; intros [|i] H; simpl in *; try discriminate;
    [reflexivity | now apply IH].
Qed.

Lemma nth_error_set_nth_other {A} (l : list A) i j x :
  i <> j -> nth_error (set_nth i x l) j = nth_error l j.
Proof.
  revert i j. induction l as [|y l IH]; intros [|i] [|j] H; simpl; try reflexivity;
    [congruence | apply IH; congruence].
Qed.

Lemma set_nth_set_nth {A} (l : list A) i x y :
  set_nth i y (set_nth i x l) = set_nth i y l.
Proof.
  revert i. induction l as [|z l IH]; intros [|i]; simpl; try reflexivity.
  now rewrite IH.
Qed.

Lemma length_set_nth {A} (l : list A) i x :
  List.length (set_nth i x l) = List.length l.
Proof.
  revert i. induction l as [|z l IH]; intros [|i]; simpl; try reflexivity.
  now rewrite IH.
Qed.

(** X22. A handler that finds a free slot and is run without
    interruption by the loop, segment after segment, ends in the state
    and with the response of the endpoint run as one function: a refused
    request after its first segment, the shared state untouched; an
    admitted one after its third, resumed with the outcome of its
    engine call. *)
Theorem handler_is_its_segments :
  forall (cfg : Settings.t) (repr_str : string -> string)
         (json_loads : string -> option value) (validation_error : value -> string)
         (PdfReader : option (string -> except exn (list (option string))))
         (engine : ExtractArgs -> except exn value)
         (w : world) (i : nat) (r : request) (timing_ms : Z),
    nth_error (tasks w) i = Some (Arrived r) ->
    0 < sem_value (gate w) ->
    exists response s',
      handle cfg repr_str json_loads validation_error PdfReader engine r timing_ms
        (gate w) = Some (response, s')
      /\ ((exists err,
             response = Raise err /\ s' = gate w
             /\ run cfg repr_str json_loads validation_error PdfReader [Start i] w
                = Some {| gate := gate w;
                          tasks := set_nth i (Rejected err) (tasks w) |})
          \/ (exists args,
                run cfg repr_str json_loads validation_error PdfReader
                  [Start i; Enter i; Resume i (engine args) timing_ms] w
                = Some {| gate := s';
                          tasks := set_nth i (Completed response) (tasks w) |}
                /\ engine_calls s' = (engine_calls (gate w) ++ [args])%list)).
Proof.
  intros cfg repr_str json_loads validation_error PdfReader engine w i r timing_ms
         Hi Hfree.
  assert (Hgen : forall e rid key prologue,
             start cfg repr_str json_loads validation_error PdfReader r
             = match Auth.require_api_key cfg key with
               | Raise err => Rejected err
               | Ok _ => match prologue with
                         | Raise err => Rejected err
                         | Ok args => Waiting e rid args
                         end
               end ->
             exists response s',
               guarded cfg engine e prologue key rid timing_ms (gate w)
               = Some (response, s')
               /\ ((exists err,
                      response = Raise err /\ s' = gate w
                      /\ run cfg repr_str json_loads validation_error PdfReader
                           [Start i] w
                         = Some {| gate := gate w;
                                   tasks := set_nth i (Rejected err) (tasks w) |})
                   \/ (exists args,
                         run cfg repr_str json_loads validation_error PdfReader
                           [Start i; Enter i; Resume i (engine args) timing_ms] w
                         = Some {| gate := s';
                                   tasks := set_nth i (Completed response) (tasks w) |}
                         /\ engine_calls s' = (engine_calls (gate w) ++ [args])%list))).
  { intros e rid key prologue Hstart.
    unfold guarded. cbn [run fire]. rewrite Hi, Hstart.
    destruct (Auth.require_api_key cfg key) as [[]|err].
    2:{ eexists. eexists. split; [reflexivity|]. left. eauto. }
    destruct prologue as [args|err].
    2:{ eexists. eexists. split; [reflexivity|]. left. eauto. }
    cbn [tasks gate].
    rewrite (nth_error_set_nth_same _ i _ _ Hi).
    unfold enter_block, acquire. apply Z.ltb_lt in Hfree. rewrite Hfree.
    cbn [tasks gate].
    rewrite (nth_error_set_nth_same _ i (Dispatched e rid args) (Waiting e rid args))
      by (now apply nth_error_set_nth_same with (old := Arrived r)).
    eexists. eexists. split; [reflexivity|]. right. exists args.
    cbn [tasks gate]. rewrite !set_nth_set_nth. split; reflexivity. }
  destruct r as [key rid payload | key rid form]; unfold handle.
  - apply (Hgen Text rid key (extract_prologue cfg repr_str payload)). reflexivity.
  - apply (Hgen Pdf rid key
             (extract_pdf_prologue cfg json_loads validation_error PdfReader form)).
    reflexivity.
Qed.

Lemma handler_is_its_segments_witness :
  exists response s',
    handle tight_settings repr_plain sample_json_loads sample_validation_error
      sample_reader stub_engine
      (ExtractPdfCall (Some "test-service-key") "req-b" (romeo_form one_example_json))
      9 (gate busy_boot) = Some (response, s')
    /\ status_of response = 200.
Proof.
  destruct (handler_is_its_segments tight_settings repr_plain sample_json_loads
              sample_validation_error sample_reader stub_engine busy_boot 1
              (ExtractPdfCall (Some "test-service-key") "req-b"
                 (romeo_form one_example_json)) 9 eq_refl eq_refl)
    as (response & s' & Hhandle & _).
  exists response, s'. split; [exact Hhandle|].
  vm_compute in Hhandle. injection Hhandle as <- _. reflexivity.
Defined.

Section LoopFacts.

Variable cfg : Settings.t.
Variable repr_str : string -> string.
Variable json_loads : string -> option value.
Variable validation_error : value -> string.
Variable PdfReader : option (string -> except exn (list (option string))).

Local Abbreviation fire := (Loop.fire cfg repr_str json_loads validation_error PdfReader).
Local Abbreviation run := (Loop.run cfg repr_str json_loads validation_error PdfReader).

Lemma fire_keeps_answers a w w' :
  fire a w = Some w' ->
  List.length (tasks w') = List.length (tasks w)
  /\ (forall i t, nth_error (tasks w) i = Some t -> is_finished t = true ->
                  nth_error (tasks w') i = Some t)
  /\ exists added, engine_calls (gate w') = (engine_calls (gate w) ++ added)%list.
Proof.
  unfold Loop.fire. intros Hfire.
  destruct a as [j | j | j outcome timing_ms];
    destruct (nth_error (tasks w) j) as [[r|e rid args|e rid args|err|resp]|] eqn:Hj;
    try discriminate.
  - injection Hfire as <-. cbn [tasks gate]. rewrite length_set_nth.
    split; [reflexivity|]. split; [|exists []; now rewrite app_nil_r].
    intros i t Hi Hfin. destruct (Nat.eq_dec j i) as [->|Hne].
    + rewrite Hj in Hi. injection Hi as <-. discriminate Hfin.
    + now rewrite nth_error_set_nth_other.
  - unfold enter_block in Hfire. destruct (acquire (sem_value (gate w))); [|discriminate].
    injection Hfire as <-. cbn [tasks gate engine_calls]. rewrite length_set_nth.
    split; [reflexivity|]. split; [|now exists [args]].
    intros i t Hi Hfin. destruct (Nat.eq_dec j i) as [->|Hne].
    + rewrite Hj in Hi. injection Hi as <-. discriminate Hfin.
    + now rewrite nth_error_set_nth_other.
  - injection Hfire as <-. cbn [tasks gate leave_block engine_calls].
    rewrite length_set_nth.
    split; [reflexivity|]. split; [|exists []; now rewrite app_nil_r].
    intros i t Hi Hfin. destruct (Nat.eq_dec j i) as [->|Hne].
    + rewrite Hj in Hi. injection Hi as <-. discriminate Hfin.
    + now rewrite nth_error_set_nth_other.
Qed.

End LoopFacts.

(** X23. Under any schedule an answer is final: a request that has been
    refused or answered keeps that very response whatever the loop runs
    afterwards.  No request appears or disappears, and the record of
    engine calls only grows at its end. *)
Theorem answers_are_final :
  forall (cfg : Settings.t) (repr_str : string -> string)
         (json_loads : string -> option value) (validation_error : value -> string)
         (PdfReader : option (string -> except exn (list (option string))))
         (schedule : list action) (w w' : world),
    run cfg repr_str json_loads validation_error PdfReader schedule w = Some w' ->
    List.length (tasks w') = List.length (tasks w)
    /\ (forall i t, nth_error (tasks w) i = Some t -> is_finished t = true ->
                    nth_error (tasks w') i = Some t)
    /\ exists added, engine_calls (gate w') = (engine_calls (gate w) ++ added)%list.
Proof.
  intros cfg repr_str json_loads validation_error PdfReader schedule.
  induction schedule as [|a rest IH]; intros w w' Hrun.
  - cbn in Hrun. injection Hrun as <-. split; [reflexivity|]. split; [auto|].
    exists []. now rewrite app_nil_r.
  - cbn [run] in Hrun.
    destruct (fire cfg repr_str json_loads validation_error PdfReader a w)
      as [w1|] eqn:Hfire; [|discriminate].
    destruct (fire_keeps_answers _ _ _ _ _ _ _ _ Hfire) as (Hlen1 & Hfin1 & added1 & Hc1).
    destruct (IH w1 w' Hrun) as (Hlen & Hfin & added & Hc).
    split; [congruence|]. split.
    + intros i t Hi Ht. apply Hfin; [|exact Ht]. now apply Hfin1.
    + exists (added1 ++ added)%list. now rewrite Hc, Hc1, app_assoc.
Qed.

Lemma answers_are_final_witness :
  exists w',
    run tight_settings repr_plain sample_json_loads sample_validation_error
      sample_reader busy_schedule busy_boot = Some w'
    /\ List.length (tasks w') = 3%nat.
Proof.
  eexists. split; [vm_compute; reflexivity|].
  match goal with |- List.length (tasks ?w) = _ =>
    destruct (answers_are_final tight_settings repr_plain sample_json_loads
                sample_validation_error sample_reader busy_schedule busy_boot w
                eq_refl) as (Hlen & _)
  end.
  exact Hlen.
Defined.

(** X24. A well-formed value of [MAX_CONCURRENCY] is taken as it is,
    with no lower bound: when it is negative the semaphore cannot be
    built and the import of the module raises; otherwise the gate starts
    with that many free slots and no engine call on record. *)
Theorem negative_concurrency_fails_startup :
  forall (getenv : string -> option string) (int_of_str : string -> option Z)
         (raw : string) (n : Z) (requests : list request),
    getenv "MAX_CONCURRENCY" = Some raw ->
    int_of_str raw = Some n ->
    Settings.MAX_CONCURRENCY (Settings.load getenv int_of_str) = n
    /\ (n < 0 ->
        boot (Settings.load getenv int_of_str) requests
        = Raise (Error "ValueError: Semaphore initial value must be >= 0"))
    /\ (0 <= n ->
        boot (Settings.load getenv int_of_str) requests
        = Ok {| gate := {| sem_value := n; engine_calls := [] |};
                tasks := map Arrived requests |}).
Proof.
  intros getenv int_of_str raw n requests Henv Hint.
  assert (Hn : Settings.MAX_CONCURRENCY (Settings.load getenv int_of_str) = n).
  { cbn [Settings.load Settings.MAX_CONCURRENCY].
    now apply _int_env_parsed with raw. }
  split; [exact Hn|]. unfold boot, Semaphore. rewrite Hn. split; intros H.
  - apply Z.ltb_lt in H. now rewrite H.
  - apply Z.ltb_ge in H. now rewrite H.
Qed.

Lemma negative_concurrency_fails_startup_witness :
  boot (Settings.load negative_environ int_ascii) busy_requests
  = Raise (Error "ValueError: Semaphore initial value must be >= 0").
Proof.
  apply (negative_concurrency_fails_startup negative_environ int_ascii "-1" (-1)
           busy_requests eq_refl eq_refl).
  reflexivity.
Defined.

(** ** File names *)

Lemma length_append a b :
  String.length (a ++ b) = (String.length a + String.length b)%nat.
Proof. induction a as [|c a IH]; simpl; [reflexivity | now rewrite IH]. Qed.

Lemma lower_append a b : lower (a ++ b) = lower a ++ lower b.
Proof. induction a as [|c a IH]; simpl; [reflexivity | now rewrite IH]. Qed.

Lemma length_lower s : String.length (lower s) = String.length s.
Proof. induction s as [|c s IH]; simpl; [reflexivity | now rewrite IH]. Qed.

Lemma substring_whole s : substring 0 (String.length s) s = s.
Proof. induction s as [|c s IH]; simpl; [reflexivity | now rewrite IH]. Qed.

Lemma substring_skip p m s :
  substring (String.length p) m (p ++ s) = substring 0 m s.
Proof. induction p as [|c p IH]; simpl; [reflexivity | exact IH]. Qed.

Lemma substring_split k s :
  (k <= String.length s)%nat ->
  s = substring 0 k s ++ substring k (String.length s - k) s.
Proof.
  revert k. induction s as [|c s IH]; intros [|k] Hk; simpl in *; try lia.
  - reflexivity.
  - now rewrite substring_whole.
  - rewrite <- IH by lia. reflexivity.
Qed.

Lemma endswith_append p suffix : endswith (p ++ suffix) suffix = true.
Proof.
  unfold endswith. rewrite length_append.
  replace (String.length p + String.length suffix - String.length suffix)%nat
    with (String.length p) by lia.
  rewrite substring_skip, substring_whole, String.eqb_refl.
  apply andb_true_iff. split; [apply Nat.leb_le; lia | reflexivity].
Qed.

Lemma endswith_inv s suffix : endswith s suffix = true -> exists p, s = p ++ suffix.
Proof.
  unfold endswith. intros H. apply andb_true_iff in H. destruct H as [Hle Heq].
  apply Nat.leb_le in Hle. apply String.eqb_eq in Heq.
  exists (substring 0 (String.length s - String.length suffix) s).
  pose proof (substring_split (String.length s - String.length suffix) s ltac:(lia))
    as Hsplit.
  replace (String.length s - (String.length s - String.length suffix))%nat
    with (String.length suffix) in Hsplit by lia.
  now rewrite Heq in Hsplit.
Qed.

Lemma lower_split n a b :
  lower n = a ++ b -> exists n1 n2, n = n1 ++ n2 /\ lower n1 = a /\ lower n2 = b.
Proof.
  revert n. induction a as [|c a IH]; intros n H.
  - exists "", n. simpl in *. auto.
  - destruct n as [|d n]; simpl in H; [discriminate|].
    injection H as Hc Hrest. destruct (IH n Hrest) as (n1 & n2 & -> & H1 & H2).
    exists (String d n1), n2. simpl. rewrite H1, Hc. auto.
Qed.

(** X25. The file-name check is on the extension only and ignores its
    case: a name is accepted exactly when it ends in four characters
    that lower-case to [.pdf].  An absent or empty name is refused. *)
Theorem pdf_name_ignores_case :
  forall filename : option string,
    is_pdf_name filename = true
    <-> exists stem ext, filename = Some (stem ++ ext) /\ lower ext = ".pdf".
Proof.
  intros filename. unfold is_pdf_name. split.
  - destruct filename as [name|]; [|discriminate].
    intros H. apply andb_true_iff in H. destruct H as [_ H].
    apply endswith_inv in H. destruct H as [p Hp].
    destruct (lower_split _ _ _ Hp) as (stem & ext & -> & _ & Hext).
    now exists stem, ext.
  - intros (stem & ext & -> & Hext).
    rewrite lower_append, Hext, endswith_append, andb_true_r.
    destruct stem; [|reflexivity]. destruct ext; [discriminate | reflexivity].
Qed.

Example pdf_names :
  is_pdf_name (Some "Romeo.PDF") = true /\ is_pdf_name (Some ".pdf") = true
  /\ is_pdf_name (Some "romeo.pdf.txt") = false /\ is_pdf_name (Some "pdf") = false
  /\ is_pdf_name (Some "") = false /\ is_pdf_name None = false.
Proof. repeat split; reflexivity. Qed.

(** ** Examples that reach the engine *)

Lemma model_validate_text x m : model_validate x = Some m -> example_text m <> "".
Proof.
  unfold model_validate.
  destruct x as [ | | | | | | fields | | | | ]; try discriminate.
  destruct (dict_get fields "text") as [ | | | | s | | | | | | ]; try discriminate.
  destruct (1 <=? len s) eqn:Hlen; [|discriminate].
  assert (Hs : s <> "").
  { intros ->. discriminate Hlen. }
  destruct (dict_mem fields "extractions").
  - destruct (dict_get fields "extractions") as [ | | | | | items | | | | | ];
      try discriminate.
    destruct (all_dicts items); [|discriminate].
    cbn [option_map]. intros H. now injection H as <-.
  - intros H. now injection H as <-.
Qed.

Lemma extract_prologue_examples cfg repr_str payload args :
  extract_prologue cfg repr_str payload = Ok args ->
  arg_examples args = map Spec.compiled_example (examples payload).
Proof.
  unfold extract_prologue.
  repeat match goal with
         | |- context [if ?b then _ else _] => destruct b; [discriminate|]
         end.
  destruct (_validate_language_model_params repr_str (language_model_params payload));
    [|discriminate].
  cbn [bind].
  destruct (_build_examples_cases (examples payload)) as [[_ ->]|[_ ->]];
    [|discriminate].
  cbn [bind]. intros H. now injection H as <-.
Qed.

(** X26. Every example the engine receives has a text that is not
    empty, and there is at least one example: on the text path for the
    requests that satisfy the constraints of the schema, on the PDF path
    because each entry of the array is validated against the same
    schema. *)
Theorem engine_examples_have_text :
  forall (cfg : Settings.t) (repr_str : string -> string)
         (json_loads : string -> option value) (validation_error : value -> string)
         (PdfReader : option (string -> except exn (list (option string)))),
    (forall payload args,
        request_fields_ok payload = true ->
        extract_prologue cfg repr_str payload = Ok args ->
        arg_examples args <> []
        /\ Forall (fun b => data_text b <> "") (arg_examples args))
    /\ (forall form args,
          extract_pdf_prologue cfg json_loads validation_error PdfReader form = Ok args ->
          arg_examples args <> []
          /\ Forall (fun b => data_text b <> "") (arg_examples args)).
Proof.
  intros cfg repr_str json_loads validation_error PdfReader. split.
  - intros payload args Hfields Hpro.
    rewrite (extract_prologue_examples cfg repr_str payload args Hpro). unfold request_fields_ok in Hfields.
    repeat (apply andb_true_iff in Hfields; destruct Hfields as [Hfields ?]).
    split.
    + destruct (examples payload); [discriminate | discriminate].
    + apply Forall_map. apply Forall_forall. intros e He.
      match goal with H : forallb example_fields_ok _ = true |- _ =>
        rewrite forallb_forall in H; specialize (H e He) end.
      unfold example_fields_ok in *. cbn [Spec.compiled_example data_text].
      intros E. rewrite E in *. discriminate.
  - intros form args Hpro.
    destruct (extract_pdf_prologue_inv _ _ _ _ _ _ Hpro)
      as (items & models & full & built & _ & _ & _ & Hne & Hv & _ & _ & _ & Hb & ->).
    cbn [arg_examples].
    destruct (_build_examples_cases models) as [[_ Hmap]|[_ Hbad]];
      rewrite Hb in *; [|discriminate].
    injection Hmap as ->.
    pose proof (validate_examples_Forall2 _ _ _ Hv) as Hall. split.
    + destruct Hall; [congruence | discriminate].
    + apply Forall_map. clear -Hall.
      induction Hall as [|x m items models Hx _ IH]; constructor; [|exact IH].
      cbn [Spec.compiled_example data_text]. now apply model_validate_text with x.
Qed.

(** ** Defaults *)

(** X27. The schema bounds [max_workers] by 20, which is also the
    default ceiling: with a ceiling of 20 or more, and so with
    [MAX_WORKERS] unset, the worker rule of the text path refuses no
    request that satisfies the schema.  In particular a request that
    leaves [max_workers] to its default of 10 passes the rule. *)
Theorem worker_rule_idle_under_default_ceiling :
  forall (cfg : Settings.t) (repr_str : string -> string) (payload : ExtractRequest),
    request_fields_ok payload = true ->
    20 <= Settings.MAX_WORKERS cfg ->
    workers_exceed cfg (max_workers payload) = false
    /\ extract_prologue cfg repr_str payload
       <> Raise (HTTPException 400
                   ("max_workers exceeds MAX_WORKERS="
                    ++ str_of_int (Settings.MAX_WORKERS cfg))).
Proof.
  intros cfg repr_str payload Hfields Hceiling.
  assert (Hw : workers_exceed cfg (max_workers payload) = false).
  { unfold workers_exceed. destruct (max_workers payload) as [w|] eqn:Hw; [|reflexivity].
    destruct (fields_ok_workers payload w Hfields Hw) as [_ Hhi].
    destruct (w >? Settings.MAX_WORKERS cfg) eqn:E; [|apply andb_false_r].
    rewrite Z.gtb_ltb in E. apply Z.ltb_lt in E. lia. }
  split; [exact Hw|].
  unfold extract_prologue. rewrite Hw.
  destruct (len (text payload) >? Settings.MAX_TEXT_CHARS cfg); [discriminate|].
  destruct (Z.of_nat (List.length (examples payload)) >? Settings.MAX_EXAMPLES cfg);
    [discriminate|].
  unfold _validate_language_model_params.
  destruct (language_model_params payload) as [p|]; cbn [bind].
  - destruct (unknown_keys p); cbn [bind]; [|discriminate].
    destruct (_build_examples_cases (examples payload)) as [[_ ->]|[_ ->]];
      cbn [bind]; discriminate.
  - destruct (_build_examples_cases (examples payload)) as [[_ ->]|[_ ->]];
      cbn [bind]; discriminate.
Qed.

Lemma worker_rule_idle_under_default_ceiling_witness :
  Settings.MAX_WORKERS test_settings = 20
  /\ workers_exceed test_settings (max_workers romeo_payload) = false.
Proof.
  split; [reflexivity|].
  apply (worker_rule_idle_under_default_ceiling test_settings repr_plain romeo_payload).
  - reflexivity.
  - vm_compute. discriminate.
Defined.
